(** * Field extraction pipeline of the identity-document OCR API

    A shallow embedding of the Go packages [ocr] and [parser]: the region
    classifier, the field validators, the pattern tables, the two document
    parsers (driver's license and individual-number card) and their
    validation and normalization steps, followed by the properties of the
    specification that concern them.

    Go strings are byte sequences; they are modelled by [string], whose
    characters are the bytes of the UTF-8 text.  The standard-library
    functions the parsers call ([strings.Contains], [strings.ContainsAny],
    [strings.ReplaceAll], [strings.TrimSpace], [range] over a string,
    [regexp.FindStringSubmatch]) are modelled in the modules [utf8],
    [strings] and [regexp] below. *)

From Stdlib Require Import ZArith List String Ascii Lia Bool Permutation.
From stdpp Require Import base gmap strings list.

Local Open Scope Z_scope.

(** ** Package [unicode/utf8] *)

Module utf8.

(** A rune is an [int32] code point. *)
Definition rune := Z.

Definition RuneError : rune := 0xFFFD.
Definition RuneSelf : Z := 0x80.
Definition MaxRune : rune := 0x10FFFF.

Definition byte_val (a : ascii) : Z := Z.of_N (N_of_ascii a).
Definition byte_of (z : Z) : ascii := ascii_of_N (Z.to_N (z mod 256)).

Definition locb : Z := 0x80.
Definition hicb : Z := 0xBF.
Definition maskx : Z := 0x3F.
Definition mask2 : Z := 0x1F.
Definition mask3 : Z := 0x0F.
Definition mask4 : Z := 0x07.

(** The table [first] with [acceptRanges]: for a leading byte, the length
    of the sequence and the range accepted for the second byte; [None]
    is the entry [xx] of an invalid leading byte. *)
Definition first (p0 : Z) : option (nat * Z * Z) :=
  if p0 <? 0xC2 then None
  else if p0 <=? 0xDF then Some (2%nat, locb, hicb)
  else if p0 =? 0xE0 then Some (3%nat, 0xA0, hicb)
  else if p0 <=? 0xEC then Some (3%nat, locb, hicb)
  else if p0 =? 0xED then Some (3%nat, locb, 0x9F)
  else if p0 <=? 0xEF then Some (3%nat, locb, hicb)
  else if p0 =? 0xF0 then Some (4%nat, 0x90, hicb)
  else if p0 <=? 0xF3 then Some (4%nat, locb, hicb)
  else if p0 =? 0xF4 then Some (4%nat, locb, 0x8F)
  else None.

Definition outside (lo hi b : Z) : bool := (b <? lo) || (hi <? b).

(** [utf8.DecodeRuneInString]: the first rune of [s] and its width in
    bytes; an invalid encoding gives [(RuneError, 1)]. *)
Definition DecodeRuneInString (s : string) : rune * nat :=
  match s with
  | EmptyString => (RuneError, 0%nat)
  | String a0 t =>
    let s0 := byte_val a0 in
    if s0 <? RuneSelf then (s0, 1%nat)
    else
      match first s0 with
      | None => (RuneError, 1%nat)
      | Some (sz, lo, hi) =>
        if (String.length s <? sz)%nat then (RuneError, 1%nat)
        else
          match t with
          | EmptyString => (RuneError, 1%nat)
          | String a1 t1 =>
            let s1 := byte_val a1 in
            if outside lo hi s1 then (RuneError, 1%nat)
            else if (sz <=? 2)%nat then
              (Z.lor (Z.shiftl (Z.land s0 mask2) 6) (Z.land s1 maskx), 2%nat)
            else
              match t1 with
              | EmptyString => (RuneError, 1%nat)
              | String a2 t2 =>
                let s2 := byte_val a2 in
                if outside locb hicb s2 then (RuneError, 1%nat)
                else if (sz <=? 3)%nat then
                  (Z.lor (Z.lor (Z.shiftl (Z.land s0 mask3) 12)
                                (Z.shiftl (Z.land s1 maskx) 6))
                         (Z.land s2 maskx), 3%nat)
                else
                  match t2 with
                  | EmptyString => (RuneError, 1%nat)
                  | String a3 _ =>
                    let s3 := byte_val a3 in
                    if outside locb hicb s3 then (RuneError, 1%nat)
                    else
                      (Z.lor (Z.lor (Z.lor (Z.shiftl (Z.land s0 mask4) 18)
                                           (Z.shiftl (Z.land s1 maskx) 12))
                                    (Z.shiftl (Z.land s2 maskx) 6))
                             (Z.land s3 maskx), 4%nat)
                  end
              end
          end
      end
  end.

(** [utf8.EncodeRune] (as used by the conversion [string(runes)]). *)
Definition EncodeRune (r : rune) : string :=
  let three (r : rune) :=
    String (byte_of (Z.lor 0xE0 (Z.shiftr r 12)))
      (String (byte_of (Z.lor 0x80 (Z.land (Z.shiftr r 6) maskx)))
         (String (byte_of (Z.lor 0x80 (Z.land r maskx))) EmptyString)) in
  if (0 <=? r) && (r <=? 0x7F) then String (byte_of r) EmptyString
  else if (0 <=? r) && (r <=? 0x7FF) then
    String (byte_of (Z.lor 0xC0 (Z.shiftr r 6)))
      (String (byte_of (Z.lor 0x80 (Z.land r maskx))) EmptyString)
  else if (r <? 0) || (MaxRune <? r) || ((0xD800 <=? r) && (r <=? 0xDFFF))
  then three RuneError
  else if r <=? 0xFFFF then three r
  else
    String (byte_of (Z.lor 0xF0 (Z.shiftr r 18)))
      (String (byte_of (Z.lor 0x80 (Z.land (Z.shiftr r 12) maskx)))
         (String (byte_of (Z.lor 0x80 (Z.land (Z.shiftr r 6) maskx)))
            (String (byte_of (Z.lor 0x80 (Z.land r maskx))) EmptyString))).

(** [for _, r := range s]: the runes of [s] in order, each with the bytes
    it was decoded from.  [skip] counts the bytes of the current rune
    that are still to be passed over. *)
Fixpoint range_from (s : string) (skip : nat) : list (rune * string) :=
  match s with
  | EmptyString => []
  | String _ t =>
    match skip with
    | S k => range_from t k
    | O =>
      let '(r, n) := DecodeRuneInString s in
      (r, substring 0 n s) :: range_from t (n - 1)
    end
  end.

Definition range (s : string) : list (rune * string) := range_from s 0.

(** The conversion [[]rune(s)]. *)
Definition runes (s : string) : list rune := map fst (range s).

(** The conversion [string(rs)] of a rune slice. *)
Definition string_of_runes (rs : list rune) : string :=
  String.concat EmptyString (map EncodeRune rs).

(** The first rune of a literal. *)
Definition rune_of (s : string) : rune := fst (DecodeRuneInString s).

End utf8.

(** ** Package [strings] *)

Module strings.
Import utf8.

(** [strings.Contains(s, substr)]: [substr] occurs in [s], byte-wise. *)
Fixpoint Contains (s substr : string) : bool :=
  String.prefix substr s ||
  match s with
  | EmptyString => false
  | String _ t => Contains t substr
  end.

(** [strings.ContainsAny(s, chars)]: some code point of [chars] is among
    the code points of [s]. *)
Definition ContainsAny (s chars : string) : bool :=
  existsb (fun c => existsb (Z.eqb c) (runes chars)) (runes s).

(** [strings.ReplaceAll(s, old, new)]: the non-overlapping occurrences of
    [old] are replaced from left to right.  [skip] counts the bytes of a
    replaced occurrence still to be passed over. *)
Fixpoint replace_from (s old new : string) (skip : nat) : string :=
  match s with
  | EmptyString => EmptyString
  | String a t =>
    match skip with
    | S k => replace_from t old new k
    | O =>
      if String.prefix old s
      then String.append new
             (replace_from t old new (String.length old - 1))
      else String a (replace_from t old new 0)
    end
  end.

Definition ReplaceAll (s old new : string) : string :=
  if String.eqb old EmptyString
  then String.append
         (String.concat EmptyString
            (map (fun c => String.append new (snd c)) (range s))) new
  else replace_from s old new 0.

(** [unicode.IsSpace]. *)
Definition IsSpace (r : rune) : bool :=
  ((0x09 <=? r) && (r <=? 0x0D)) || (r =? 0x20) || (r =? 0x85) || (r =? 0xA0)
  || (r =? 0x1680) || ((0x2000 <=? r) && (r <=? 0x200A))
  || (r =? 0x2028) || (r =? 0x2029) || (r =? 0x202F) || (r =? 0x205F)
  || (r =? 0x3000).

Fixpoint trim_left (l : list (rune * string)) : list (rune * string) :=
  match l with
  | [] => []
  | c :: t => if IsSpace (fst c) then trim_left t else l
  end.

Definition trim_right (l : list (rune * string)) : list (rune * string) :=
  rev (trim_left (rev l)).

(** [strings.TrimSpace(s)]: [s] without its leading and trailing white
    space, as defined by Unicode. *)
Definition TrimSpace (s : string) : string :=
  String.concat EmptyString (map snd (trim_right (trim_left (range s)))).

End strings.

(** ** Package [regexp]

    The fragment of the RE2 syntax that the pattern tables use: literals,
    character classes, greedy repetition of a class, concatenation,
    alternation and one capturing group.  Matching is the leftmost-first
    (backtracking-priority) matching of Go's [regexp], on the runes of the
    text. *)

Module regexp.
Import utf8.

Inductive item : Type :=
| Chars (s : string)          (* every rune of the literal [s] *)
| Span (lo hi : string)       (* the range [lo-hi] *)
| Code (r : rune)             (* a rune given by its code point *)
| PerlSpace                   (* [\s], that is [\t\n\f\r ] *)
| PerlDigit.                  (* [\d], that is [0-9] *)

Record class : Type := Class { negated : bool; items : list item }.

Inductive Regexp : Type :=
| Lit (s : string)                            (* literal text *)
| Cls (c : class)                             (* one rune of a class *)
| Rep (c : class) (lo : nat) (hi : option nat)  (* greedy [c{lo,hi}] *)
| Cat (r1 r2 : Regexp)
| Alt (r1 r2 : Regexp)
| Grp (r : Regexp).                           (* the capturing group *)

Definition item_match (i : item) (r : rune) : bool :=
  match i with
  | Chars s => existsb (Z.eqb r) (runes s)
  | Span lo hi => (rune_of lo <=? r) && (r <=? rune_of hi)
  | Code c => r =? c
  | PerlSpace =>
    (r =? 0x09) || (r =? 0x0A) || (r =? 0x0C) || (r =? 0x0D) || (r =? 0x20)
  | PerlDigit => (0x30 <=? r) && (r <=? 0x39)
  end.

Definition class_match (c : class) (r : rune) : bool :=
  xorb (negated c) (existsb (fun i => item_match i r) (items c)).

(** The text being matched: its runes, each with its bytes. *)
Definition input := list (rune * string).

Definition bytes_of (s : input) : string :=
  String.concat EmptyString (map snd s).

(** What was consumed between the position [s] and the later [s']. *)
Definition consumed (s s' : input) : input :=
  firstn (length s - length s') s.

(** The result of a match: the position after it and the text of the
    capturing group, if it took part. *)
Definition result : Type := input * option input.

Fixpoint lit_match (l : list rune) (s : input) : option input :=
  match l with
  | [] => Some s
  | c :: l' =>
    match s with
    | [] => None
    | x :: s' => if fst x =? c then lit_match l' s' else None
    end
  end.

(** Greedy bounded repetition of a class: one more rune is preferred to
    stopping. *)
Fixpoint rep_match (c : class) (lo : nat) (hi : option nat) (s : input)
         (k : input -> option result) : option result :=
  let stop := match lo with O => k s | S _ => None end in
  match hi with
  | Some O => stop
  | _ =>
    match s with
    | [] => stop
    | x :: s' =>
      if class_match c (fst x) then
        match rep_match c (Nat.pred lo) (option_map Nat.pred hi) s' k with
        | Some r => Some r
        | None => stop
        end
      else stop
    end
  end.

(** Backtracking match of [re] at the position [s], in continuation
    style: [k] matches what follows. *)
Fixpoint match_at (re : Regexp) (s : input) (cap : option input)
         (k : input -> option input -> option result) : option result :=
  match re with
  | Lit l =>
    match lit_match (runes l) s with
    | Some s' => k s' cap
    | None => None
    end
  | Cls c =>
    match s with
    | [] => None
    | x :: s' => if class_match c (fst x) then k s' cap else None
    end
  | Rep c lo hi => rep_match c lo hi s (fun s' => k s' cap)
  | Cat r1 r2 => match_at r1 s cap (fun s' cap' => match_at r2 s' cap' k)
  | Alt r1 r2 =>
    match match_at r1 s cap k with
    | Some r => Some r
    | None => match_at r2 s cap k
    end
  | Grp r => match_at r s cap (fun s' _ => k s' (Some (consumed s s')))
  end.

(** The leftmost match: [[whole; group]], or [[]] (Go's [nil]) when the
    text has no match. *)
Fixpoint search (re : Regexp) (s : input) : list string :=
  match match_at re s None (fun s' cap => Some (s', cap)) with
  | Some (s', cap) =>
    [bytes_of (consumed s s');
     match cap with Some g => bytes_of g | None => EmptyString end]
  | None =>
    match s with
    | [] => []
    | _ :: t => search re t
    end
  end.

(** The method [FindStringSubmatch] of a compiled pattern. *)
Definition FindStringSubmatch (re : Regexp) (s : string) : list string :=
  search re (range s).

End regexp.

(** ** Errors

    The errors of the pipeline, with the text that [fmt.Errorf] formats
    kept as structure: [Wrapped ctx e] is [fmt.Errorf("ctx: %w", e)]. *)

Inductive error : Type :=
| EmptyMat                                  (* "empty Mat data" *)
| EmptyImage                                (* "cannot process empty image" *)
| EngineFailure (msg : string)              (* an error of the OCR engine *)
| RequiredFieldMissing (field : string)     (* "required field '%s' is missing or empty" *)
| InvalidLicenseNumber (got : nat)          (* "... expected 12 digits, got %d" *)
| InvalidIndividualNumber (got : nat)       (* "... expected 12 digits, got %d" *)
| InvalidGender (got : string)              (* "invalid gender value: ..." *)
| Wrapped (context : string) (err : error).

Inductive outcome (A : Type) : Type :=
| Ok (a : A)
| Err (e : error).

Arguments Ok {A} a.
Arguments Err {A} e.

(** A field map: Go's [map[string]string]. *)
Abbreviation FieldMap := (gmap string string).

(** ** Package [imageprocessor] *)

Module imageprocessor.

(** [type Mat []byte]. *)
Definition Mat := string.

Definition ToBytes (m : Mat) : outcome string :=
  if (String.length m =? 0)%nat then Err EmptyMat else Ok m.

End imageprocessor.

(** ** Package [ocr] *)

Module ocr.
Import strings.

(** [RegionInfo]; the [float64] field [Confidence], which no parser
    reads, is left out. *)
Record RegionInfo : Type := {
  Text : string;
  X : Z; Y : Z; W : Z; H : Z;
  Category : string
}.

(** The two extraction services of the engine, which run the external
    recognizer: what they return for an image is not determined by the
    program. *)
Record OCREngine : Type := {
  ExtractText : string -> outcome string;
  ExtractRegions : string -> outcome (list RegionInfo)
}.

(** [categorizeText]: the coarse category of a recognized fragment. *)
Definition categorizeText (text : string) : string :=
  if Contains text "年" && Contains text "月" then "date"%string
  else if Contains text "都" || Contains text "県"
          || Contains text "市" || Contains text "区" then "address"%string
  else if (2 <=? String.length text)%nat && (String.length text <=? 10)%nat
          && negb (ContainsAny text "0123456789") then "name"%string
  else if ContainsAny text "0123456789" && (4 <=? String.length text)%nat
       then "number"%string
  else "other"%string.

End ocr.

(** ** Package [parser]: field validators and region extractors *)

Module parser.
Import utf8 strings regexp imageprocessor ocr.

Local Open Scope string_scope.

Definition LF : string := String "010"%char EmptyString.
Definition TAB : string := String "009"%char EmptyString.

Definition isValidDate (text : string) : bool :=
  Contains text "年" && Contains text "月".

(** The loop [for _, r := range s] that rejects a rune outside ['0'-'9']. *)
Definition allDigits (s : string) : bool :=
  forallb (fun r => negb ((r <? 0x30)%Z || (0x39 <? r)%Z)) (runes s).

Definition isValidIndividualNumber (text : string) : bool :=
  if negb (String.length text =? 12)%nat then false
  else allDigits text.

Definition isValidLicenseNumber (text : string) : bool :=
  let cleaned := ReplaceAll text " " "" in
  if negb (String.length cleaned =? 12)%nat then false
  else allDigits cleaned.

Definition hasDivisionMarker (text : string) : bool :=
  Contains text "都" || Contains text "県"
  || Contains text "市" || Contains text "区".

Fixpoint extractMunicipality (regions : list RegionInfo) : option string :=
  match regions with
  | [] => None
  | region :: rest =>
    let municipality := TrimSpace (Text region) in
    if hasDivisionMarker (Text region)
       && (3 <=? String.length municipality)%nat
       && (String.length municipality <=? 20)%nat
    then Some municipality
    else extractMunicipality rest
  end.

Definition extractMunicipalityFromRegions (regions : list RegionInfo)
  : string :=
  default "" (extractMunicipality regions).

(** The three helpers of which the package holds two versions: the ones
    written next to the individual-number-card parser, and the later ones
    of the shared helper file. *)
Record Helpers : Type := {
  isValidName : string -> bool;
  isValidAddress : string -> bool;
  extractNameFromRegions : list RegionInfo -> string
}.

(** *** The helpers next to the individual-number-card parser *)
Module Inline.

Definition isValidName (text : string) : bool :=
  if (String.length text <? 2)%nat || (20 <? String.length text)%nat
  then false
  else negb (ContainsAny text "0123456789年月日都道府県市区町村").

Definition isValidAddress (text : string) : bool :=
  if (String.length text <? 5)%nat then false
  else ContainsAny text "都道府県市区町村".

Definition nameCandidate (region : RegionInfo) : bool :=
  String.eqb (Category region) "name"
  || ((2 <=? String.length (Text region))%nat
      && (String.length (Text region) <=? 10)%nat
      && negb (ContainsAny (Text region)
                 "0123456789年月日都道府県市区町村個人番号")).

Fixpoint extractName (regions : list RegionInfo) : option string :=
  match regions with
  | [] => None
  | region :: rest =>
    let name := TrimSpace (Text region) in
    if nameCandidate region && isValidName name then Some name
    else extractName rest
  end.

Definition extractNameFromRegions (regions : list RegionInfo) : string :=
  default "" (extractName regions).

Definition helpers : Helpers :=
  {| parser.isValidName := isValidName;
     parser.isValidAddress := isValidAddress;
     parser.extractNameFromRegions := extractNameFromRegions |}.

End Inline.

(** *** The helpers of the shared file *)
Module Shared.

Definition isValidName (text : string) : bool :=
  if Contains text "氏名" || Contains text "番号" || Contains text "免許"
  then false
  else if (String.length text <? 2)%nat || (20 <? String.length text)%nat
  then false
  else negb (ContainsAny text "0123456789年月日都道府県市区町村").

Definition isValidAddress (text : string) : bool :=
  if (String.length text <? 5)%nat then false
  else if negb (ContainsAny text "都道府県市区町村丁目番地") then false
  else if Contains text "氏名" || Contains text "生年月日" then false
  else true.

(** First loop: the fragment after a name label, else the labelled
    fragment itself without its label. *)
Fixpoint labelledName (regions : list RegionInfo) : option string :=
  match regions with
  | [] => None
  | region :: rest =>
    if Contains (Text region) "氏名" || Contains (Text region) "氏 名"
    then
      let next :=
        match rest with
        | [] => None
        | following :: _ =>
          let name := TrimSpace (Text following) in
          let name := ReplaceAll name "氏名" "" in
          let name := TrimSpace name in
          if isValidName name then Some name else None
        end in
      match next with
      | Some name => Some name
      | None =>
        let name := ReplaceAll (Text region) "氏名" "" in
        let name := TrimSpace name in
        if isValidName name then Some name else labelledName rest
      end
    else labelledName rest
  end.

Fixpoint fallbackName (regions : list RegionInfo) : option string :=
  match regions with
  | [] => None
  | region :: rest =>
    let name := TrimSpace (Text region) in
    if Inline.nameCandidate region && isValidName name then Some name
    else fallbackName rest
  end.

Definition extractNameFromRegions (regions : list RegionInfo) : string :=
  match labelledName regions with
  | Some name => name
  | None => default "" (fallbackName regions)
  end.

Definition helpers : Helpers :=
  {| parser.isValidName := isValidName;
     parser.isValidAddress := isValidAddress;
     parser.extractNameFromRegions := extractNameFromRegions |}.

End Shared.

(** *** Normalization steps shared by the two parsers *)

(** The loop [for strings.Contains(cleaned, "  ")] that halves the runs of
    spaces; every pass shortens the string, so its length bounds the
    number of passes. *)
Fixpoint collapseSpaces (fuel : nat) (cleaned : string) : string :=
  match fuel with
  | O => cleaned
  | S fuel' =>
    if Contains cleaned "  "
    then collapseSpaces fuel' (ReplaceAll cleaned "  " " ")
    else cleaned
  end.

Definition normalizeAddress (data : FieldMap) : FieldMap :=
  match data !! "address" with
  | Some address =>
    let cleaned := ReplaceAll address LF " " in
    let cleaned := ReplaceAll cleaned TAB " " in
    let cleaned := collapseSpaces (String.length cleaned) cleaned in
    <["address" := TrimSpace cleaned]> data
  | None => data
  end.

Definition spaceName (name : string) : string :=
  let cleaned := TrimSpace name in
  let rs := runes cleaned in
  if negb (Contains cleaned " ") && (2 <? length rs)%nat
     && (4 <=? length rs)%nat
  then
    let familyNameEnd := if (5 <? length rs)%nat then 3%nat else 2%nat in
    string_of_runes (firstn familyNameEnd rs) ++ " "
      ++ string_of_runes (skipn familyNameEnd rs)
  else cleaned.

Definition normalizeName (data : FieldMap) : FieldMap :=
  match data !! "name" with
  | Some name => <["name" := spaceName name]> data
  | None => data
  end.

(** One pass of the loop over the pattern table. *)
Definition applyPattern (ocrText : string) (extractedData : FieldMap)
           (entry : string * Regexp) : FieldMap :=
  let '(fieldName, pattern) := entry in
  let matches := FindStringSubmatch pattern ocrText in
  if (1 <? length matches)%nat then
    let value := TrimSpace (nth 1 matches "") in
    if negb (String.eqb value "")
    then <[fieldName := value]> extractedData
    else extractedData
  else extractedData.

(** The alternate pattern [alt] is consulted if [field] is still absent. *)
Definition applyAlternate (patterns : gmap string Regexp)
           (ocrText : string) (field alt : string)
           (extractedData : FieldMap) : FieldMap :=
  match extractedData !! field with
  | Some _ => extractedData
  | None =>
    match patterns !! alt with
    | Some altPattern =>
      let matches := FindStringSubmatch altPattern ocrText in
      if (1 <? length matches)%nat
      then <[field := TrimSpace (nth 1 matches "")]> extractedData
      else extractedData
    | None => extractedData
    end
  end.

(** *** Building blocks of the pattern tables *)

Fixpoint seq (l : list Regexp) : Regexp :=
  match l with
  | [] => Lit ""
  | [r] => r
  | r :: l' => Cat r (seq l')
  end.

Fixpoint alt (l : list Regexp) : Regexp :=
  match l with
  | [] => Lit ""
  | [r] => r
  | r :: l' => Alt r (alt l')
  end.

Definition space : class := Class false [PerlSpace].
Definition nonSpace : class := Class true [PerlSpace].
Definition digit : class := Class false [PerlDigit].
Definition notNewline : class := Class true [Code 0x0A].
Definition notCRLF : class := Class true [Code 0x0D; Code 0x0A].
Definition star (c : class) : Regexp := Rep c 0 None.
Definition plus (c : class) : Regexp := Rep c 1 None.
Definition times (n : nat) (c : class) : Regexp := Rep c n (Some n).
Definition between (lo hi : nat) (c : class) : Regexp := Rep c lo (Some hi).
(** [\s*[:：]?\s*] *)
Definition separator : Regexp :=
  seq [star space; between 0 1 (Class false [Chars ":："]); star space].
(** [(\d{4}\s*\d{4}\s*\d{4}|\d{12})] *)
Definition twelveDigits : Regexp :=
  Grp (alt [seq [times 4 digit; star space; times 4 digit; star space;
                 times 4 digit];
            times 12 digit]).
(** [[ァ-ヴー一-龯ひ-ゖ]] *)
Definition kanaKanji : class :=
  Class false [Span "ァ" "ヴ"; Chars "ー"; Span "一" "龯"; Span "ひ" "ゖ"].
(** [\d{1,2}年\d{1,2}月\d{1,2}日] *)
Definition monthDay : Regexp :=
  seq [between 1 2 digit; Lit "年"; between 1 2 digit; Lit "月";
       between 1 2 digit; Lit "日"].
Definition nameAlt : Regexp :=
  Grp (seq [plus kanaKanji; plus space; plus kanaKanji]).
Definition birthDateAlt : Regexp :=
  Grp (alt [seq [Cls (Class false [Chars "平成|昭和|令和"]); monthDay];
            seq [times 4 digit; Lit "年"; between 1 2 digit; Lit "月";
                 between 1 2 digit; Lit "日"]]).
Definition issueDate : Regexp :=
  seq [alt [Lit "交付年月日";
            seq [Lit "交付"; star space; Lit "年"; star space; Lit "月";
                 star space; Lit "日"]];
       separator; Grp (plus notCRLF)].
Definition expiryDate : Regexp :=
  seq [alt [Lit "有効期限";
            seq [Lit "有効"; star space; Lit "期"; star space; Lit "限"]];
       separator; Grp (plus notCRLF)].

(** *** The driver's license parser *)
Module JPDriverLicenseParser.

Record t : Type := { patterns : gmap string Regexp }.

Definition namePattern : Regexp :=
  seq [Lit "氏名"; star space;
       Grp (seq [plus nonSpace; plus space; plus nonSpace])].
Definition addressPattern : Regexp :=
  seq [Lit "住所"; star space; Grp (plus notNewline)].
Definition birthDatePattern : Regexp :=
  seq [Lit "生年月日"; star space; Grp (plus nonSpace)].
Definition licenseNumberPattern : Regexp :=
  seq [alt [Lit "免許証番号"; seq [Lit "免許証"; star space; Lit "番号"]];
       separator; twelveDigits].
Definition licenseClassPattern : Regexp :=
  seq [alt [Lit "免許の種類";
            seq [Lit "免許"; star space; Lit "の"; star space; Lit "種類"];
            Lit "種類"];
       separator; Grp (plus notCRLF)].

Definition initJPDriverLicensePatterns : gmap string Regexp :=
  <["birth_date_alt" := birthDateAlt]>
  (<["name_alt" := nameAlt]>
  (<["license_class" := licenseClassPattern]>
  (<["expiry_date" := expiryDate]>
  (<["issue_date" := issueDate]>
  (<["license_number" := licenseNumberPattern]>
  (<["birth_date" := birthDatePattern]>
  (<["address" := addressPattern]>
  (<["name" := namePattern]> ∅)))))))).

Definition NewJPDriverLicenseParser : t :=
  {| patterns := initJPDriverLicensePatterns |}.

(** [validateExtractedData]; [None] is Go's [nil]. *)
Definition validateExtractedData (data : FieldMap) : option error :=
  let requiredFields := ["name"] in
  match
    List.find (fun field =>
            match data !! field with
            | Some value => String.eqb (TrimSpace value) ""
            | None => true
            end) requiredFields
  with
  | Some field => Some (RequiredFieldMissing field)
  | None =>
    match data !! "license_number" with
    | Some licenseNumber =>
      let cleanNumber := ReplaceAll licenseNumber " " "" in
      if negb (String.length cleanNumber =? 12)%nat
      then Some (InvalidLicenseNumber (String.length cleanNumber))
      else None
    | None => None
    end
  end.

(** [postProcessExtractedData]. *)
Definition normalizeLicenseNumber (data : FieldMap) : FieldMap :=
  match data !! "license_number" with
  | Some licenseNumber =>
    let cleaned := ReplaceAll licenseNumber "  " " " in
    let cleaned := TrimSpace cleaned in
    <["license_number" := cleaned]> data
  | None => data
  end.

Definition postProcessExtractedData (data : FieldMap) : FieldMap :=
  normalizeName (normalizeAddress (normalizeLicenseNumber data)).

(** [parseTextWithRegex]; [order] is the order in which the [range]
    loop visits the entries of the pattern table, which Go leaves
    unspecified.  The error it returns is always [nil]. *)
Definition parseTextWithRegex (p : t) (order : list (string * Regexp))
           (ocrText : string) : FieldMap :=
  let extractedData := fold_left (applyPattern ocrText) order ∅ in
  let extractedData :=
    applyAlternate (patterns p) ocrText "name" "name_alt" extractedData in
  let extractedData :=
    applyAlternate (patterns p) ocrText "birth_date" "birth_date_alt"
      extractedData in
  postProcessExtractedData extractedData.

Section Parse.
Variable h : Helpers.
Variable engine : OCREngine.
(** The method of the parser that asks the engine for the flat text;
    its file is not part of the sources at hand. *)
Variable extractTextUsingOCR : Mat -> outcome string.

(** The body of the loop over the regions. *)
Definition processRegion (extractedData : FieldMap)
           (region : RegionInfo) : FieldMap :=
  let text := Text region in
  if String.eqb (Category region) "name" then
    if isValidName h text then <["name" := text]> extractedData
    else extractedData
  else if String.eqb (Category region) "address" then
    if isValidAddress h text then <["address" := text]> extractedData
    else extractedData
  else if String.eqb (Category region) "date" then
    if isValidDate text then
      if Contains text "生" then <["birth_date" := text]> extractedData
      else if Contains text "交付"
      then <["issue_date" := text]> extractedData
      else if Contains text "有効"
      then <["expiry_date" := text]> extractedData
      else extractedData
    else extractedData
  else if String.eqb (Category region) "number" then
    if isValidLicenseNumber text
    then <["license_number" := text]> extractedData
    else extractedData
  else extractedData.

Definition extractFromRegions (regions : list RegionInfo) : FieldMap :=
  let extractedData := fold_left processRegion regions ∅ in
  let municipality := extractMunicipalityFromRegions regions in
  let extractedData :=
    if negb (String.eqb municipality "")
    then <["municipality" := municipality]> extractedData
    else extractedData in
  let name := extractNameFromRegions h regions in
  if negb (String.eqb name "")
  then <["name" := name]> extractedData
  else extractedData.

Definition parseWithRegionDetection (mat : Mat) : outcome FieldMap :=
  match ToBytes mat with
  | Err err => Err (Wrapped "failed to convert Mat to bytes" err)
  | Ok imageData =>
    match ExtractRegions engine imageData with
    | Err err => Err (Wrapped "failed to extract regions" err)
    | Ok regions => Ok (extractFromRegions regions)
    end
  end.

(** Steps 2 to 4 of [Parse]. *)
Definition fallbackStage (p : t) (order : list (string * Regexp))
           (mat : Mat) : outcome FieldMap :=
  match extractTextUsingOCR mat with
  | Err err => Err (Wrapped "failed to extract text via OCR" err)
  | Ok ocrText =>
    let extractedData := parseTextWithRegex p order ocrText in
    match validateExtractedData extractedData with
    | Some err =>
      Err (Wrapped "validation failed for driver's license data" err)
    | None => Ok extractedData
    end
  end.

(** [Parse].  (The line it prints on standard output when the region
    data fails validation is not modelled.) *)
Definition Parse (p : t) (order : list (string * Regexp)) (mat : Mat)
  : outcome FieldMap :=
  match parseWithRegionDetection mat with
  | Ok extractedData =>
    if (0 <? size extractedData)%nat then
      match validateExtractedData extractedData with
      | None => Ok extractedData
      | Some _ => fallbackStage p order mat
      end
    else fallbackStage p order mat
  | Err _ => fallbackStage p order mat
  end.

End Parse.

End JPDriverLicenseParser.

(** *** The individual-number-card parser *)
Module IndividualNumberCardParser.

Record t : Type := { patterns : gmap string Regexp }.

Definition labelled (whole : string) (a b : string) : Regexp :=
  alt [Lit whole; seq [Lit a; star space; Lit b]].

Definition namePattern : Regexp :=
  seq [labelled "氏名" "氏" "名"; separator; Grp (plus notCRLF)].
Definition addressPattern : Regexp :=
  seq [labelled "住所" "住" "所"; separator; Grp (plus notCRLF)].
Definition birthDatePattern : Regexp :=
  seq [alt [Lit "生年月日";
            seq [Lit "生"; star space; Lit "年"; star space; Lit "月";
                 star space; Lit "日"]];
       separator; Grp (plus notCRLF)].
Definition genderPattern : Regexp :=
  seq [labelled "性別" "性" "別"; separator;
       Grp (Cls (Class false [Chars "男女"]))].
Definition individualNumberPattern : Regexp :=
  seq [labelled "個人番号" "個人" "番号"; separator; twelveDigits].
Definition individualNumberAlt : Regexp :=
  Grp (seq [times 4 digit; Lit "-"; times 4 digit; Lit "-";
            times 4 digit]).
Definition municipalityPattern : Regexp :=
  Grp (seq [plus (Class true [Chars "都道府県"]);
            Cls (Class false [Chars "都道府県"]);
            plus (Class true [Chars "市区町村"]);
            Cls (Class false [Chars "市区町村"])]).

Definition initIndividualNumberCardPatterns : gmap string Regexp :=
  <["municipality" := municipalityPattern]>
  (<["individual_number_alt" := individualNumberAlt]>
  (<["birth_date_alt" := birthDateAlt]>
  (<["name_alt" := nameAlt]>
  (<["expiry_date" := expiryDate]>
  (<["issue_date" := issueDate]>
  (<["individual_number" := individualNumberPattern]>
  (<["gender" := genderPattern]>
  (<["birth_date" := birthDatePattern]>
  (<["address" := addressPattern]>
  (<["name" := namePattern]> ∅)))))))))).

Definition NewIndividualNumberCardParser : t :=
  {| patterns := initIndividualNumberCardPatterns |}.

(** [validateExtractedData]; [None] is Go's [nil].  (The line the
    method prints on standard output is not modelled.) *)
Definition validateExtractedData (data : FieldMap) : option error :=
  let requiredFields := ["name"] in
  match
    List.find (fun field =>
                 match data !! field with
                 | Some value => String.eqb (TrimSpace value) ""
                 | None => true
                 end) requiredFields
  with
  | Some field => Some (RequiredFieldMissing field)
  | None =>
    let numberError :=
      match data !! "individual_number" with
      | Some individualNumber =>
        let cleanNumber := ReplaceAll individualNumber " " "" in
        let cleanNumber := ReplaceAll cleanNumber "-" "" in
        if negb (String.length cleanNumber =? 12)%nat
        then Some (InvalidIndividualNumber (String.length cleanNumber))
        else None
      | None => None
      end in
    match numberError with
    | Some err => Some err
    | None =>
      match data !! "gender" with
      | Some gender =>
        if negb (String.eqb gender "男") && negb (String.eqb gender "女")
        then Some (InvalidGender gender)
        else None
      | None => None
      end
    end
  end.

(** [postProcessExtractedData]. *)
Definition normalizeIndividualNumber (data : FieldMap) : FieldMap :=
  match data !! "individual_number" with
  | Some individualNumber =>
    let cleaned := ReplaceAll individualNumber " " "" in
    let cleaned := ReplaceAll cleaned "-" "" in
    if (String.length cleaned =? 12)%nat then
      let formatted :=
        substring 0 4 cleaned ++ "-" ++ substring 4 4 cleaned ++ "-"
          ++ substring 8 4 cleaned in
      <["individual_number" := formatted]> data
    else data
  | None => data
  end.

Definition normalizeGender (data : FieldMap) : FieldMap :=
  match data !! "gender" with
  | Some gender =>
    let cleaned := TrimSpace gender in
    if String.eqb cleaned "男性" || String.eqb cleaned "男"
    then <["gender" := "男"]> data
    else if String.eqb cleaned "女性" || String.eqb cleaned "女"
    then <["gender" := "女"]> data
    else data
  | None => data
  end.

Definition postProcessExtractedData (data : FieldMap) : FieldMap :=
  normalizeGender
    (normalizeName (normalizeAddress (normalizeIndividualNumber data))).

(** [parseTextWithRegex]; [order] is the order in which the [range]
    loop visits the entries of the pattern table, which Go leaves
    unspecified.  The error it returns is always [nil]. *)
Definition parseTextWithRegex (p : t) (order : list (string * Regexp))
           (ocrText : string) : FieldMap :=
  let extractedData := fold_left (applyPattern ocrText) order ∅ in
  let extractedData :=
    applyAlternate (patterns p) ocrText "name" "name_alt" extractedData in
  let extractedData :=
    applyAlternate (patterns p) ocrText "birth_date" "birth_date_alt"
      extractedData in
  let extractedData :=
    applyAlternate (patterns p) ocrText "individual_number"
      "individual_number_alt" extractedData in
  postProcessExtractedData extractedData.

Section Parse.
Variable h : Helpers.
Variable engine : OCREngine.

Definition extractTextUsingOCR (mat : Mat) : outcome string :=
  if (String.length mat =? 0)%nat then Err EmptyImage
  else
    match ExtractText engine mat with
    | Err err => Err (Wrapped "OCR engine failed to extract text" err)
    | Ok text => Ok text
    end.

(** The body of the loop over the regions. *)
Definition processRegion (extractedData : FieldMap)
           (region : RegionInfo) : FieldMap :=
  let text := Text region in
  if String.eqb (Category region) "name" then
    if isValidName h text then <["name" := text]> extractedData
    else extractedData
  else if String.eqb (Category region) "address" then
    if isValidAddress h text then <["address" := text]> extractedData
    else extractedData
  else if String.eqb (Category region) "date" then
    if isValidDate text then
      if Contains text "生" then <["birth_date" := text]> extractedData
      else <["expiry_date" := text]> extractedData
    else extractedData
  else if String.eqb (Category region) "number" then
    if isValidIndividualNumber text
    then <["individual_number" := text]> extractedData
    else extractedData
  else extractedData.

Definition extractFromRegions (regions : list RegionInfo) : FieldMap :=
  let extractedData := fold_left processRegion regions ∅ in
  let municipality := extractMunicipalityFromRegions regions in
  let extractedData :=
    if negb (String.eqb municipality "")
    then <["municipality" := municipality]> extractedData
    else extractedData in
  let name := extractNameFromRegions h regions in
  if negb (String.eqb name "")
  then <["name" := name]> extractedData
  else extractedData.

Definition parseWithRegionDetection (mat : Mat) : outcome FieldMap :=
  match ToBytes mat with
  | Err err => Err (Wrapped "failed to convert Mat to bytes" err)
  | Ok imageData =>
    match ExtractRegions engine imageData with
    | Err err => Err (Wrapped "failed to extract regions" err)
    | Ok regions => Ok (extractFromRegions regions)
    end
  end.

(** Steps 2 to 4 of [Parse]. *)
Definition fallbackStage (p : t) (order : list (string * Regexp))
           (mat : Mat) : outcome FieldMap :=
  match extractTextUsingOCR mat with
  | Err err => Err (Wrapped "failed to extract text via OCR" err)
  | Ok ocrText =>
    let extractedData := parseTextWithRegex p order ocrText in
    match validateExtractedData extractedData with
    | Some err =>
      Err (Wrapped "validation failed for individual number card data"
             err)
    | None => Ok extractedData
    end
  end.

(** [Parse].  (The line it prints on standard output when the region
    data fails validation is not modelled.) *)
Definition Parse (p : t) (order : list (string * Regexp)) (mat : Mat)
  : outcome FieldMap :=
  match parseWithRegionDetection mat with
  | Ok extractedData =>
    if (0 <? size extractedData)%nat then
      match validateExtractedData extractedData with
      | None => Ok extractedData
      | Some _ => fallbackStage p order mat
      end
    else fallbackStage p order mat
  | Err _ => fallbackStage p order mat
  end.

End Parse.

End IndividualNumberCardParser.

End parser.

(** ** Vocabulary of the specification *)

Module Spec.
Import utf8 strings regexp imageprocessor ocr parser.

Local Open Scope string_scope.

Definition bytes (s : string) : list ascii := list_ascii_of_string s.

(** A decimal digit, as a byte. *)
Definition isDigitByte (a : ascii) : bool :=
  (0x30 <=? byte_val a)%Z && (byte_val a <=? 0x39)%Z.

Definition digitsOnly (s : string) : bool := forallb isDigitByte (bytes s).
Definition hasDigit (s : string) : bool := existsb isDigitByte (bytes s).

(** [s] without the occurrences of the byte [b]. *)
Fixpoint without (b : ascii) (s : string) : string :=
  match s with
  | EmptyString => EmptyString
  | String a t =>
    if Ascii.eqb a b then without b t else String a (without b t)
  end.

(** No byte of [s] is [b]. *)
Definition freeOf (b : ascii) (s : string) : bool :=
  forallb (fun a => negb (Ascii.eqb a b)) (bytes s).

(** Every byte of [s] is an ASCII byte that is not white space. *)
Definition plainBytes (s : string) : bool :=
  forallb (fun a => (byte_val a <? 0x80)%Z && negb (IsSpace (byte_val a)))
          (bytes s).

(** The [k] bytes at the head of [t] exist and lie above the ASCII
    range, as the bytes after the first one of a multi-byte rune do. *)
Fixpoint highBytes (k : nat) (t : string) : Prop :=
  match k with
  | O => True
  | S k' =>
    match t with
    | EmptyString => False
    | String b t' => (0x80 <= byte_val b)%Z /\ highBytes k' t'
    end
  end.

(** Stripping spaces and hyphens. *)
Definition stripSpacesHyphens (s : string) : string :=
  without "-"%char (without " "%char s).

(** Stripping all white space and hyphens. *)
Definition stripWhitespaceHyphens (s : string) : string :=
  String.concat ""
    (map snd
       (filter (fun c => negb (IsSpace (fst c) || (fst c =? 0x2D)%Z))
          (range s))).

(** The value reduces to exactly twelve decimal digits. *)
Definition twelveDigitsIn (s : string) : bool :=
  (String.length s =? 12)%nat && digitsOnly s.

(** Four-four-four grouping of a twelve-byte string. *)
Definition group444 (c : string) : string :=
  substring 0 4 c ++ "-" ++ substring 4 4 c ++ "-" ++ substring 8 4 c.

(** The form dddd-dddd-dddd. *)
Definition grouped (v : string) : Prop :=
  exists c, twelveDigitsIn c = true /\ v = group444 c.

(** A field that is present and not blank after trimming. *)
Definition nonBlank (data : FieldMap) (field : string) : Prop :=
  exists value, data !! field = Some value /\ TrimSpace value <> "".

(** The check of the required fields, for the one field required. *)
Definition nameCheck (data : FieldMap) : bool :=
  match data !! "name" with
  | Some value => negb (String.eqb (TrimSpace value) "")
  | None => false
  end.

(** The outcome of the region-based stage does not end the parse: the
    stage returned an error, an empty map, or a map that [validate]
    rejects. *)
Definition regionStageFails (validate : FieldMap -> option error)
           (o : outcome FieldMap) : Prop :=
  match o with
  | Err _ => True
  | Ok data => size data = 0%nat \/ validate data <> None
  end.

(** The text of the last fragment that satisfies [P]. *)
Definition lastMatching (P : RegionInfo -> bool)
           (regions : list RegionInfo) : option string :=
  Text <$> last (List.filter P regions).

Definition dateFragment (region : RegionInfo) : bool :=
  String.eqb (Category region) "date" && isValidDate (Text region).

Definition birthFragment (region : RegionInfo) : bool :=
  dateFragment region && Contains (Text region) "生".

(** Fragments the driver's license parser takes for an issue date and
    for an expiry date. *)
Definition issueFragment (region : RegionInfo) : bool :=
  dateFragment region && negb (Contains (Text region) "生")
  && Contains (Text region) "交付".

Definition expiryFragment (region : RegionInfo) : bool :=
  dateFragment region && negb (Contains (Text region) "生")
  && negb (Contains (Text region) "交付") && Contains (Text region) "有効".

(** Fragments the individual-number-card parser takes for an expiry
    date: every valid date without the birth marker. *)
Definition otherDateFragment (region : RegionInfo) : bool :=
  dateFragment region && negb (Contains (Text region) "生").

(** The classifier, rule by rule: markers 都, 県, 市 and 区; lengths in
    bytes; digits are the ASCII digits. *)
Definition classify (text : string) : string :=
  let len := String.length text in
  if Contains text "年" && Contains text "月" then "date"
  else if Contains text "都" || Contains text "県"
          || Contains text "市" || Contains text "区" then "address"
  else if (2 <=? len)%nat && (len <=? 10)%nat && negb (hasDigit text)
  then "name"
  else if hasDigit text && (4 <=? len)%nat then "number"
  else "other".

(** The two document types and what the parser of each does. *)
Inductive DocumentType : Type :=
| drivers_license_jp
| individual_number_card_jp.

Definition validate (d : DocumentType) : FieldMap -> option error :=
  match d with
  | drivers_license_jp => JPDriverLicenseParser.validateExtractedData
  | individual_number_card_jp =>
    IndividualNumberCardParser.validateExtractedData
  end.

Definition normalize (d : DocumentType) : FieldMap -> FieldMap :=
  match d with
  | drivers_license_jp => JPDriverLicenseParser.postProcessExtractedData
  | individual_number_card_jp =>
    IndividualNumberCardParser.postProcessExtractedData
  end.

(** The field names of a document type, as the README lists the fields
    that can be extracted. *)
Definition vocabulary (d : DocumentType) : list string :=
  match d with
  | drivers_license_jp =>
    ["name"; "address"; "birth_date"; "license_number"; "issue_date";
     "expiry_date"; "license_class"]
  | individual_number_card_jp =>
    ["name"; "address"; "birth_date"; "gender"; "individual_number";
     "issue_date"; "expiry_date"]
  end.

(** The numeric-ID field of a document type. *)
Definition idField (d : DocumentType) : string :=
  match d with
  | drivers_license_jp => "license_number"
  | individual_number_card_jp => "individual_number"
  end.

(** What [validate] strips from the numeric ID before it measures it. *)
Definition idStripped (d : DocumentType) (v : string) : string :=
  match d with
  | drivers_license_jp => without " "%char v
  | individual_number_card_jp => stripSpacesHyphens v
  end.

Definition idError (d : DocumentType) (got : nat) : error :=
  match d with
  | drivers_license_jp => InvalidLicenseNumber got
  | individual_number_card_jp => InvalidIndividualNumber got
  end.

(** The gender check, which only the individual-number card has. *)
Definition genderOk (d : DocumentType) (data : FieldMap) : Prop :=
  match d with
  | drivers_license_jp => True
  | individual_number_card_jp =>
    forall g, data !! "gender" = Some g -> g = "男" \/ g = "女"
  end.

(** What normalization makes of a numeric ID [v] whose stripped form has
    twelve bytes. *)
Definition normalizedId (d : DocumentType) (v : string) : string :=
  match d with
  | drivers_license_jp => TrimSpace (ReplaceAll v "  " " ")
  | individual_number_card_jp => group444 (stripSpacesHyphens v)
  end.

(** *** Sample inputs *)

Definition fragment (text category : string) : RegionInfo :=
  {| Text := text; X := 0; Y := 0; W := 0; H := 0; Category := category |}.

(** An engine whose region extraction fails and whose text extraction
    returns [text]. *)
Definition textOnlyEngine (text : string) : OCREngine :=
  {| ExtractText := fun _ => Ok text;
     ExtractRegions := fun _ => Err (EngineFailure "tesseract TSV command failed") |}.

(** An engine whose region extraction returns one address fragment, so
    that the region-based stage yields a map without the required name,
    and whose text extraction returns [text]. *)
Definition addressOnlyEngine (text : string) : OCREngine :=
  {| ExtractText := fun _ => Ok text;
     ExtractRegions := fun _ => Ok [fragment "東京都港区" "address"] |}.

Definition sampleNameText : string := "氏名 山田 花子".

(** The map that the fallback stage of either parser returns for
    [sampleNameText]. *)
Definition sampleNameResult : FieldMap :=
  <["name_alt" := "氏名 山田"]> {["name" := "山田 花子"]}.

(** Two date fragments with the birth marker, in the order returned. *)
Definition earlierBirth : RegionInfo := fragment "昭和60年1月2日生" "date".
Definition laterBirth : RegionInfo := fragment "平成5年12月25日生" "date".

(** The fallback stage as a function of the flat text alone: what
    [Parse] returns once the text extraction has answered [text]. *)
Definition fallbackResult (d : DocumentType) (data : FieldMap)
  : outcome FieldMap :=
  match validate d data with
  | Some err =>
    Err (Wrapped
           match d with
           | drivers_license_jp =>
             "validation failed for driver's license data"
           | individual_number_card_jp =>
             "validation failed for individual number card data"
           end err)
  | None => Ok data
  end.

(** A card map with a grouped individual number. *)
Definition groupedCardData : FieldMap :=
  <["individual_number" := "1234-5678-9012"]> {["name" := "山田 花子"]}.

(** A license map whose number is in the grouped form. *)
Definition groupedLicenseData : FieldMap :=
  <["license_number" := "1234-5678-9012"]> {["name" := "山田 太郎"]}.

(** A license map whose number has runs of four spaces. *)
Definition spacedLicenseData : FieldMap :=
  {["license_number" := "1234    5678    9012"]}.

(** A license map with a plain twelve-digit number. *)
Definition plainLicenseData : FieldMap :=
  {["license_number" := "123456789012"]}.

(** What the card normalization makes of an individual number. *)
Definition regroup (v : string) : string :=
  if (String.length (stripSpacesHyphens v) =? 12)%nat
  then group444 (stripSpacesHyphens v)
  else v.

(** A license map with the required name and a short license number. *)
Definition shortLicenseData : FieldMap :=
  <["license_number" := "123"]> {["name" := "山田 太郎"]}.

(** A card map with the required name and a written-out gender. *)
Definition longGenderData : FieldMap :=
  <["gender" := "男性"]> {["name" := "山田 花子"]}.

Definition sampleCardText : string :=
  "氏名 山田 花子" ++ LF ++ "住所 大阪府大阪市" ++ LF
    ++ "個人番号 123456789012".

Definition licensePatternOrder : list (string * Regexp) :=
  map_to_list (JPDriverLicenseParser.patterns
                 JPDriverLicenseParser.NewJPDriverLicenseParser).

Definition cardPatternOrder : list (string * Regexp) :=
  map_to_list (IndividualNumberCardParser.patterns
                 IndividualNumberCardParser.NewIndividualNumberCardParser).

End Spec.

(** ** Vocabulary for the further properties of the parsers *)

Module Props.
Import utf8 strings regexp imageprocessor ocr parser Spec.

Local Open Scope string_scope.

(** The region-based extraction of a document type, on the fragments. *)
Definition regionStage (d : DocumentType) (h : Helpers)
           (regions : list RegionInfo) : FieldMap :=
  match d with
  | drivers_license_jp => JPDriverLicenseParser.extractFromRegions h regions
  | individual_number_card_jp =>
    IndividualNumberCardParser.extractFromRegions h regions
  end.

(** The validator of the numeric ID of a document type. *)
Definition idValid (d : DocumentType) : string -> bool :=
  match d with
  | drivers_license_jp => isValidLicenseNumber
  | individual_number_card_jp => isValidIndividualNumber
  end.

(** The fragments that the loop over the regions stores as a name, an
    address and a numeric ID. *)
Definition nameFragment (h : Helpers) (region : RegionInfo) : bool :=
  String.eqb (Category region) "name" && isValidName h (Text region).

Definition addressFragment (h : Helpers) (region : RegionInfo) : bool :=
  String.eqb (Category region) "address" && isValidAddress h (Text region).

Definition numberFragment (d : DocumentType) (region : RegionInfo) : bool :=
  String.eqb (Category region) "number" && idValid d (Text region).

(** A string, or nothing when it is empty. *)
Definition nonEmpty (s : string) : option string :=
  if String.eqb s "" then None else Some s.

(** The keys that the region-based stage can write. *)
Definition regionKeys (d : DocumentType) : list string :=
  match d with
  | drivers_license_jp =>
    ["name"; "address"; "birth_date"; "issue_date"; "expiry_date";
     "license_number"; "municipality"]
  | individual_number_card_jp =>
    ["name"; "address"; "birth_date"; "expiry_date"; "individual_number";
     "municipality"]
  end.

(** What one pass of the loop over the pattern table stores for a
    pattern: the trimmed capture, unless there is no match or the capture
    is blank. *)
Definition fieldValue (pattern : Regexp) (ocrText : string) : option string :=
  let matches := FindStringSubmatch pattern ocrText in
  if (1 <? length matches)%nat
  then nonEmpty (TrimSpace (nth 1 matches ""))
  else None.

(** What an alternate pattern stores: the trimmed capture of a match,
    blank or not. *)
Definition alternateValue (pattern : Regexp) (ocrText : string)
  : option string :=
  let matches := FindStringSubmatch pattern ocrText in
  if (1 <? length matches)%nat
  then Some (TrimSpace (nth 1 matches ""))
  else None.

(** The value of a field before normalization: that of the canonical
    pattern, else that of the alternate pattern. *)
Definition extracted (table : gmap string Regexp) (ocrText : string)
           (field alternate : string) : option string :=
  match table !! field ≫= (fun re => fieldValue re ocrText) with
  | Some value => Some value
  | None => table !! alternate ≫= (fun re => alternateValue re ocrText)
  end.

(** The fallback extraction of a document type, for a parser with the
    pattern table [table]. *)
Definition parseText (d : DocumentType) (table : gmap string Regexp)
           (order : list (string * Regexp)) (ocrText : string) : FieldMap :=
  match d with
  | drivers_license_jp =>
    JPDriverLicenseParser.parseTextWithRegex
      {| JPDriverLicenseParser.patterns := table |} order ocrText
  | individual_number_card_jp =>
    IndividualNumberCardParser.parseTextWithRegex
      {| IndividualNumberCardParser.patterns := table |} order ocrText
  end.

(** The fields for which the fallback extraction consults an alternate
    pattern. *)
Definition alternateFields (d : DocumentType) : gset string :=
  match d with
  | drivers_license_jp => {["name"; "birth_date"]}
  | individual_number_card_jp =>
    {["name"; "birth_date"; "individual_number"]}
  end.

(** The address as normalization leaves it. *)
Definition cleanAddress (address : string) : string :=
  let cleaned := ReplaceAll address LF " " in
  let cleaned := ReplaceAll cleaned TAB " " in
  TrimSpace (collapseSpaces (String.length cleaned) cleaned).

(** [s] without its first [k] bytes. *)
Fixpoint skipBytes (k : nat) (s : string) : string :=
  match k, s with
  | O, _ => s
  | S k', String _ t => skipBytes k' t
  | S _, EmptyString => EmptyString
  end.

(** The bytes of the line feed and of the tabulation. *)
Definition lineFeed : ascii := "010"%char.
Definition tabulation : ascii := "009"%char.

(** The fragments that [extractMunicipalityFromRegions] takes for a
    municipality, whatever their category, and what it returns for
    one. *)
Definition municipalityFragment (region : RegionInfo) : bool :=
  hasDivisionMarker (Text region)
  && (3 <=? String.length (TrimSpace (Text region)))%nat
  && (String.length (TrimSpace (Text region)) <=? 20)%nat.

Definition trimmedText (region : RegionInfo) : string :=
  TrimSpace (Text region).

(** The four gender tokens that normalization recognizes. *)
Definition genderToken (g : string) : bool :=
  String.eqb g "男性" || String.eqb g "男"
  || String.eqb g "女性" || String.eqb g "女".

End Props.

(** ** [strings.Split] and the reading of the recognizer's table *)

Module splitting.
Import utf8 strings.

(** The pieces of [s] between the non-overlapping occurrences of [sep],
    from left to right: the piece that starts [s] and the following
    ones.  [skip] counts the bytes of a found separator still to be
    passed over. *)
Fixpoint split_from (s sep : string) (skip : nat) : string * list string :=
  match s with
  | EmptyString => (EmptyString, [])
  | String a t =>
    match skip with
    | S k => split_from t sep k
    | O =>
      if String.prefix sep s
      then let (piece, pieces) := split_from t sep (String.length sep - 1) in
           (EmptyString, piece :: pieces)
      else let (piece, pieces) := split_from t sep 0 in
           (String a piece, pieces)
    end
  end.

(** [strings.Split(s, sep)]; with an empty separator [s] is cut into its
    UTF-8 sequences. *)
Definition Split (s sep : string) : list string :=
  if String.eqb sep EmptyString then map snd (range s)
  else let (piece, pieces) := split_from s sep 0 in piece :: pieces.

End splitting.

Module engine.
Import utf8 strings splitting ocr parser.

Local Open Scope string_scope.

(** The region of a fragment: the coordinates keep their zero value. *)
Definition regionOf (text : string) : RegionInfo :=
  {| Text := text; X := 0; Y := 0; W := 0; H := 0;
     Category := categorizeText text |}.

(** The loop of [parseTesseractTSV] over the lines, [i] being the index
    of the first of [lines]. *)
Fixpoint tsvLoop (i : nat) (lines : list string) (regions : list RegionInfo)
  : list RegionInfo :=
  match lines with
  | [] => regions
  | line :: rest =>
    if (i =? 0)%nat || String.eqb (TrimSpace line) ""
    then tsvLoop (S i) rest regions
    else
      let fields := Split line TAB in
      if (length fields <? 12)%nat then tsvLoop (S i) rest regions
      else
        let text := TrimSpace (nth 11 fields "") in
        if String.eqb text "" then tsvLoop (S i) rest regions
        else tsvLoop (S i) rest (regions ++ [regionOf text])
  end.

(** [parseTesseractTSV], on the content [data] of the file that it has
    read. *)
Definition parseTesseractTSV (data : string) : list RegionInfo :=
  tsvLoop 0 (Split data LF) [].

(** The fragments whose text passes the validator of the numeric ID, and
    those whose text is a date with the birth marker. *)
Definition idText (d : Spec.DocumentType) (region : RegionInfo) : bool :=
  Props.idValid d (Text region).

Definition birthText (region : RegionInfo) : bool :=
  isValidDate (Text region) && Contains (Text region) "生".

(** The category of a fragment is the one [categorizeText] gives to its
    text. *)
Definition categorized (region : RegionInfo) : Prop :=
  Category region = categorizeText (Text region).

(** What holds of every region read from the table. *)
Definition wellFormed (region : RegionInfo) : Prop :=
  Text region <> "" /\
  categorized region /\
  Spec.freeOf Props.lineFeed (Text region) = true /\
  Spec.freeOf Props.tabulation (Text region) = true /\
  (X region, Y region, W region, H region) = (0, 0, 0, 0)%Z.

(** A table of a header and two rows, the second one with eleven
    columns only. *)
Definition sampleTable : string :=
  String.concat LF
    [String.concat TAB
       ["level"; "page"; "block"; "par"; "line"; "word"; "left"; "top";
        "width"; "height"; "conf"; "text"];
     String.concat TAB
       ["5"; "1"; "1"; "1"; "1"; "1"; "10"; "20"; "30"; "40"; "96";
        " 123456789012 "];
     String.concat TAB
       ["5"; "1"; "1"; "1"; "1"; "2"; "10"; "20"; "30"; "40"; "96"];
     ""].

End engine.

(** ** Package [imageprocessor]: decoding of the request image *)

Module decoder.
Import utf8 strings splitting imageprocessor.

Local Open Scope string_scope.

Inductive decodeError : Type :=
| EmptyInput      (* "base64 image string is empty" *)
| CorruptInput    (* "failed to decode base64 string: ..." *)
| EmptyData.      (* "decoded image data is empty" *)

Section Decoder.
(** [base64.StdEncoding.DecodeString], of the standard library; [None]
    is its error. *)
Variable DecodeString : string -> option string.

(** The part of a data URL after its [base64,] marker. *)
Definition afterMarker (base64Image : string) : string :=
  if Contains base64Image "base64," then
    let parts := Split base64Image "base64," in
    if (2 <=? length parts)%nat then nth 1 parts "" else base64Image
  else base64Image.

Definition DecodeBase64 (base64Image : string) : string + decodeError :=
  if String.eqb base64Image "" then inr EmptyInput
  else
    let base64Image := afterMarker base64Image in
    match DecodeString base64Image with
    | None => inr CorruptInput
    | Some imageData =>
      if (String.length imageData =? 0)%nat then inr EmptyData
      else inl imageData
    end.

(** [ProcessImage]; its error is that of [DecodeBase64] with the context
    [failed to decode base64 image]. *)
Definition ProcessImage (base64Image : string) : Mat + decodeError :=
  match DecodeBase64 base64Image with
  | inr err => inr err
  | inl imageData => inl imageData
  end.

End Decoder.
End decoder.

(** ** Package [parser]: the parser factory *)

Module factory.
Import utf8 strings regexp imageprocessor ocr parser.

Local Open Scope string_scope.

(** The interface [DocumentParser]. *)
Record DocumentParser : Type := {
  Parse : Mat -> outcome FieldMap
}.

Record ParserFactory : Type := {
  parsers : gmap string DocumentParser
}.

Definition RegisterParser (pf : ParserFactory) (documentType : string)
           (parser : DocumentParser) : ParserFactory :=
  {| parsers := <[documentType := parser]> (parsers pf) |}.

(** [GetParser]; [inr documentType] is the
    [UnsupportedDocumentTypeError] of that document type. *)
Definition GetParser (pf : ParserFactory) (documentType : string)
  : DocumentParser + string :=
  match parsers pf !! documentType with
  | Some parser => inl parser
  | None => inr documentType
  end.

(** [GetSupportedDocumentTypes], [order] being the order in which the
    loop happens to visit the map. *)
Definition GetSupportedDocumentTypes (pf : ParserFactory)
           (order : list (string * DocumentParser)) : list string :=
  fold_left (fun types entry => types ++ [fst entry])%list order [].

(** The message of an [UnsupportedDocumentTypeError]. *)
Definition unsupportedMessage (documentType : string) : string :=
  "サポートされていない文書タイプです: " ++ documentType.

Section Factory.
Variable h : Helpers.
Variable engine : OCREngine.
Variable extractTextUsingOCR : Mat -> outcome string.
(** The orders in which the two parsers visit their pattern tables. *)
Variable licenseOrder cardOrder : list (string * Regexp).

Definition licenseParser : DocumentParser :=
  {| Parse :=
       JPDriverLicenseParser.Parse h engine extractTextUsingOCR
         JPDriverLicenseParser.NewJPDriverLicenseParser licenseOrder |}.

Definition cardParser : DocumentParser :=
  {| Parse :=
       IndividualNumberCardParser.Parse h engine
         IndividualNumberCardParser.NewIndividualNumberCardParser
         cardOrder |}.

Definition NewParserFactory : ParserFactory :=
  let factory := {| parsers := ∅ |} in
  let factory := RegisterParser factory "drivers_license_jp" licenseParser in
  RegisterParser factory "individual_number_card_jp" cardParser.

End Factory.
End factory.

(** ** Package [main]: the request and its handler *)

Module request.
Import utf8 strings splitting regexp imageprocessor ocr parser decoder factory.

Local Open Scope string_scope.

Record OCRRequest : Type := {
  Image : string;
  DocumentType : string
}.

(** [OCRResponse]: the document type processed and the data. *)
Record OCRResponse : Type := {
  responseType : string;
  Data : FieldMap
}.

Definition DocumentTypeDriversLicenseJP : string := "drivers_license_jp".
Definition DocumentTypeIndividualNumberCard : string :=
  "individual_number_card_jp".

Definition MaxImageSize : Z := 10 * 1024 * 1024.

Definition StatusBadRequest : Z := 400.
Definition StatusUnprocessableEntity : Z := 422.

Definition isValidDocumentType (docType : string) : bool :=
  String.eqb docType DocumentTypeDriversLicenseJP
  || String.eqb docType DocumentTypeIndividualNumberCard.

(** The byte [data[i]], for [i] below the length. *)
Definition byteAt (data : string) (i : nat) : Z :=
  match String.get i data with
  | Some b => byte_val b
  | None => 0
  end.

Definition isValidImageFormat (data : string) : bool :=
  if (String.length data <? 4)%nat then false
  else if (8 <=? String.length data)%nat
          && (byteAt data 0 =? 0x89)%Z && (byteAt data 1 =? 0x50)%Z
          && (byteAt data 2 =? 0x4E)%Z && (byteAt data 3 =? 0x47)%Z
  then true
  else if (3 <=? String.length data)%nat
          && (byteAt data 0 =? 0xFF)%Z && (byteAt data 1 =? 0xD8)%Z
          && (byteAt data 2 =? 0xFF)%Z
  then true
  else false.

(** The part of the image string that [validateBase64Image] decodes:
    what stands between the first comma and the second one. *)
Definition afterComma (imageData : string) : string :=
  if Contains imageData "," then
    let parts := Split imageData "," in
    if (1 <? length parts)%nat then nth 1 parts "" else imageData
  else imageData.

(** The errors of the request layer: the steps of [processOCRRequest]
    that can fail, with the error of the step. *)
Inductive requestError : Type :=
| ProcessImageFailed (err : decodeError)  (* "failed to process image: ..." *)
| GetParserFailed (documentType : string) (* "failed to get parser: ..." *)
| ParseFailed (err : error).              (* "failed to parse document: ..." *)

Section Handler.
Variable DecodeString : string -> option string.
Variable parserFactory : ParserFactory.

(** [validateBase64Image]; [None] is Go's [nil], an error is its
    message. *)
Definition validateBase64Image (imageData : string) : option string :=
  let imageData := afterComma imageData in
  match DecodeString imageData with
  | None => Some "invalid base64 encoding"
  | Some decodedData =>
    if (MaxImageSize <? Z.of_nat (String.length decodedData))%Z
    then Some "image size exceeds maximum limit of 10485760 bytes"
    else if negb (isValidImageFormat decodedData)
    then Some "unsupported image format, only PNG and JPEG are supported"
    else None
  end.

Definition Validate (req : OCRRequest) : option string :=
  if String.eqb (TrimSpace (Image req)) ""
  then Some "image field is required"
  else if String.eqb (TrimSpace (DocumentType req)) ""
  then Some "documentType field is required"
  else if negb (isValidDocumentType (DocumentType req))
  then Some ("unsupported document type: " ++ DocumentType req)
  else validateBase64Image (Image req).

Definition getErrorStatusCode (errMsg : string) : Z :=
  if Contains errMsg "field is required"
     || Contains errMsg "invalid base64 encoding"
  then StatusBadRequest
  else if Contains errMsg "unsupported document type"
          || Contains errMsg "unsupported image format"
          || Contains errMsg "image size exceeds maximum limit"
  then StatusUnprocessableEntity
  else StatusBadRequest.

Definition processOCRRequest (req : OCRRequest)
  : OCRResponse + requestError :=
  match ProcessImage DecodeString (Image req) with
  | inr err => inr (ProcessImageFailed err)
  | inl processedMat =>
    match GetParser parserFactory (DocumentType req) with
    | inr documentType => inr (GetParserFailed documentType)
    | inl parser =>
      match Parse parser processedMat with
      | Err err => inr (ParseFailed err)
      | Ok extractedData =>
        inl {| responseType := DocumentType req; Data := extractedData |}
      end
    end
  end.

End Handler.

(** A request is blank in a field that is white space only. *)
Definition blank (s : string) : bool := String.eqb (TrimSpace s) "".

(** The status of a request that [Validate] refuses, cause by cause. *)
Definition refusalStatus (DecodeString : string -> option string)
           (req : OCRRequest) : Z :=
  if blank (Image req) || blank (DocumentType req) then 400
  else if isValidDocumentType (DocumentType req) then
    match DecodeString (afterComma (Image req)) with
    | None => 400
    | Some _ => 422
    end
  else if Contains (DocumentType req) "field is required"
          || Contains (DocumentType req) "invalid base64 encoding"
  then 400
  else 422.

(** An image string without a comma, or a data URL: one [base64,]
    marker, and no comma elsewhere. *)
Definition plainImage (image : string) : Prop :=
  Spec.freeOf "," image = true.

Definition dataURL (image prefix payload : string) : Prop :=
  image = prefix ++ "base64," ++ payload /\
  Spec.freeOf "," prefix = true /\ Spec.freeOf "," payload = true.

(** A decoder that knows one payload, that of a file with the signature
    of a PNG image. *)
Definition sampleDecoder (s : string) : option string :=
  if String.eqb s "iVBORw0KGgo="
  then Some (String "137" (String "080" (String "078" (String "071"
         (String "013" (String "010" (String "026" (String "010" ""))))))))
  else None.

End request.

(** ** The models at work on sample inputs *)

Example range_mixed :
  utf8.range "a生1" = [(97, "a"%string); (29983, "生"%string); (49, "1"%string)].
Proof. reflexivity. Qed.

Example TrimSpace_sample :
  strings.TrimSpace "  山田 花子　 " = "山田 花子"%string.
Proof. vm_compute. reflexivity. Qed.

Example ReplaceAll_single_pass :
  strings.ReplaceAll "a    b" "  " " " = "a  b"%string.
Proof. reflexivity. Qed.

Example license_name_match :
  regexp.FindStringSubmatch parser.JPDriverLicenseParser.namePattern
    "氏名 山田 花子"
  = ["氏名 山田 花子"%string; "山田 花子"%string].
Proof. vm_compute. reflexivity. Qed.

Example license_number_match :
  regexp.FindStringSubmatch parser.JPDriverLicenseParser.licenseNumberPattern
    "免許証番号: 1234 5678 9012"
  = ["免許証番号: 1234 5678 9012"%string; "1234 5678 9012"%string].
Proof. vm_compute. reflexivity. Qed.

Example license_number_no_match :
  regexp.FindStringSubmatch parser.JPDriverLicenseParser.licenseNumberPattern
    "免許証番号 12345678901"
  = [].
Proof. vm_compute. reflexivity. Qed.

Example birth_date_alt_match :
  regexp.FindStringSubmatch parser.birthDateAlt "昭和60年1月2日生"
  = ["和60年1月2日"%string; "和60年1月2日"%string].
Proof. vm_compute. reflexivity. Qed.

(** The scenario of the individual-number card: the flat text with a
    name, an address and an individual number. *)
Example card_text_scenario :
  let data :=
    parser.IndividualNumberCardParser.parseTextWithRegex
      parser.IndividualNumberCardParser.NewIndividualNumberCardParser
      Spec.cardPatternOrder Spec.sampleCardText in
  data !! "individual_number"%string = Some "1234-5678-9012"%string /\
  data !! "name"%string = Some "山田 花子"%string /\
  data !! "address"%string = Some "大阪府大阪市"%string /\
  parser.IndividualNumberCardParser.validateExtractedData data = None.
Proof. vm_compute. repeat split. Qed.

Example eleven_digits_rejected :
  parser.isValidIndividualNumber "12345678901" = false /\
  parser.isValidLicenseNumber "12345678901" = false.
Proof. vm_compute. split; reflexivity. Qed.

(** ** Facts about the decoder *)

Section Utf8Facts.
Import utf8 Spec.

Lemma byte_val_range (a : ascii) : 0 <= byte_val a < 256.
Proof.
  unfold byte_val. pose proof (N_ascii_bounded a) as Hb. lia.
Qed.

Lemma lor_high_l (a b : Z) : 0 <= b -> 0x80 <= a -> 0x80 <= Z.lor a b.
Proof.
  intros Hb Ha.
  assert (Hlog : 7 <= Z.log2 (Z.lor a b)).
  { rewrite Z.log2_lor by lia.
    change 7 with (Z.log2 0x80).
    etransitivity; [apply Z.log2_le_mono; exact Ha | apply Z.le_max_l]. }
  assert (Hpos : 0 < Z.lor a b).
  { destruct (Z.lt_trichotomy 0 (Z.lor a b)) as [H|[H|H]]; [exact H| |].
    - rewrite <- H in Hlog. simpl in Hlog. lia.
    - assert (0 <= Z.lor a b) by (apply Z.lor_nonneg; lia). lia. }
  pose proof (Z.log2_spec _ Hpos) as [Hlo _].
  assert (2 ^ 7 <= 2 ^ Z.log2 (Z.lor a b)) by (apply Z.pow_le_mono_r; lia).
  change (2 ^ 7) with 0x80 in *. lia.
Qed.

Lemma lor_high_r (a b : Z) : 0 <= a -> 0x80 <= b -> 0x80 <= Z.lor a b.
Proof. intros Ha Hb. rewrite Z.lor_comm. apply lor_high_l; assumption. Qed.

Lemma decode_ascii (a : ascii) (t : string) :
  byte_val a < 0x80 ->
  DecodeRuneInString (String a t) = (byte_val a, 1%nat).
Proof.
  intros Hlt. unfold DecodeRuneInString, RuneSelf.
  destruct (Z.ltb_spec (byte_val a) 0x80); [reflexivity | lia].
Qed.


Lemma first_spec (s0 : Z) (sz : nat) (lo hi : Z) :
  first s0 = Some (sz, lo, hi) ->
  0x80 <= lo /\ hi <= 0xBF /\
  ((sz = 2%nat /\ 0xC2 <= s0 <= 0xDF) \/
   (sz = 3%nat /\ 0xE0 <= s0 <= 0xEF /\ (s0 = 0xE0 -> lo = 0xA0)) \/
   (sz = 4%nat /\ 0xF0 <= s0 <= 0xF4 /\ (s0 = 0xF0 -> lo = 0x90))).
Proof.
  unfold first, locb, hicb.
  repeat match goal with
         | |- context [if ?c then _ else _] =>
           let E := fresh "E" in destruct c eqn:E
         end;
    intros Heq; try discriminate; injection Heq as <- <- <-; lia.
Qed.

Lemma outside_false (lo hi b : Z) :
  outside lo hi b = false -> lo <= b <= hi.
Proof. unfold outside. intros H. lia. Qed.

Lemma land_low_bits (s : Z) (n : Z) :
  0 <= n -> Z.land s (Z.ones n) = s mod 2 ^ n.
Proof. intros Hn. apply Z.land_ones. exact Hn. Qed.

Local Ltac euclid := Z.div_mod_to_equations; lia.

Lemma decode_high (a : ascii) (t : string) :
  0x80 <= byte_val a ->
  0x80 <= fst (DecodeRuneInString (String a t)) /\
  (1 <= snd (DecodeRuneInString (String a t)))%nat /\
  highBytes (snd (DecodeRuneInString (String a t)) - 1) t.
Proof.
  intros Hhigh. pose proof (byte_val_range a) as Ha.
  unfold DecodeRuneInString, RuneSelf.
  destruct (Z.ltb_spec (byte_val a) 0x80) as [|_]; [lia|].
  destruct (first (byte_val a)) as [[[sz lo] hi]|] eqn:Hfirst;
    [|simpl; unfold RuneError; repeat split; lia].
  apply first_spec in Hfirst as (Hlo & Hhi & Hshape).
  destruct (_ <? sz)%nat; [simpl; unfold RuneError; repeat split; lia|].
  destruct t as [|a1 t1]; [simpl; unfold RuneError; repeat split; lia|].
  pose proof (byte_val_range a1) as Ha1.
  destruct (outside lo hi (byte_val a1)) eqn:Hout1;
    [simpl; unfold RuneError; repeat split; lia|].
  apply outside_false in Hout1.
  assert (Hm2 : Z.land (byte_val a) mask2 = byte_val a mod 32)
    by (apply (land_low_bits _ 5); lia).
  assert (Hm3 : Z.land (byte_val a) mask3 = byte_val a mod 16)
    by (apply (land_low_bits _ 4); lia).
  assert (Hm4 : Z.land (byte_val a) mask4 = byte_val a mod 8)
    by (apply (land_low_bits _ 3); lia).
  assert (Hx1 : Z.land (byte_val a1) maskx = byte_val a1 mod 64)
    by (apply (land_low_bits _ 6); lia).
  destruct (sz <=? 2)%nat eqn:Hsz2.
  { simpl. repeat split; try euclid.
    apply lor_high_l; [rewrite Hx1; euclid|].
    rewrite Z.shiftl_mul_pow2 by euclid. rewrite Hm2.
    apply Nat.leb_le in Hsz2. change (2 ^ 6) with 64. euclid. }
  apply Nat.leb_gt in Hsz2.
  destruct t1 as [|a2 t2]; [simpl; unfold RuneError; repeat split; euclid|].
  pose proof (byte_val_range a2) as Ha2.
  destruct (outside locb hicb (byte_val a2)) eqn:Hout2;
    [simpl; unfold RuneError; repeat split; euclid|].
  apply outside_false in Hout2. unfold locb, hicb in Hout2.
  assert (Hx2 : Z.land (byte_val a2) maskx = byte_val a2 mod 64)
    by (apply (land_low_bits _ 6); euclid).
  assert (Hhead3 :
            0x80 <= Z.lor (Z.shiftl (Z.land (byte_val a) mask3) 12)
                          (Z.shiftl (Z.land (byte_val a1) maskx) 6) \/
            sz = 4%nat).
  { destruct Hshape as [[? ?]|[(? & ? & HE0)|(? & ? & ?)]];
      [euclid| |right; assumption].
    left. rewrite !Z.shiftl_mul_pow2 by euclid. rewrite Hm3, Hx1.
    change (2 ^ 12) with 4096. change (2 ^ 6) with 64.
    destruct (Z.eq_dec (byte_val a) 0xE0) as [He|Hne].
    - apply lor_high_r; [euclid|]. specialize (HE0 He). euclid.
    - apply lor_high_l; euclid. }
  destruct (sz <=? 3)%nat eqn:Hsz3.
  { simpl. apply Nat.leb_le in Hsz3. repeat split; try euclid.
    apply lor_high_l; [rewrite Hx2; euclid|].
    destruct Hhead3 as [H|H]; [exact H | euclid]. }
  apply Nat.leb_gt in Hsz3.
  destruct t2 as [|a3 t3]; [simpl; unfold RuneError; repeat split; euclid|].
  pose proof (byte_val_range a3) as Ha3.
  destruct (outside locb hicb (byte_val a3)) eqn:Hout3;
    [simpl; unfold RuneError; repeat split; euclid|].
  apply outside_false in Hout3. unfold locb, hicb in Hout3.
  assert (Hx3 : Z.land (byte_val a3) maskx = byte_val a3 mod 64)
    by (apply (land_low_bits _ 6); euclid).
  simpl. repeat split; try euclid.
  apply lor_high_l; [rewrite Hx3; euclid|].
  apply lor_high_l;
    [rewrite Z.shiftl_mul_pow2 by euclid; rewrite Hx2; euclid|].
  rewrite !Z.shiftl_mul_pow2 by euclid. rewrite Hm4, Hx1.
  change (2 ^ 18) with 262144. change (2 ^ 12) with 4096.
  destruct Hshape as [[? ?]|[(? & ? & ?)|(? & ? & HF0)]]; [euclid|euclid|].
  destruct (Z.eq_dec (byte_val a) 0xF0) as [He|Hne].
  - apply lor_high_r; [euclid|]. specialize (HF0 He). euclid.
  - apply lor_high_l; euclid.
Qed.
End Utf8Facts.
Section RuneFacts.
Import utf8 strings Spec.

Lemma runes_cons (a : ascii) (t : string) :
  runes (String a t) =
  fst (DecodeRuneInString (String a t))
    :: map fst (range_from t (snd (DecodeRuneInString (String a t)) - 1)).
Proof.
  unfold runes, range. cbn [range_from].
  destruct (DecodeRuneInString (String a t)) as [r n]. reflexivity.
Qed.

Lemma runes_cons_ascii (a : ascii) (t : string) :
  byte_val a < 0x80 -> runes (String a t) = byte_val a :: runes t.
Proof.
  intros Hlt. rewrite runes_cons, decode_ascii by exact Hlt. reflexivity.
Qed.

(** A test that no rune above the ASCII range passes sees the same
    thing on the runes and on the bytes. *)
Lemma existsb_range_from (P : Z -> bool) :
  (forall r, 0x80 <= r -> P r = false) ->
  forall (t : string) (k : nat),
    highBytes k t ->
    existsb P (map fst (range_from t k)) =
    existsb (fun a => P (byte_val a)) (bytes t).
Proof.
  intros HP t. induction t as [|b t IH]; intros k Hk.
  - destruct k; reflexivity.
  - destruct k as [|k].
    + cbn [range_from bytes list_ascii_of_string existsb].
      destruct (Z.lt_ge_cases (byte_val b) 0x80) as [Hlow|Hhigh].
      * rewrite decode_ascii by exact Hlow. cbn [map fst existsb].
        f_equal. apply (IH 0%nat). exact I.
      * destruct (decode_high b t Hhigh) as (Hr & Hn & Hrest).
        destruct (DecodeRuneInString (String b t)) as [r n].
        cbn [fst snd] in *. cbn [map fst existsb].
        rewrite (HP r Hr), (HP _ Hhigh). cbn [orb].
        apply IH. exact Hrest.
    + cbn [range_from bytes list_ascii_of_string existsb].
      destruct Hk as [Hb Hk]. rewrite (HP _ Hb). cbn [orb].
      apply IH. exact Hk.
Qed.

Lemma existsb_runes (P : Z -> bool) (s : string) :
  (forall r, 0x80 <= r -> P r = false) ->
  existsb P (runes s) = existsb (fun a => P (byte_val a)) (bytes s).
Proof.
  intros HP. unfold runes, range. apply existsb_range_from; [exact HP|].
  exact I.
Qed.

Lemma forallb_runes (Q : Z -> bool) (s : string) :
  (forall r, 0x80 <= r -> Q r = false) ->
  forallb Q (runes s) = forallb (fun a => Q (byte_val a)) (bytes s).
Proof.
  intros HQ. induction s as [|b t IH]; [reflexivity|].
  cbn [bytes list_ascii_of_string forallb].
  destruct (Z.lt_ge_cases (byte_val b) 0x80) as [Hlow|Hhigh].
  - rewrite runes_cons_ascii by exact Hlow. cbn [forallb].
    f_equal. exact IH.
  - rewrite runes_cons. destruct (decode_high b t Hhigh) as (Hr & _ & _).
    cbn [forallb]. rewrite (HQ _ Hr), (HQ _ Hhigh). reflexivity.
Qed.

Lemma existsb_pointwise {A : Type} (f g : A -> bool) (l : list A) :
  (forall a, f a = g a) -> existsb f l = existsb g l.
Proof.
  intros Hfg. induction l as [|a l IH]; [reflexivity|].
  cbn [existsb]. rewrite Hfg, IH. reflexivity.
Qed.

Lemma forallb_pointwise {A : Type} (f g : A -> bool) (l : list A) :
  (forall a, f a = g a) -> forallb f l = forallb g l.
Proof.
  intros Hfg. induction l as [|a l IH]; [reflexivity|].
  cbn [forallb]. rewrite Hfg, IH. reflexivity.
Qed.

Lemma digit_runes (r : Z) :
  existsb (Z.eqb r) (runes "0123456789") = (0x30 <=? r) && (r <=? 0x39).
Proof.
  replace (runes "0123456789")
    with [48; 49; 50; 51; 52; 53; 54; 55; 56; 57]
    by (vm_compute; reflexivity).
  cbn [existsb].
  apply Bool.eq_iff_eq_true.
  rewrite !orb_true_iff, andb_true_iff, !Z.eqb_eq, !Z.leb_le. lia.
Qed.

Lemma ContainsAny_digits (s : string) :
  ContainsAny s "0123456789" = hasDigit s.
Proof.
  unfold ContainsAny, hasDigit.
  rewrite existsb_runes.
  - apply existsb_pointwise. intros a. rewrite digit_runes. reflexivity.
  - intros r Hr. rewrite digit_runes. lia.
Qed.

Lemma allDigits_bytes (s : string) : parser.allDigits s = digitsOnly s.
Proof.
  unfold parser.allDigits, digitsOnly. rewrite forallb_runes.
  - apply forallb_pointwise. intros a. unfold isDigitByte.
    rewrite negb_orb. f_equal; lia.
  - intros r Hr. lia.
Qed.
End RuneFacts.
Section StringFacts.
Import utf8 strings Spec.

(** Replacing a one-byte string by nothing removes that byte. *)
Lemma replace_byte_from (b : ascii) (s : string) :
  replace_from s (String b EmptyString) EmptyString 0 = without b s.
Proof.
  induction s as [|a t IH]; [reflexivity|].
  cbn [replace_from String.prefix without String.length Nat.sub].
  destruct (ascii_dec b a) as [->|Hne].
  - rewrite Ascii.eqb_refl. destruct t; cbn [String.append]; exact IH.
  - destruct (Ascii.eqb_spec a b) as [->|_]; [contradiction|].
    rewrite IH. reflexivity.
Qed.

Lemma ReplaceAll_byte (b : ascii) (s : string) :
  ReplaceAll s (String b EmptyString) EmptyString = without b s.
Proof. unfold ReplaceAll. cbn [String.eqb]. apply replace_byte_from. Qed.

(** A pattern whose first byte does not occur is never found. *)
Lemma replace_absent (b : ascii) (old new s : string) :
  freeOf b s = true ->
  replace_from s (String b old) new 0 = s.
Proof.
  induction s as [|a t IH]; [reflexivity|].
  unfold freeOf. cbn [bytes list_ascii_of_string forallb].
  intros [Ha Ht]%andb_prop.
  cbn [replace_from String.prefix].
  destruct (ascii_dec b a) as [->|_].
  - rewrite Ascii.eqb_refl in Ha. discriminate.
  - rewrite (IH Ht). reflexivity.
Qed.

Lemma ReplaceAll_absent (b : ascii) (old new s : string) :
  freeOf b s = true -> ReplaceAll s (String b old) new = s.
Proof. intros H. unfold ReplaceAll. cbn [String.eqb]. apply replace_absent, H. Qed.

Lemma without_free (b : ascii) (s : string) : freeOf b (without b s) = true.
Proof.
  unfold freeOf. induction s as [|a t IH]; [reflexivity|].
  cbn [without]. destruct (Ascii.eqb a b) eqn:E; [exact IH|].
  cbn [bytes list_ascii_of_string forallb]. rewrite E. exact IH.
Qed.

Lemma without_keeps_free (b b' : ascii) (s : string) :
  freeOf b' s = true -> freeOf b' (without b s) = true.
Proof.
  unfold freeOf. induction s as [|a t IH]; [reflexivity|].
  cbn [bytes list_ascii_of_string forallb]. intros [Ha Ht]%andb_prop.
  cbn [without]. destruct (Ascii.eqb a b); [exact (IH Ht)|].
  cbn [bytes list_ascii_of_string forallb]. rewrite Ha. exact (IH Ht).
Qed.

Lemma without_absent (b : ascii) (s : string) :
  freeOf b s = true -> without b s = s.
Proof.
  unfold freeOf. induction s as [|a t IH]; [reflexivity|].
  cbn [bytes list_ascii_of_string forallb]. intros [Ha Ht]%andb_prop.
  cbn [without]. apply negb_true_iff in Ha. rewrite Ha, (IH Ht).
  reflexivity.
Qed.

Lemma stripSpacesHyphens_free (s : string) :
  freeOf " " (stripSpacesHyphens s) = true /\
  freeOf "-" (stripSpacesHyphens s) = true.
Proof.
  unfold stripSpacesHyphens. split.
  - apply without_keeps_free, without_free.
  - apply without_free.
Qed.

(** A digit is neither a space nor a hyphen. *)
Lemma digitsOnly_free (b : ascii) (s : string) :
  isDigitByte b = false -> digitsOnly s = true -> freeOf b s = true.
Proof.
  intros Hb. unfold digitsOnly, freeOf.
  induction (bytes s) as [|a l IH]; [reflexivity|].
  cbn [forallb]. intros [Ha Hl]%andb_prop. rewrite (IH Hl), andb_true_r.
  destruct (Ascii.eqb_spec a b) as [->|_]; [congruence | reflexivity].
Qed.

Lemma digitsOnly_plain (s : string) :
  digitsOnly s = true -> plainBytes s = true.
Proof.
  unfold digitsOnly, plainBytes.
  induction (bytes s) as [|a l IH]; [reflexivity|].
  cbn [forallb]. intros [Ha Hl]%andb_prop. rewrite (IH Hl), andb_true_r.
  unfold isDigitByte in Ha. unfold IsSpace. lia.
Qed.
End StringFacts.
Section TrimFacts.
Import utf8 strings Spec.

Lemma range_plain (s : string) :
  plainBytes s = true ->
  range s = map (fun a => (byte_val a, String a EmptyString)) (bytes s).
Proof.
  unfold plainBytes, range. induction s as [|a t IH]; [reflexivity|].
  cbn [bytes list_ascii_of_string forallb map].
  intros [[Ha _]%andb_prop Ht]%andb_prop.
  cbn [range_from]. rewrite decode_ascii by lia.
  cbn [substring Nat.sub]. rewrite (IH Ht).
  destruct t; reflexivity.
Qed.

Lemma trim_left_plain (l : list (rune * string)) :
  Forall (fun c => IsSpace (fst c) = false) l -> trim_left l = l.
Proof.
  intros Hl. destruct Hl as [|c l Hc _]; [reflexivity|].
  cbn [trim_left]. rewrite Hc. reflexivity.
Qed.

Lemma trim_plain (l : list (rune * string)) :
  Forall (fun c => IsSpace (fst c) = false) l ->
  trim_right (trim_left l) = l.
Proof.
  intros Hl. rewrite (trim_left_plain l Hl). unfold trim_right.
  rewrite trim_left_plain.
  - apply rev_involutive.
  - apply Forall_rev. exact Hl.
Qed.

Lemma concat_singletons (l : list ascii) :
  String.concat EmptyString
    (map snd (map (fun a => (byte_val a, String a EmptyString)) l)) =
  string_of_list_ascii l.
Proof.
  induction l as [|a l IH]; [reflexivity|].
  cbn [map snd String.concat string_of_list_ascii].
  destruct l as [|a' l]; [reflexivity|].
  cbn [map snd] in IH |- *. cbn [String.append]. rewrite IH. reflexivity.
Qed.

(** Trimming leaves a string of ASCII bytes without white space as it
    is. *)
Lemma TrimSpace_plain (s : string) :
  plainBytes s = true -> TrimSpace s = s.
Proof.
  intros Hs. unfold TrimSpace. rewrite (range_plain s Hs).
  rewrite trim_plain.
  - rewrite concat_singletons. apply string_of_list_ascii_of_string.
  - unfold plainBytes in Hs. rewrite forallb_forall in Hs.
    apply Stdlib.Lists.List.Forall_forall. intros c Hc. apply in_map_iff in Hc as (a & <- & Ha).
    cbn [fst]. specialize (Hs a Ha). apply andb_prop in Hs as [_ Hs].
    apply negb_true_iff in Hs. exact Hs.
Qed.
End TrimFacts.
Section GroupFacts.
Import utf8 strings Spec.

Local Ltac twelve c H :=
  do 12 (destruct c as [|? c]; [discriminate H|]);
  destruct c as [|? ?]; [clear H | discriminate H].

Local Ltac bytewise H :=
  unfold freeOf, plainBytes, digitsOnly, bytes in H;
  cbn [list_ascii_of_string forallb] in H;
  repeat (let Hh := fresh "Hb" in apply andb_prop in H as [Hh H]);
  clear H.

Lemma group444_length (c : string) :
  String.length c = 12%nat -> String.length (group444 c) = 14%nat.
Proof. intros Hlen. twelve c Hlen. reflexivity. Qed.


Lemma group444_free (b : ascii) (c : string) :
  String.length c = 12%nat -> Ascii.eqb "-" b = false ->
  freeOf b c = true -> freeOf b (group444 c) = true.
Proof.
  intros Hlen Hb Hfree. twelve c Hlen. bytewise Hfree.
  cbv [group444 freeOf bytes substring String.append list_ascii_of_string
       forallb].
  repeat match goal with H : negb _ = true |- _ => rewrite H; clear H end.
  rewrite Hb. reflexivity.
Qed.

Lemma group444_plain (c : string) :
  String.length c = 12%nat ->
  plainBytes c = true -> plainBytes (group444 c) = true.
Proof.
  intros Hlen Hplain. twelve c Hlen. bytewise Hplain.
  cbv [group444 plainBytes bytes substring String.append
       list_ascii_of_string forallb].
  repeat match goal with
         | H : (_ <? _) && negb _ = true |- _ => rewrite H; clear H
         end.
  reflexivity.
Qed.

(** Stripping the grouped form gives the twelve bytes back. *)
Lemma group444_strip (c : string) :
  String.length c = 12%nat ->
  freeOf " " c = true -> freeOf "-" c = true ->
  stripSpacesHyphens (group444 c) = c.
Proof.
  intros Hlen Hsp Hhy. unfold stripSpacesHyphens.
  rewrite (without_absent " " (group444 c))
    by (apply group444_free; [exact Hlen | reflexivity | exact Hsp]).
  twelve c Hlen. bytewise Hhy.
  repeat match goal with
         | H : negb _ = true |- _ => apply negb_true_iff in H
         end.
  cbv [group444 substring String.append without].
  repeat match goal with
         | H : Ascii.eqb _ _ = false |- _ => rewrite H; clear H
         end.
  reflexivity.
Qed.
End GroupFacts.

(** ** The loop that collapses runs of spaces *)

Section CollapseSpaces.
Import utf8 strings parser Spec.
Local Open Scope string_scope.

Lemma replace_pair_length (s : string) (skip : nat) :
  (String.length (replace_from s "  " " " skip) <= String.length s)%nat.
Proof.
  revert skip. induction s as [|a t IH]; intros skip; [reflexivity|].
  cbn [replace_from]. destruct skip as [|k].
  - destruct (String.prefix "  " (String a t)) eqn:Hp.
    + cbn [String.length Nat.sub]. specialize (IH 1%nat).
      change (String.length (" " +:+ replace_from t "  " " " 1))
        with (S (String.length (replace_from t "  " " " 1))).
      lia.
    + cbn [String.length]. specialize (IH 0%nat). lia.
  - cbn [String.length]. specialize (IH k). lia.
Qed.

(** A pass over a string with two spaces in a row shortens it. *)
Lemma replace_pair_shorter (s : string) :
  Contains s "  " = true ->
  (String.length (ReplaceAll s "  " " ") < String.length s)%nat.
Proof.
  unfold ReplaceAll. cbn [String.eqb].
  induction s as [|a t IH]; [discriminate|].
  cbn [Contains replace_from].
  destruct (String.prefix "  " (String a t)) eqn:Hp.
  - intros _. cbn [String.length Nat.sub].
    change (String.length (" " +:+ replace_from t "  " " " 1))
      with (S (String.length (replace_from t "  " " " 1))).
    destruct t as [|a' t'];
      [cbn [String.prefix] in Hp; destruct (ascii_dec " " a); discriminate Hp|].
    cbn [replace_from String.length].
    pose proof (replace_pair_length t' 0). lia.
  - cbn [orb]. intros Hc. specialize (IH Hc). cbn [String.length]. lia.
Qed.

(** The number of passes allowed is enough: the result has no two spaces
    in a row. *)
Lemma collapseSpaces_done (fuel : nat) (s : string) :
  (String.length s <= fuel)%nat ->
  Contains (collapseSpaces fuel s) "  " = false.
Proof.
  revert s. induction fuel as [|fuel IH]; intros s Hlen.
  - destruct s; [reflexivity | cbn in Hlen; lia].
  - cbn [collapseSpaces]. destruct (Contains s "  ") eqn:Hc; [|exact Hc].
    apply IH. pose proof (replace_pair_shorter s Hc). lia.
Qed.
End CollapseSpaces.

(** ** The numeric-ID validators and the region classifier *)

Section Validators.
Import utf8 strings ocr parser Spec.
Local Open Scope string_scope.

Lemma isValidLicenseNumber_spec (text : string) :
  isValidLicenseNumber text = twelveDigitsIn (without " " text).
Proof.
  unfold isValidLicenseNumber, twelveDigitsIn.
  change (ReplaceAll text " " "")
    with (ReplaceAll text (String " "%char EmptyString) EmptyString).
  rewrite ReplaceAll_byte, allDigits_bytes.
  destruct (String.length (without " " text) =? 12)%nat; reflexivity.
Qed.

Lemma isValidIndividualNumber_spec (text : string) :
  isValidIndividualNumber text = twelveDigitsIn text.
Proof.
  unfold isValidIndividualNumber, twelveDigitsIn.
  rewrite allDigits_bytes.
  destruct (String.length text =? 12)%nat; reflexivity.
Qed.
End Validators.

(** C5, as the code has it: [isValidLicenseNumber] accepts a string
    exactly when, with its space characters (and nothing else) removed, it
    consists of twelve bytes that are all decimal digits;
    [isValidIndividualNumber] strips nothing and accepts exactly the
    strings of twelve decimal digits. *)
Theorem id_validators_characterised (text : string) :
  (parser.isValidLicenseNumber text = true <->
   String.length (Spec.without " " text) = 12%nat /\
   Spec.digitsOnly (Spec.without " " text) = true) /\
  (parser.isValidIndividualNumber text = true <->
   String.length text = 12%nat /\ Spec.digitsOnly text = true).
Proof.
  rewrite isValidLicenseNumber_spec, isValidIndividualNumber_spec.
  unfold Spec.twelveDigitsIn.
  rewrite !andb_true_iff, !Nat.eqb_eq. tauto.
Qed.

(** C5, counterexample: twelve digits in the grouped form with hyphens
    reduce to twelve digits once white space and hyphens are stripped, yet
    both validators reject the string. *)
Lemma id_validators_reject_hyphens :
  Spec.twelveDigitsIn (Spec.stripWhitespaceHyphens "1234-5678-9012") = true /\
  parser.isValidIndividualNumber "1234-5678-9012" = false /\
  parser.isValidLicenseNumber "1234-5678-9012" = false.
Proof. vm_compute. repeat split. Qed.

(** C7, as the code has it: the classifier applies the five rules in
    order, where the address rule looks for the four markers 都, 県, 市 and
    区 only, lengths are byte lengths and digits are the ASCII digits. *)
Theorem categorizeText_rules (text : string) :
  ocr.categorizeText text = Spec.classify text.
Proof.
  unfold ocr.categorizeText, Spec.classify.
  rewrite ContainsAny_digits. reflexivity.
Qed.

(** C7, counterexample: a fragment with the prefecture marker 府, and one
    with the town marker 町, neither with date markers, are classified as
    names, not as addresses. *)
Lemma categorizeText_misses_markers :
  (strings.Contains "大阪府" "府" = true /\
   parser.isValidDate "大阪府" = false /\
   ocr.categorizeText "大阪府" = "name"%string) /\
  (strings.Contains "大手町" "町" = true /\
   parser.isValidDate "大手町" = false /\
   ocr.categorizeText "大手町" = "name"%string).
Proof. vm_compute. repeat split. Qed.

(** ** Validation *)

Section Validation.
Import utf8 strings ocr parser Spec.
Local Open Scope string_scope.

Lemma ReplaceAll_space (s : string) : ReplaceAll s " " "" = without " " s.
Proof. apply (ReplaceAll_byte " "). Qed.

Lemma ReplaceAll_space_hyphen (s : string) :
  ReplaceAll (ReplaceAll s " " "") "-" "" = stripSpacesHyphens s.
Proof.
  unfold stripSpacesHyphens. rewrite ReplaceAll_space.
  apply (ReplaceAll_byte "-").
Qed.

Lemma nameCheck_nonBlank (data : FieldMap) :
  nameCheck data = true <-> nonBlank data "name".
Proof.
  unfold nameCheck, nonBlank. split.
  - destruct (data !! "name") as [value|]; [|discriminate].
    intros H. exists value. split; [reflexivity|].
    apply negb_true_iff, String.eqb_neq in H. exact H.
  - intros (value & -> & Hne). apply negb_true_iff, String.eqb_neq, Hne.
Qed.

Lemma license_validate_cases (data : FieldMap) :
  JPDriverLicenseParser.validateExtractedData data =
  if nameCheck data then
    match data !! "license_number" with
    | Some n =>
      if (String.length (without " " n) =? 12)%nat then None
      else Some (InvalidLicenseNumber (String.length (without " " n)))
    | None => None
    end
  else Some (RequiredFieldMissing "name").
Proof.
  unfold JPDriverLicenseParser.validateExtractedData, nameCheck.
  cbn [List.find].
  destruct (data !! "name") as [value|]; [|reflexivity].
  destruct (String.eqb (TrimSpace value) ""); [reflexivity|].
  cbn [negb].
  destruct (data !! "license_number") as [n|]; [|reflexivity].
  rewrite ReplaceAll_space.
  destruct (String.length (without " " n) =? 12)%nat; reflexivity.
Qed.

Lemma card_validate_cases (data : FieldMap) :
  IndividualNumberCardParser.validateExtractedData data =
  if nameCheck data then
    match
      match data !! "individual_number" with
      | Some n =>
        if (String.length (stripSpacesHyphens n) =? 12)%nat then None
        else Some (InvalidIndividualNumber
                     (String.length (stripSpacesHyphens n)))
      | None => None
      end
    with
    | Some err => Some err
    | None =>
      match data !! "gender" with
      | Some g =>
        if String.eqb g "男" || String.eqb g "女" then None
        else Some (InvalidGender g)
      | None => None
      end
    end
  else Some (RequiredFieldMissing "name").
Proof.
  unfold IndividualNumberCardParser.validateExtractedData, nameCheck.
  cbn [List.find].
  destruct (data !! "name") as [value|]; [|reflexivity].
  destruct (String.eqb (TrimSpace value) ""); [reflexivity|].
  cbn [negb].
  destruct (data !! "individual_number") as [n|].
  - rewrite ReplaceAll_space_hyphen.
    destruct (String.length (stripSpacesHyphens n) =? 12)%nat;
      cbn [negb]; [|reflexivity].
    destruct (data !! "gender") as [g|]; [|reflexivity].
    destruct (String.eqb g "男"), (String.eqb g "女"); reflexivity.
  - destruct (data !! "gender") as [g|]; [|reflexivity].
    destruct (String.eqb g "男"), (String.eqb g "女"); reflexivity.
Qed.

Lemma gender_canonical (g : string) :
  String.eqb g "男" || String.eqb g "女" = true <-> g = "男" \/ g = "女".
Proof. rewrite orb_true_iff, !String.eqb_eq. reflexivity. Qed.

(** The grouped form: fourteen bytes without a space, twelve once the
    hyphens are stripped. *)
Lemma grouped_lengths (v : string) :
  grouped v ->
  String.length (without " " v) = 14%nat /\
  String.length (stripSpacesHyphens v) = 12%nat.
Proof.
  intros (c & Hc & ->). unfold twelveDigitsIn in Hc.
  apply andb_prop in Hc as [Hlen Hdig]. apply Nat.eqb_eq in Hlen.
  assert (Hsp : freeOf " " c = true)
    by (apply digitsOnly_free; [reflexivity | exact Hdig]).
  assert (Hhy : freeOf "-" c = true)
    by (apply digitsOnly_free; [reflexivity | exact Hdig]).
  split.
  - rewrite without_absent
      by (apply group444_free; [exact Hlen | reflexivity | exact Hsp]).
    apply group444_length, Hlen.
  - rewrite group444_strip by assumption. exact Hlen.
Qed.
End Validation.

(** C4, as the code has it: when the numeric-ID field is present and the
    other checks pass (the name is present and not blank; for the card, a
    gender that is present is canonical), [validate] returns an error
    exactly when the byte length of the value, stripped of its spaces and,
    for the individual-number card only, of its hyphens, differs from 12;
    the bytes are not checked to be digits.  A value of the form
    dddd-dddd-dddd therefore passes for the individual-number card and is
    rejected, with its length 14, for the driver's license. *)
Theorem validate_numeric_id (d : Spec.DocumentType) (data : FieldMap)
        (v : string) :
  data !! Spec.idField d = Some v ->
  Spec.nonBlank data "name" ->
  Spec.genderOk d data ->
  (Spec.validate d data <> None <->
   String.length (Spec.idStripped d v) <> 12%nat) /\
  (String.length (Spec.idStripped d v) <> 12%nat ->
   Spec.validate d data =
   Some (Spec.idError d (String.length (Spec.idStripped d v)))) /\
  (Spec.grouped v ->
   Spec.validate d data =
   match d with
   | Spec.drivers_license_jp => Some (InvalidLicenseNumber 14)
   | Spec.individual_number_card_jp => None
   end).
Proof.
  intros Hid Hname Hgender.
  apply nameCheck_nonBlank in Hname.
  assert (Hcases :
            Spec.validate d data =
            if (String.length (Spec.idStripped d v) =? 12)%nat then None
            else Some (Spec.idError d (String.length (Spec.idStripped d v)))).
  { destruct d; cbn [Spec.validate Spec.idField Spec.idStripped Spec.idError]
                  in *.
    - rewrite license_validate_cases, Hname, Hid. reflexivity.
    - rewrite card_validate_cases, Hname, Hid.
      destruct (_ =? 12)%nat; [|reflexivity].
      destruct (data !! "gender"%string) as [g|] eqn:Hg; [|reflexivity].
      specialize (Hgender g Hg). apply gender_canonical in Hgender.
      rewrite Hgender. reflexivity. }
  repeat split.
  - rewrite Hcases. destruct (Nat.eqb_spec (String.length (Spec.idStripped d v)) 12);
      [intros H; contradiction H; reflexivity | intros _; assumption].
  - rewrite Hcases. destruct (Nat.eqb_spec (String.length (Spec.idStripped d v)) 12);
      [intros H; contradiction | intros _; discriminate].
  - rewrite Hcases. destruct (Nat.eqb_spec (String.length (Spec.idStripped d v)) 12);
      [intros H; contradiction | reflexivity].
  - intros Hgrouped. rewrite Hcases.
    apply grouped_lengths in Hgrouped as [H14 H12].
    destruct d; cbn [Spec.idStripped Spec.idError].
    + rewrite H14. reflexivity.
    + rewrite H12. reflexivity.
Qed.

(** C4, witness: a card map with a name and the individual number
    1234-5678-9012. *)
Lemma validate_numeric_id_witness :
  Spec.groupedCardData !! Spec.idField Spec.individual_number_card_jp
    = Some "1234-5678-9012"%string /\
  Spec.nonBlank Spec.groupedCardData "name" /\
  Spec.genderOk Spec.individual_number_card_jp Spec.groupedCardData /\
  Spec.grouped "1234-5678-9012" /\
  Spec.validate Spec.individual_number_card_jp Spec.groupedCardData = None.
Proof.
  assert (Hid : Spec.groupedCardData
                  !! Spec.idField Spec.individual_number_card_jp
                = Some "1234-5678-9012"%string) by (vm_compute; reflexivity).
  assert (Hname : Spec.nonBlank Spec.groupedCardData "name").
  { exists "山田 花子"%string. split; [vm_compute; reflexivity|].
    vm_compute. discriminate. }
  assert (Hgender : Spec.genderOk Spec.individual_number_card_jp
                      Spec.groupedCardData).
  { intros g Hg. vm_compute in Hg. discriminate Hg. }
  assert (Hgrouped : Spec.grouped "1234-5678-9012").
  { exists "123456789012"%string. split; vm_compute; reflexivity. }
  split; [exact Hid|]. split; [exact Hname|]. split; [exact Hgender|].
  split; [exact Hgrouped|].
  exact (proj2 (proj2 (validate_numeric_id Spec.individual_number_card_jp
                         Spec.groupedCardData _ Hid Hname Hgender))
               Hgrouped).
Defined.

(** C4, counterexample: the license number 1234-5678-9012 reduces to
    twelve digits once spaces and hyphens are stripped, yet the driver's
    license validation rejects the map. *)
Lemma license_validate_rejects_grouped :
  Spec.twelveDigitsIn (Spec.stripSpacesHyphens "1234-5678-9012") = true /\
  Spec.groupedLicenseData !! "license_number"%string
    = Some "1234-5678-9012"%string /\
  parser.JPDriverLicenseParser.validateExtractedData Spec.groupedLicenseData
    = Some (InvalidLicenseNumber 14).
Proof. vm_compute. repeat split. Qed.

(** C8, as the code has it: [validate] succeeds exactly when the required
    name is present and not blank, the numeric ID, if present, has byte
    length 12 once stripped, and, for the individual-number card, the
    gender, if present, is one of the two canonical values.  No other
    field of the map is looked at. *)
Theorem validate_succeeds_iff (d : Spec.DocumentType) (data : FieldMap) :
  Spec.validate d data = None <->
  Spec.nonBlank data "name" /\
  (forall v, data !! Spec.idField d = Some v ->
             String.length (Spec.idStripped d v) = 12%nat) /\
  Spec.genderOk d data.
Proof.
  rewrite <- nameCheck_nonBlank.
  destruct d; cbn [Spec.validate Spec.idField Spec.idStripped Spec.genderOk].
  - rewrite license_validate_cases.
    destruct (Spec.nameCheck data); [|split; [discriminate | intros [? _]; discriminate]].
    destruct (data !! "license_number"%string) as [n|].
    + destruct (Nat.eqb_spec (String.length (Spec.without " " n)) 12) as [He|Hne].
      * split; [intros _|reflexivity].
        repeat split. intros v [= <-]. exact He.
      * split; [discriminate|]. intros (_ & Hlen & _).
        contradiction Hne. apply Hlen. reflexivity.
    + split; [intros _|reflexivity]. repeat split. discriminate.
  - rewrite card_validate_cases.
    destruct (Spec.nameCheck data); [|split; [discriminate | intros [? _]; discriminate]].
    assert (Hgender :
              match data !! "gender"%string with
              | Some g =>
                if (String.eqb g "男" || String.eqb g "女")%bool then None
                else Some (InvalidGender g)
              | None => None
              end = None <->
              (forall g, data !! "gender"%string = Some g ->
                         g = "男"%string \/ g = "女"%string)).
    { destruct (data !! "gender"%string) as [g|].
      - destruct (String.eqb g "男" || String.eqb g "女")%bool eqn:Hg.
        + split; [|reflexivity]. intros _ g' [= <-].
          apply gender_canonical, Hg.
        + split; [discriminate|]. intros H.
          specialize (H g eq_refl). apply gender_canonical in H. congruence.
      - split; [|reflexivity]. discriminate. }
    destruct (data !! "individual_number"%string) as [n|].
    + destruct (Nat.eqb_spec (String.length (Spec.stripSpacesHyphens n)) 12)
        as [He|Hne].
      * rewrite Hgender. split.
        -- intros Hg. repeat split; [|exact Hg]. intros v [= <-]. exact He.
        -- intros (_ & _ & Hg). exact Hg.
      * split; [discriminate|]. intros (_ & Hlen & _).
        contradiction Hne. apply Hlen. reflexivity.
    + rewrite Hgender. split.
      * intros Hg. repeat split; [discriminate | exact Hg].
      * intros (_ & _ & Hg). exact Hg.
Qed.

(** C8, counterexample: with the required name present and not blank, a
    license number of three digits makes the driver's license validation
    fail, and a written-out gender makes the card validation fail. *)
Lemma validate_rejects_optional_fields :
  (Spec.nameCheck Spec.shortLicenseData = true /\
   parser.JPDriverLicenseParser.validateExtractedData Spec.shortLicenseData
     = Some (InvalidLicenseNumber 3)) /\
  (Spec.nameCheck Spec.longGenderData = true /\
   parser.IndividualNumberCardParser.validateExtractedData Spec.longGenderData
     = Some (InvalidGender "男性")).
Proof. vm_compute. repeat split. Qed.

(** ** Normalization *)

Section Normalization.
Import utf8 strings ocr parser Spec.
Local Open Scope string_scope.

Lemma normalizeAddress_other (data : FieldMap) (k : string) :
  k <> "address" -> normalizeAddress data !! k = data !! k.
Proof.
  intros Hk. unfold normalizeAddress.
  destruct (data !! "address"); [|reflexivity].
  apply lookup_insert_ne. congruence.
Qed.

Lemma normalizeName_other (data : FieldMap) (k : string) :
  k <> "name" -> normalizeName data !! k = data !! k.
Proof.
  intros Hk. unfold normalizeName.
  destruct (data !! "name"); [|reflexivity].
  apply lookup_insert_ne. congruence.
Qed.

Lemma normalizeGender_other (data : FieldMap) (k : string) :
  k <> "gender" ->
  IndividualNumberCardParser.normalizeGender data !! k = data !! k.
Proof.
  intros Hk. unfold IndividualNumberCardParser.normalizeGender.
  destruct (data !! "gender") as [g|]; [|reflexivity].
  repeat match goal with
         | |- context [if ?c then _ else _] => destruct c
         end;
    try reflexivity; apply lookup_insert_ne; congruence.
Qed.

Lemma card_normalize_id (data : FieldMap) :
  IndividualNumberCardParser.postProcessExtractedData data
    !! "individual_number"
  = regroup <$> data !! "individual_number".
Proof.
  unfold IndividualNumberCardParser.postProcessExtractedData.
  rewrite normalizeGender_other, normalizeName_other,
    normalizeAddress_other by discriminate.
  unfold IndividualNumberCardParser.normalizeIndividualNumber.
  destruct (data !! "individual_number") as [v|] eqn:Hv;
    [|rewrite Hv; reflexivity].
  rewrite ReplaceAll_space_hyphen. unfold regroup. cbn [fmap option_fmap option_map].
  destruct (String.length (stripSpacesHyphens v) =? 12)%nat.
  - rewrite lookup_insert_eq. reflexivity.
  - rewrite Hv. reflexivity.
Qed.

Lemma license_normalize_id (data : FieldMap) :
  JPDriverLicenseParser.postProcessExtractedData data !! "license_number"
  = (fun v => TrimSpace (ReplaceAll v "  " " "))
      <$> data !! "license_number".
Proof.
  unfold JPDriverLicenseParser.postProcessExtractedData.
  rewrite normalizeName_other, normalizeAddress_other by discriminate.
  unfold JPDriverLicenseParser.normalizeLicenseNumber.
  destruct (data !! "license_number") as [v|] eqn:Hv;
    [|rewrite Hv; reflexivity].
  rewrite lookup_insert_eq. reflexivity.
Qed.

Lemma regroup_idempotent (v : string) : regroup (regroup v) = regroup v.
Proof.
  unfold regroup at 2.
  destruct (Nat.eqb_spec (String.length (stripSpacesHyphens v)) 12)
    as [Hlen|Hne].
  - unfold regroup.
    destruct (stripSpacesHyphens_free v) as [Hsp Hhy].
    rewrite (group444_strip _ Hlen Hsp Hhy), Hlen. reflexivity.
  - unfold regroup. apply Nat.eqb_neq in Hne. rewrite Hne. reflexivity.
Qed.

Lemma grouped_digits (v : string) :
  grouped v ->
  exists c, v = group444 c /\ String.length c = 12%nat /\
            digitsOnly c = true /\
            freeOf " " c = true /\ freeOf "-" c = true.
Proof.
  intros (c & Hc & ->). unfold twelveDigitsIn in Hc.
  apply andb_prop in Hc as [Hlen Hdig]. apply Nat.eqb_eq in Hlen.
  exists c. repeat split; try assumption;
    apply digitsOnly_free; (reflexivity || assumption).
Qed.

Lemma regroup_grouped (v : string) : grouped v -> regroup v = v.
Proof.
  intros (c & -> & Hlen & _ & Hsp & Hhy)%grouped_digits.
  unfold regroup. rewrite (group444_strip _ Hlen Hsp Hhy), Hlen.
  reflexivity.
Qed.

Lemma license_trim_grouped (v : string) :
  grouped v -> TrimSpace (ReplaceAll v "  " " ") = v.
Proof.
  intros (c & -> & Hlen & Hdig & Hsp & _)%grouped_digits.
  rewrite (ReplaceAll_absent " " " " " ")
    by (apply group444_free; [exact Hlen | reflexivity | exact Hsp]).
  apply TrimSpace_plain, group444_plain; [exact Hlen|].
  apply digitsOnly_plain, Hdig.
Qed.
End Normalization.

(** C3, as the code has it: a numeric ID whose value has twelve bytes
    once spaces and hyphens are stripped is rewritten by the normalization
    of the individual-number card as these twelve bytes in three groups of
    four separated by hyphens (dddd-dddd-dddd when they are digits); the
    normalization of the driver's license replaces pairs of spaces by one
    space, in one pass, and trims, and groups nothing. *)
Theorem normalization_of_numeric_id (d : Spec.DocumentType) (data : FieldMap)
        (v : string) :
  data !! Spec.idField d = Some v ->
  String.length (Spec.stripSpacesHyphens v) = 12%nat ->
  Spec.normalize d data !! Spec.idField d = Some (Spec.normalizedId d v) /\
  (d = Spec.individual_number_card_jp ->
   Spec.digitsOnly (Spec.stripSpacesHyphens v) = true ->
   Spec.grouped (Spec.normalizedId d v)).
Proof.
  intros Hid Hlen. split.
  - destruct d; cbn [Spec.normalize Spec.idField Spec.normalizedId] in *.
    + rewrite license_normalize_id, Hid. reflexivity.
    + rewrite card_normalize_id, Hid. cbn [fmap option_fmap option_map].
      unfold Spec.regroup. rewrite Hlen. reflexivity.
  - intros -> Hdig. cbn [Spec.normalizedId].
    exists (Spec.stripSpacesHyphens v). split; [|reflexivity].
    unfold Spec.twelveDigitsIn. rewrite Hlen, Hdig. reflexivity.
Qed.

(** C3, witness: the individual number 123456789012 of a card map. *)
Lemma normalization_of_numeric_id_witness :
  ({["individual_number"%string := "123456789012"%string]} : FieldMap)
    !! Spec.idField Spec.individual_number_card_jp
    = Some "123456789012"%string /\
  String.length (Spec.stripSpacesHyphens "123456789012") = 12%nat /\
  Spec.normalize Spec.individual_number_card_jp
    {["individual_number"%string := "123456789012"%string]}
    !! "individual_number"%string
  = Some "1234-5678-9012"%string.
Proof.
  assert (Hid : ({["individual_number"%string := "123456789012"%string]}
                 : FieldMap)
                  !! Spec.idField Spec.individual_number_card_jp
                = Some "123456789012"%string) by (vm_compute; reflexivity).
  assert (Hlen : String.length (Spec.stripSpacesHyphens "123456789012")
                 = 12%nat) by reflexivity.
  split; [exact Hid|]. split; [exact Hlen|].
  exact (proj1 (normalization_of_numeric_id Spec.individual_number_card_jp
                  _ _ Hid Hlen)).
Defined.

(** C3, counterexample: the license number that the fallback stage reads
    from the text has twelve bytes, and the normalization of the driver's
    license parser leaves it without hyphens. *)
Lemma license_number_not_regrouped :
  String.length (Spec.stripSpacesHyphens "123456789012") = 12%nat /\
  parser.JPDriverLicenseParser.postProcessExtractedData Spec.plainLicenseData
    !! "license_number"%string = Some "123456789012"%string /\
  parser.JPDriverLicenseParser.parseTextWithRegex
    parser.JPDriverLicenseParser.NewJPDriverLicenseParser
    Spec.licensePatternOrder "免許証番号 123456789012"
    !! "license_number"%string = Some "123456789012"%string.
Proof. vm_compute. repeat split. Qed.

(** The part of C9 that the code satisfies: for both document types, a
    numeric ID that is already in the form dddd-dddd-dddd is left
    unchanged by the normalization; and the normalization of the
    individual-number card is idempotent on the numeric ID for every
    map.  (For the driver's license the second statement does not
    hold.) *)
Theorem numeric_id_normalization_stable :
  (forall (d : Spec.DocumentType) (data : FieldMap) (v : string),
      data !! Spec.idField d = Some v ->
      Spec.grouped v ->
      Spec.normalize d data !! Spec.idField d = Some v) /\
  (forall data : FieldMap,
      Spec.normalize Spec.individual_number_card_jp
        (Spec.normalize Spec.individual_number_card_jp data)
        !! Spec.idField Spec.individual_number_card_jp
      = Spec.normalize Spec.individual_number_card_jp data
          !! Spec.idField Spec.individual_number_card_jp).
Proof.
  split.
  - intros d data v Hid Hgrouped.
    destruct d; cbn [Spec.normalize Spec.idField] in *.
    + rewrite license_normalize_id, Hid. cbn [fmap option_fmap option_map].
      rewrite (license_trim_grouped v Hgrouped). reflexivity.
    + rewrite card_normalize_id, Hid. cbn [fmap option_fmap option_map].
      rewrite (regroup_grouped v Hgrouped). reflexivity.
  - intros data. cbn [Spec.normalize Spec.idField].
    rewrite !card_normalize_id.
    destruct (data !! "individual_number"%string) as [v|]; [|reflexivity].
    cbn [fmap option_fmap option_map]. rewrite regroup_idempotent.
    reflexivity.
Qed.

(** An instance of it: the grouped individual number of a card map. *)
Lemma numeric_id_normalization_stable_witness :
  Spec.groupedCardData !! Spec.idField Spec.individual_number_card_jp
    = Some "1234-5678-9012"%string /\
  Spec.grouped "1234-5678-9012" /\
  Spec.normalize Spec.individual_number_card_jp Spec.groupedCardData
    !! Spec.idField Spec.individual_number_card_jp
  = Some "1234-5678-9012"%string.
Proof.
  assert (Hid : Spec.groupedCardData
                  !! Spec.idField Spec.individual_number_card_jp
                = Some "1234-5678-9012"%string) by (vm_compute; reflexivity).
  assert (Hgrouped : Spec.grouped "1234-5678-9012").
  { exists "123456789012"%string. split; vm_compute; reflexivity. }
  split; [exact Hid|]. split; [exact Hgrouped|].
  exact (proj1 numeric_id_normalization_stable
               Spec.individual_number_card_jp _ _ Hid Hgrouped).
Defined.

(** C9: the normalization of the driver's license is not idempotent on
    the numeric ID.  Its comment says that it removes extra spaces, but
    it replaces double spaces in one pass only, where the address branch
    below it loops until none is left: a license number with runs of
    four spaces keeps runs of two, which a second application halves
    again; the once-normalized value is what the fallback stage returns
    for such a text. *)
Lemma license_normalization_not_idempotent :
  parser.JPDriverLicenseParser.postProcessExtractedData Spec.spacedLicenseData
    !! "license_number"%string = Some "1234  5678  9012"%string /\
  parser.JPDriverLicenseParser.postProcessExtractedData
    (parser.JPDriverLicenseParser.postProcessExtractedData
       Spec.spacedLicenseData)
    !! "license_number"%string = Some "1234 5678 9012"%string /\
  parser.JPDriverLicenseParser.parseTextWithRegex
    parser.JPDriverLicenseParser.NewJPDriverLicenseParser
    Spec.licensePatternOrder "免許証番号 1234    5678    9012"
    !! "license_number"%string = Some "1234  5678  9012"%string.
Proof. vm_compute. repeat split. Qed.

(** ** The region-based stage *)

Section RegionStage.
Import utf8 strings ocr parser Spec.
Local Open Scope string_scope.

Variable h : Helpers.

(** A loop whose body sets the field [k] to the text of every fragment
    that satisfies [P], and leaves it alone otherwise, ends with the text
    of the last such fragment. *)
Lemma fold_last_wins (step : FieldMap -> RegionInfo -> FieldMap)
      (k : string) (P : RegionInfo -> bool) :
  (forall data region,
      step data region !! k
      = if P region then Some (Text region) else data !! k) ->
  forall regions data,
    fold_left step regions data !! k
    = match lastMatching P regions with
      | Some text => Some text
      | None => data !! k
      end.
Proof.
  intros Hstep regions.
  induction regions as [|region rest IH]; intros data; [reflexivity|].
  cbn [fold_left]. rewrite IH, Hstep. unfold lastMatching.
  cbn [List.filter]. destruct (P region); [|reflexivity].
  rewrite last_cons. destruct (last (List.filter P rest)); reflexivity.
Qed.

Local Ltac step_cases :=
  cbn [andb negb];
  repeat match goal with
         | |- context [if ?c then _ else _] =>
           lazymatch c with
           | andb _ _ => fail
           | negb _ => fail
           | _ => destruct c; cbn [andb negb]
           end
         end;
  try reflexivity;
  try (rewrite lookup_insert_eq; reflexivity);
  try (rewrite lookup_insert_ne by discriminate; reflexivity).

(** Case analysis on the category of a fragment, as the [switch] does. *)
Local Ltac by_category cat :=
  destruct (String.eqb_spec cat "name") as [->|_];
  [change (String.eqb "name" "date") with false; step_cases|];
  destruct (String.eqb_spec cat "address") as [->|_];
  [change (String.eqb "address" "date") with false; step_cases|];
  destruct (String.eqb_spec cat "date") as [->|_];
  [step_cases|];
  destruct (String.eqb_spec cat "number") as [->|_];
  step_cases.

Lemma license_step_birth (data : FieldMap) (region : RegionInfo) :
  JPDriverLicenseParser.processRegion h data region !! "birth_date"
  = if birthFragment region then Some (Text region)
    else data !! "birth_date".
Proof.
  destruct region as [text x y w hh cat].
  unfold JPDriverLicenseParser.processRegion, birthFragment, dateFragment.
  cbn [Category Text]. by_category cat.
Qed.

Lemma license_step_issue (data : FieldMap) (region : RegionInfo) :
  JPDriverLicenseParser.processRegion h data region !! "issue_date"
  = if issueFragment region then Some (Text region)
    else data !! "issue_date".
Proof.
  destruct region as [text x y w hh cat].
  unfold JPDriverLicenseParser.processRegion, issueFragment, dateFragment.
  cbn [Category Text]. by_category cat.
Qed.

Lemma license_step_expiry (data : FieldMap) (region : RegionInfo) :
  JPDriverLicenseParser.processRegion h data region !! "expiry_date"
  = if expiryFragment region then Some (Text region)
    else data !! "expiry_date".
Proof.
  destruct region as [text x y w hh cat].
  unfold JPDriverLicenseParser.processRegion, expiryFragment, dateFragment.
  cbn [Category Text]. by_category cat.
Qed.

Lemma card_step_birth (data : FieldMap) (region : RegionInfo) :
  IndividualNumberCardParser.processRegion h data region !! "birth_date"
  = if birthFragment region then Some (Text region)
    else data !! "birth_date".
Proof.
  destruct region as [text x y w hh cat].
  unfold IndividualNumberCardParser.processRegion, birthFragment,
    dateFragment.
  cbn [Category Text]. by_category cat.
Qed.

Lemma card_step_expiry (data : FieldMap) (region : RegionInfo) :
  IndividualNumberCardParser.processRegion h data region !! "expiry_date"
  = if otherDateFragment region then Some (Text region)
    else data !! "expiry_date".
Proof.
  destruct region as [text x y w hh cat].
  unfold IndividualNumberCardParser.processRegion, otherDateFragment,
    dateFragment.
  cbn [Category Text]. by_category cat.
Qed.

(** The two enhancement passes write the keys [municipality] and [name]
    only. *)
Lemma license_extract_other (regions : list RegionInfo) (k : string) :
  k <> "municipality" -> k <> "name" ->
  JPDriverLicenseParser.extractFromRegions h regions !! k
  = fold_left (JPDriverLicenseParser.processRegion h) regions ∅ !! k.
Proof.
  intros Hm Hn. unfold JPDriverLicenseParser.extractFromRegions.
  repeat match goal with
         | |- context [if ?c then _ else _] => destruct c
         end;
    rewrite ?lookup_insert_ne by congruence; reflexivity.
Qed.

Lemma card_extract_other (regions : list RegionInfo) (k : string) :
  k <> "municipality" -> k <> "name" ->
  IndividualNumberCardParser.extractFromRegions h regions !! k
  = fold_left (IndividualNumberCardParser.processRegion h) regions ∅ !! k.
Proof.
  intros Hm Hn. unfold IndividualNumberCardParser.extractFromRegions.
  repeat match goal with
         | |- context [if ?c then _ else _] => destruct c
         end;
    rewrite ?lookup_insert_ne by congruence; reflexivity.
Qed.
End RegionStage.

(** C1, as the code has it: in the region-based stage a date sub-field
    holds the text of the last fragment, in the order returned, that is
    categorized [date], passes [isValidDate] and carries the marker of
    the sub-field; earlier such fragments are overwritten.  The sub-field
    is absent when there is no such fragment. *)
Theorem region_date_subfields_last_wins (h : parser.Helpers)
        (regions : list ocr.RegionInfo) :
  (parser.JPDriverLicenseParser.extractFromRegions h regions
     !! "birth_date"%string = Spec.lastMatching Spec.birthFragment regions /\
   parser.JPDriverLicenseParser.extractFromRegions h regions
     !! "issue_date"%string = Spec.lastMatching Spec.issueFragment regions /\
   parser.JPDriverLicenseParser.extractFromRegions h regions
     !! "expiry_date"%string = Spec.lastMatching Spec.expiryFragment regions)
  /\
  (parser.IndividualNumberCardParser.extractFromRegions h regions
     !! "birth_date"%string = Spec.lastMatching Spec.birthFragment regions /\
   parser.IndividualNumberCardParser.extractFromRegions h regions
     !! "expiry_date"%string
   = Spec.lastMatching Spec.otherDateFragment regions).
Proof.
  repeat split.
  - rewrite license_extract_other by discriminate.
    rewrite (fold_last_wins _ _ _ (license_step_birth h)).
    destruct (Spec.lastMatching _ _); reflexivity.
  - rewrite license_extract_other by discriminate.
    rewrite (fold_last_wins _ _ _ (license_step_issue h)).
    destruct (Spec.lastMatching _ _); reflexivity.
  - rewrite license_extract_other by discriminate.
    rewrite (fold_last_wins _ _ _ (license_step_expiry h)).
    destruct (Spec.lastMatching _ _); reflexivity.
  - rewrite card_extract_other by discriminate.
    rewrite (fold_last_wins _ _ _ (card_step_birth h)).
    destruct (Spec.lastMatching _ _); reflexivity.
  - rewrite card_extract_other by discriminate.
    rewrite (fold_last_wins _ _ _ (card_step_expiry h)).
    destruct (Spec.lastMatching _ _); reflexivity.
Qed.

(** C1, counterexample: of two fragments categorized [date] that pass
    [isValidDate] and contain the birth marker, the second one, not the
    first, ends up in [birth_date], for both parsers and both versions
    of the helpers. *)
Lemma region_first_birth_date_overwritten :
  Spec.birthFragment Spec.earlierBirth = true /\
  Spec.birthFragment Spec.laterBirth = true /\
  ocr.Text Spec.earlierBirth <> ocr.Text Spec.laterBirth /\
  parser.JPDriverLicenseParser.extractFromRegions parser.Inline.helpers
    [Spec.earlierBirth; Spec.laterBirth] !! "birth_date"%string
  = Some (ocr.Text Spec.laterBirth) /\
  parser.IndividualNumberCardParser.extractFromRegions parser.Inline.helpers
    [Spec.earlierBirth; Spec.laterBirth] !! "birth_date"%string
  = Some (ocr.Text Spec.laterBirth) /\
  parser.JPDriverLicenseParser.extractFromRegions parser.Shared.helpers
    [Spec.earlierBirth; Spec.laterBirth] !! "birth_date"%string
  = Some (ocr.Text Spec.laterBirth) /\
  parser.IndividualNumberCardParser.extractFromRegions parser.Shared.helpers
    [Spec.earlierBirth; Spec.laterBirth] !! "birth_date"%string
  = Some (ocr.Text Spec.laterBirth).
Proof. vm_compute. repeat split. discriminate. Qed.

(** ** The two stages of [Parse] *)

(** C2: when the region-based stage returns an error, an empty map or a
    map that fails validation, [Parse] returns what the fallback stage
    alone yields: the error of the text extraction, wrapped; or, for the
    map that [parseTextWithRegex] builds from the flat text, the
    validation error, wrapped, or that map itself.  Neither the error nor
    any field of the region-based stage is part of the result. *)
Theorem region_failure_never_surfaces
        (h : parser.Helpers) (engine : ocr.OCREngine)
        (extractTextUsingOCR : imageprocessor.Mat -> outcome string)
        (pl : parser.JPDriverLicenseParser.t)
        (pc : parser.IndividualNumberCardParser.t)
        (order : list (string * regexp.Regexp)) (mat : imageprocessor.Mat) :
  (Spec.regionStageFails
     parser.JPDriverLicenseParser.validateExtractedData
     (parser.JPDriverLicenseParser.parseWithRegionDetection h engine mat) ->
   parser.JPDriverLicenseParser.Parse h engine extractTextUsingOCR pl order mat
   = match extractTextUsingOCR mat with
     | Err err => Err (Wrapped "failed to extract text via OCR" err)
     | Ok ocrText =>
       Spec.fallbackResult Spec.drivers_license_jp
         (parser.JPDriverLicenseParser.parseTextWithRegex pl order ocrText)
     end) /\
  (Spec.regionStageFails
     parser.IndividualNumberCardParser.validateExtractedData
     (parser.IndividualNumberCardParser.parseWithRegionDetection h engine mat)
   ->
   parser.IndividualNumberCardParser.Parse h engine pc order mat
   = match parser.IndividualNumberCardParser.extractTextUsingOCR engine mat
     with
     | Err err => Err (Wrapped "failed to extract text via OCR" err)
     | Ok ocrText =>
       Spec.fallbackResult Spec.individual_number_card_jp
         (parser.IndividualNumberCardParser.parseTextWithRegex pc order
            ocrText)
     end).
Proof.
  split.
  - intros Hfail. unfold parser.JPDriverLicenseParser.Parse.
    destruct (parser.JPDriverLicenseParser.parseWithRegionDetection h engine mat)
      as [data|err]; cbn [Spec.regionStageFails] in Hfail.
    + destruct Hfail as [Hempty|Hinvalid].
      * rewrite Hempty. reflexivity.
      * destruct (0 <? size data)%nat; [|reflexivity].
        destruct (parser.JPDriverLicenseParser.validateExtractedData data);
          [reflexivity | contradiction].
    + reflexivity.
  - intros Hfail. unfold parser.IndividualNumberCardParser.Parse.
    destruct (parser.IndividualNumberCardParser.parseWithRegionDetection
                h engine mat)
      as [data|err]; cbn [Spec.regionStageFails] in Hfail.
    + destruct Hfail as [Hempty|Hinvalid].
      * rewrite Hempty. reflexivity.
      * destruct (0 <? size data)%nat; [|reflexivity].
        destruct (parser.IndividualNumberCardParser.validateExtractedData data);
          [reflexivity | contradiction].
    + reflexivity.
Qed.

(** C2, witness: the region extraction returns one address fragment, so
    the region-based stage yields a map without a name, which fails
    validation; the result of [Parse] is the map of the fallback stage,
    without the address of the region-based stage. *)
Lemma region_failure_never_surfaces_witness :
  Spec.regionStageFails
    parser.IndividualNumberCardParser.validateExtractedData
    (parser.IndividualNumberCardParser.parseWithRegionDetection
       parser.Inline.helpers (Spec.addressOnlyEngine Spec.sampleNameText)
       "image") /\
  parser.IndividualNumberCardParser.Parse
    parser.Inline.helpers (Spec.addressOnlyEngine Spec.sampleNameText)
    parser.IndividualNumberCardParser.NewIndividualNumberCardParser
    Spec.cardPatternOrder "image"
  = Ok Spec.sampleNameResult.
Proof.
  assert (Hfail :
            Spec.regionStageFails
              parser.IndividualNumberCardParser.validateExtractedData
              (parser.IndividualNumberCardParser.parseWithRegionDetection
                 parser.Inline.helpers
                 (Spec.addressOnlyEngine Spec.sampleNameText) "image")).
  { right. vm_compute. discriminate. }
  split; [exact Hfail|].
  rewrite (proj2 (region_failure_never_surfaces
                    parser.Inline.helpers
                    (Spec.addressOnlyEngine Spec.sampleNameText)
                    (fun _ => Ok Spec.sampleNameText)
                    parser.JPDriverLicenseParser.NewJPDriverLicenseParser
                    parser.IndividualNumberCardParser.NewIndividualNumberCardParser
                    Spec.cardPatternOrder "image") Hfail).
  vm_compute. reflexivity.
Defined.

(** ** The loop over the pattern table *)

Section PatternOrder.
Import utf8 strings regexp ocr parser Spec.
Local Open Scope string_scope.

Variable ocrText : string.

(** Two passes of the loop for entries with different keys commute. *)
Lemma applyPattern_commute (data : FieldMap) (e1 e2 : string * Regexp) :
  e1.1 <> e2.1 ->
  applyPattern ocrText (applyPattern ocrText data e1) e2
  = applyPattern ocrText (applyPattern ocrText data e2) e1.
Proof.
  destruct e1 as [k1 re1], e2 as [k2 re2]. cbn [fst]. intros Hne.
  unfold applyPattern.
  repeat match goal with
         | |- context [if ?c then _ else _] => destruct c
         end;
    try reflexivity.
  apply insert_insert_ne. congruence.
Qed.

(** The loop gives the same map for any two orders of a table whose
    keys are distinct. *)
Lemma pattern_loop_permutation (order1 order2 : list (string * Regexp)) :
  NoDup order1.*1 -> order1 ≡ₚ order2 ->
  fold_left (applyPattern ocrText) order1 ∅
  = fold_left (applyPattern ocrText) order2 ∅.
Proof.
  intros Hnodup Hperm.
  rewrite <- !(fold_left_rev_right
                 (fun e data => applyPattern ocrText data e)).
  assert (Hnodup' : NoDup (rev order1).*1).
  { rewrite map_rev, <- Permutation_rev. exact Hnodup. }
  apply (foldr_permutation eq).
  - intros e data1 data2 ->. reflexivity.
  - intros j1 e1 j2 e2 data Hj H1 H2.
    apply applyPattern_commute. intros Hkey. apply Hj.
    apply (NoDup_lookup _ j1 j2 e1.1 Hnodup').
    + rewrite list_lookup_fmap, H1. reflexivity.
    + rewrite list_lookup_fmap, H2. cbn. congruence.
  - rewrite <- !Permutation_rev. exact Hperm.
Qed.
End PatternOrder.

(** C10: the fallback-stage extraction does not depend on the order in
    which the loop visits the pattern table: for any two orders that
    list the entries of the table, each once, [parseTextWithRegex] builds
    the same map. *)
Theorem parseTextWithRegex_order_independent
        (pl : parser.JPDriverLicenseParser.t)
        (pc : parser.IndividualNumberCardParser.t)
        (order1 order2 : list (string * regexp.Regexp)) (ocrText : string) :
  (order1 ≡ₚ map_to_list (parser.JPDriverLicenseParser.patterns pl) ->
   order2 ≡ₚ map_to_list (parser.JPDriverLicenseParser.patterns pl) ->
   parser.JPDriverLicenseParser.parseTextWithRegex pl order1 ocrText
   = parser.JPDriverLicenseParser.parseTextWithRegex pl order2 ocrText) /\
  (order1 ≡ₚ map_to_list (parser.IndividualNumberCardParser.patterns pc) ->
   order2 ≡ₚ map_to_list (parser.IndividualNumberCardParser.patterns pc) ->
   parser.IndividualNumberCardParser.parseTextWithRegex pc order1 ocrText
   = parser.IndividualNumberCardParser.parseTextWithRegex pc order2 ocrText).
Proof.
  split; intros H1 H2.
  - unfold parser.JPDriverLicenseParser.parseTextWithRegex.
    rewrite (pattern_loop_permutation ocrText order1 order2); [reflexivity| |].
    + rewrite H1. apply NoDup_fst_map_to_list.
    + rewrite H1, H2. reflexivity.
  - unfold parser.IndividualNumberCardParser.parseTextWithRegex.
    rewrite (pattern_loop_permutation ocrText order1 order2); [reflexivity| |].
    + rewrite H1. apply NoDup_fst_map_to_list.
    + rewrite H1, H2. reflexivity.
Qed.

(** C10, witness: the table of the card parser, visited in one order and
    in the reverse order. *)
Lemma parseTextWithRegex_order_independent_witness :
  Spec.cardPatternOrder
    ≡ₚ map_to_list (parser.IndividualNumberCardParser.patterns
                      parser.IndividualNumberCardParser.NewIndividualNumberCardParser)
  /\
  rev Spec.cardPatternOrder
    ≡ₚ map_to_list (parser.IndividualNumberCardParser.patterns
                      parser.IndividualNumberCardParser.NewIndividualNumberCardParser)
  /\
  parser.IndividualNumberCardParser.parseTextWithRegex
    parser.IndividualNumberCardParser.NewIndividualNumberCardParser
    Spec.cardPatternOrder Spec.sampleCardText
  = parser.IndividualNumberCardParser.parseTextWithRegex
      parser.IndividualNumberCardParser.NewIndividualNumberCardParser
      (rev Spec.cardPatternOrder) Spec.sampleCardText.
Proof.
  assert (H1 : Spec.cardPatternOrder
                 ≡ₚ map_to_list
                      (parser.IndividualNumberCardParser.patterns
                         parser.IndividualNumberCardParser.NewIndividualNumberCardParser))
    by reflexivity.
  assert (H2 : rev Spec.cardPatternOrder
                 ≡ₚ map_to_list
                      (parser.IndividualNumberCardParser.patterns
                         parser.IndividualNumberCardParser.NewIndividualNumberCardParser))
    by (symmetry; apply Permutation_rev).
  split; [exact H1|]. split; [exact H2|].
  exact (proj2 (parseTextWithRegex_order_independent
                  parser.JPDriverLicenseParser.NewJPDriverLicenseParser
                  parser.IndividualNumberCardParser.NewIndividualNumberCardParser
                  Spec.cardPatternOrder (rev Spec.cardPatternOrder)
                  Spec.sampleCardText) H1 H2).
Defined.

(** C6: for the flat text "氏名 山田 花子", with the region extraction
    failing, both parsers return a map in which the key [name_alt] of the
    pattern table appears next to [name]; it is no field name of either
    document type. *)
Theorem alternate_pattern_key_in_result :
  parser.IndividualNumberCardParser.Parse
    parser.Inline.helpers (Spec.textOnlyEngine Spec.sampleNameText)
    parser.IndividualNumberCardParser.NewIndividualNumberCardParser
    Spec.cardPatternOrder "image"
  = Ok Spec.sampleNameResult /\
  parser.JPDriverLicenseParser.Parse
    parser.Inline.helpers (Spec.textOnlyEngine Spec.sampleNameText)
    (fun _ => Ok Spec.sampleNameText)
    parser.JPDriverLicenseParser.NewJPDriverLicenseParser
    Spec.licensePatternOrder "image"
  = Ok Spec.sampleNameResult /\
  Spec.sampleNameResult !! "name_alt"%string = Some "氏名 山田"%string /\
  Spec.sampleNameResult !! "name"%string = Some "山田 花子"%string /\
  ~ In "name_alt"%string (Spec.vocabulary Spec.drivers_license_jp) /\
  ~ In "name_alt"%string (Spec.vocabulary Spec.individual_number_card_jp).
Proof.
  repeat split; try (vm_compute; reflexivity);
    cbn [Spec.vocabulary In]; intros H;
    repeat (destruct H as [H|H]; [discriminate H|]); exact H.
Qed.

(** ** More on the region-based stage *)

Section RegionFields.
Import utf8 strings ocr parser Spec Props.
Local Open Scope string_scope.

Variable h : Helpers.

Local Ltac field_cases :=
  cbn [andb negb];
  repeat match goal with
         | |- context [if ?c then _ else _] =>
           lazymatch c with
           | andb _ _ => fail
           | negb _ => fail
           | _ => destruct c; cbn [andb negb]
           end
         end;
  try reflexivity;
  try (rewrite lookup_insert_eq; reflexivity);
  try (rewrite lookup_insert_ne by congruence; reflexivity).

(** Case analysis on the category of a fragment, for a test of the
    category [mine] on the other side. *)
Local Ltac by_category_for cat mine :=
  destruct (String.eqb_spec cat "name") as [->|_];
  [try change (String.eqb "name" mine) with false; field_cases|];
  destruct (String.eqb_spec cat "address") as [->|_];
  [try change (String.eqb "address" mine) with false; field_cases|];
  destruct (String.eqb_spec cat "date") as [->|_];
  [try change (String.eqb "date" mine) with false; field_cases|];
  destruct (String.eqb_spec cat "number") as [->|_];
  [try change (String.eqb "number" mine) with false; field_cases|];
  field_cases.

Lemma license_step_name (data : FieldMap) (region : RegionInfo) :
  JPDriverLicenseParser.processRegion h data region !! "name"
  = if nameFragment h region then Some (Text region) else data !! "name".
Proof.
  destruct region as [text x y w hh cat].
  unfold JPDriverLicenseParser.processRegion, nameFragment.
  cbn [Category Text]. by_category_for cat "name".
Qed.

Lemma license_step_address (data : FieldMap) (region : RegionInfo) :
  JPDriverLicenseParser.processRegion h data region !! "address"
  = if addressFragment h region then Some (Text region)
    else data !! "address".
Proof.
  destruct region as [text x y w hh cat].
  unfold JPDriverLicenseParser.processRegion, addressFragment.
  cbn [Category Text]. by_category_for cat "address".
Qed.

Lemma license_step_number (data : FieldMap) (region : RegionInfo) :
  JPDriverLicenseParser.processRegion h data region !! "license_number"
  = if numberFragment drivers_license_jp region then Some (Text region)
    else data !! "license_number".
Proof.
  destruct region as [text x y w hh cat].
  unfold JPDriverLicenseParser.processRegion, numberFragment, idValid.
  cbn [Category Text]. by_category_for cat "number".
Qed.

Lemma card_step_name (data : FieldMap) (region : RegionInfo) :
  IndividualNumberCardParser.processRegion h data region !! "name"
  = if nameFragment h region then Some (Text region) else data !! "name".
Proof.
  destruct region as [text x y w hh cat].
  unfold IndividualNumberCardParser.processRegion, nameFragment.
  cbn [Category Text]. by_category_for cat "name".
Qed.

Lemma card_step_address (data : FieldMap) (region : RegionInfo) :
  IndividualNumberCardParser.processRegion h data region !! "address"
  = if addressFragment h region then Some (Text region)
    else data !! "address".
Proof.
  destruct region as [text x y w hh cat].
  unfold IndividualNumberCardParser.processRegion, addressFragment.
  cbn [Category Text]. by_category_for cat "address".
Qed.

Lemma card_step_number (data : FieldMap) (region : RegionInfo) :
  IndividualNumberCardParser.processRegion h data region
    !! "individual_number"
  = if numberFragment individual_number_card_jp region
    then Some (Text region)
    else data !! "individual_number".
Proof.
  destruct region as [text x y w hh cat].
  unfold IndividualNumberCardParser.processRegion, numberFragment, idValid.
  cbn [Category Text]. by_category_for cat "number".
Qed.

(** The loop writes no key outside its six (or five) keys. *)
Lemma license_step_other (data : FieldMap) (region : RegionInfo)
      (k : string) :
  k <> "name" -> k <> "address" -> k <> "birth_date" -> k <> "issue_date" ->
  k <> "expiry_date" -> k <> "license_number" ->
  JPDriverLicenseParser.processRegion h data region !! k = data !! k.
Proof.
  intros. unfold JPDriverLicenseParser.processRegion. field_cases.
Qed.

Lemma card_step_other (data : FieldMap) (region : RegionInfo) (k : string) :
  k <> "name" -> k <> "address" -> k <> "birth_date" ->
  k <> "expiry_date" -> k <> "individual_number" ->
  IndividualNumberCardParser.processRegion h data region !! k = data !! k.
Proof.
  intros. unfold IndividualNumberCardParser.processRegion. field_cases.
Qed.

Lemma fold_untouched (step : FieldMap -> RegionInfo -> FieldMap)
      (k : string) :
  (forall data region, step data region !! k = data !! k) ->
  forall regions data, fold_left step regions data !! k = data !! k.
Proof.
  intros Hstep regions. induction regions as [|region rest IH]; intros data;
    [reflexivity|].
  cbn [fold_left]. rewrite IH. apply Hstep.
Qed.

(** The map that the region-based stage returns, field by field. *)
Lemma license_region_lookup (regions : list RegionInfo) (k : string) :
  JPDriverLicenseParser.extractFromRegions h regions !! k
  = if String.eqb k "name" then
      match nonEmpty (extractNameFromRegions h regions) with
      | Some name => Some name
      | None => lastMatching (nameFragment h) regions
      end
    else if String.eqb k "municipality"
    then nonEmpty (extractMunicipalityFromRegions regions)
    else fold_left (JPDriverLicenseParser.processRegion h) regions ∅ !! k.
Proof.
  unfold JPDriverLicenseParser.extractFromRegions, nonEmpty.
  destruct (String.eqb_spec k "name") as [->|Hname].
  - destruct (String.eqb (extractNameFromRegions h regions) "");
      cbn [negb].
    + destruct (String.eqb (extractMunicipalityFromRegions regions) "");
        cbn [negb]; rewrite ?lookup_insert_ne by discriminate;
        rewrite (fold_last_wins _ _ _ (license_step_name));
        destruct (lastMatching _ _); reflexivity.
    + apply lookup_insert_eq.
  - assert (Hskip :
              forall m : FieldMap,
                (if negb (String.eqb (extractNameFromRegions h regions) "")
                 then <["name" := extractNameFromRegions h regions]> m
                 else m) !! k = m !! k).
    { intros m. destruct (negb _); [|reflexivity].
      apply lookup_insert_ne. congruence. }
    rewrite Hskip. clear Hskip.
    destruct (String.eqb_spec k "municipality") as [->|Hmun].
    + destruct (String.eqb (extractMunicipalityFromRegions regions) "");
        cbn [negb].
      * apply (fold_untouched _ "municipality").
        intros data region. apply license_step_other; discriminate.
      * apply lookup_insert_eq.
    + destruct (negb (String.eqb (extractMunicipalityFromRegions regions) ""));
        [|reflexivity].
      apply lookup_insert_ne. congruence.
Qed.

Lemma card_region_lookup (regions : list RegionInfo) (k : string) :
  IndividualNumberCardParser.extractFromRegions h regions !! k
  = if String.eqb k "name" then
      match nonEmpty (extractNameFromRegions h regions) with
      | Some name => Some name
      | None => lastMatching (nameFragment h) regions
      end
    else if String.eqb k "municipality"
    then nonEmpty (extractMunicipalityFromRegions regions)
    else fold_left (IndividualNumberCardParser.processRegion h) regions ∅ !! k.
Proof.
  unfold IndividualNumberCardParser.extractFromRegions, nonEmpty.
  destruct (String.eqb_spec k "name") as [->|Hname].
  - destruct (String.eqb (extractNameFromRegions h regions) "");
      cbn [negb].
    + destruct (String.eqb (extractMunicipalityFromRegions regions) "");
        cbn [negb]; rewrite ?lookup_insert_ne by discriminate;
        rewrite (fold_last_wins _ _ _ (card_step_name));
        destruct (lastMatching _ _); reflexivity.
    + apply lookup_insert_eq.
  - assert (Hskip :
              forall m : FieldMap,
                (if negb (String.eqb (extractNameFromRegions h regions) "")
                 then <["name" := extractNameFromRegions h regions]> m
                 else m) !! k = m !! k).
    { intros m. destruct (negb _); [|reflexivity].
      apply lookup_insert_ne. congruence. }
    rewrite Hskip. clear Hskip.
    destruct (String.eqb_spec k "municipality") as [->|Hmun].
    + destruct (String.eqb (extractMunicipalityFromRegions regions) "");
        cbn [negb].
      * apply (fold_untouched _ "municipality").
        intros data region. apply card_step_other; discriminate.
      * apply lookup_insert_eq.
    + destruct (negb (String.eqb (extractMunicipalityFromRegions regions) ""));
        [|reflexivity].
      apply lookup_insert_ne. congruence.
Qed.
End RegionFields.

(** X1: in the region-based stage of either parser, the address and the
    numeric ID are those of the last fragment of their category that
    passes its validator; the municipality is what
    [extractMunicipalityFromRegions] returns, when that is not empty; and
    the name is what [extractNameFromRegions] returns, when that is not
    empty, and otherwise that of the last fragment categorized [name]
    that passes [isValidName]. *)
Theorem region_fields (d : Spec.DocumentType) (h : parser.Helpers)
        (regions : list ocr.RegionInfo) :
  Props.regionStage d h regions !! "address"%string
  = Spec.lastMatching (Props.addressFragment h) regions /\
  Props.regionStage d h regions !! Spec.idField d
  = Spec.lastMatching (Props.numberFragment d) regions /\
  Props.regionStage d h regions !! "municipality"%string
  = Props.nonEmpty (parser.extractMunicipalityFromRegions regions) /\
  Props.regionStage d h regions !! "name"%string
  = match Props.nonEmpty (parser.extractNameFromRegions h regions) with
    | Some name => Some name
    | None => Spec.lastMatching (Props.nameFragment h) regions
    end.
Proof.
  destruct d; cbn [Props.regionStage Spec.idField];
    rewrite ?license_region_lookup, ?card_region_lookup;
    cbn [String.eqb Ascii.eqb Bool.eqb]; repeat split.
  - rewrite (fold_last_wins _ _ _ (license_step_address h)).
    destruct (Spec.lastMatching _ _); reflexivity.
  - rewrite (fold_last_wins _ _ _ (license_step_number h)).
    destruct (Spec.lastMatching _ _); reflexivity.
  - rewrite (fold_last_wins _ _ _ (card_step_address h)).
    destruct (Spec.lastMatching _ _); reflexivity.
  - rewrite (fold_last_wins _ _ _ (card_step_number h)).
    destruct (Spec.lastMatching _ _); reflexivity.
Qed.

(** The name and the numeric ID of the region-based stage, for both
    parsers at once. *)
Lemma region_stage_name (d : Spec.DocumentType) (h : parser.Helpers)
      (regions : list ocr.RegionInfo) :
  Props.regionStage d h regions !! "name"%string
  = match Props.nonEmpty (parser.extractNameFromRegions h regions) with
    | Some name => Some name
    | None => Spec.lastMatching (Props.nameFragment h) regions
    end.
Proof.
  destruct d; cbn [Props.regionStage];
    rewrite ?license_region_lookup, ?card_region_lookup; reflexivity.
Qed.

Lemma region_stage_number (d : Spec.DocumentType) (h : parser.Helpers)
      (regions : list ocr.RegionInfo) :
  Props.regionStage d h regions !! Spec.idField d
  = Spec.lastMatching (Props.numberFragment d) regions.
Proof.
  destruct d; cbn [Props.regionStage Spec.idField];
    rewrite ?license_region_lookup, ?card_region_lookup;
    cbn [String.eqb Ascii.eqb Bool.eqb].
  - rewrite (fold_last_wins _ _ _ (license_step_number h)).
    destruct (Spec.lastMatching _ _); reflexivity.
  - rewrite (fold_last_wins _ _ _ (card_step_number h)).
    destruct (Spec.lastMatching _ _); reflexivity.
Qed.

Section RegionValidation.
Import utf8 strings ocr parser Spec Props.
Local Open Scope string_scope.

Variable h : Helpers.

Lemma region_other_key (d : DocumentType) (regions : list RegionInfo)
      (k : string) :
  ~ In k (regionKeys d) -> regionStage d h regions !! k = None.
Proof.
  intros Hk.
  destruct d; cbn [regionStage regionKeys In] in *.
  - rewrite license_region_lookup.
    destruct (String.eqb_spec k "name") as [->|?]; [tauto|].
    destruct (String.eqb_spec k "municipality") as [->|?]; [tauto|].
    rewrite (fold_untouched _ k); [reflexivity|].
    intros data region. apply license_step_other; intros ->; tauto.
  - rewrite card_region_lookup.
    destruct (String.eqb_spec k "name") as [->|?]; [tauto|].
    destruct (String.eqb_spec k "municipality") as [->|?]; [tauto|].
    rewrite (fold_untouched _ k); [reflexivity|].
    intros data region. apply card_step_other; intros ->; tauto.
Qed.

Lemma lastMatching_holds (P : RegionInfo -> bool)
      (regions : list RegionInfo) (text : string) :
  lastMatching P regions = Some text ->
  exists region, In region regions /\ P region = true /\ Text region = text.
Proof.
  unfold lastMatching. intros Hlast.
  destruct (last (List.filter P regions)) as [region|] eqn:Hl;
    [|discriminate].
  injection Hlast as <-. exists region.
  apply last_Some in Hl as [l' Hl'].
  assert (Hin : In region (List.filter P regions))
    by (rewrite Hl'; apply in_or_app; right; left; reflexivity).
  apply filter_In in Hin as [Hin HP]. auto.
Qed.

(** A string that an ID validator accepts has the length that
    [validate] asks for. *)
Lemma idValid_stripped (d : DocumentType) (v : string) :
  idValid d v = true -> String.length (idStripped d v) = 12%nat.
Proof.
  destruct d; cbn [idValid idStripped].
  - rewrite isValidLicenseNumber_spec. unfold twelveDigitsIn.
    intros [Hlen _]%andb_prop. apply Nat.eqb_eq, Hlen.
  - rewrite isValidIndividualNumber_spec. unfold twelveDigitsIn.
    intros [Hlen Hdig]%andb_prop. apply Nat.eqb_eq in Hlen.
    unfold stripSpacesHyphens.
    rewrite (without_absent " " v)
      by (apply digitsOnly_free; [reflexivity | exact Hdig]).
    rewrite (without_absent "-" v)
      by (apply digitsOnly_free; [reflexivity | exact Hdig]).
    exact Hlen.
Qed.
End RegionValidation.

(** X2: the map of the region-based stage has no key outside the six
    (individual-number card) or seven (driver's license) keys that the
    stage writes; in particular it never has a [gender] or a
    [license_class], and for the card never an [issue_date]. *)
Theorem region_keys (d : Spec.DocumentType) (h : parser.Helpers)
        (regions : list ocr.RegionInfo) :
  dom (Props.regionStage d h regions) ⊆ list_to_set (Props.regionKeys d).
Proof.
  intros k Hk. apply elem_of_dom in Hk as [v Hv].
  apply elem_of_list_to_set, list_elem_of_In.
  destruct (in_dec String.string_dec k (Props.regionKeys d)) as [Hin|Hout];
    [exact Hin|].
  rewrite (region_other_key h d regions k Hout) in Hv. discriminate.
Qed.

(** X3: a numeric ID that the region-based stage stores has passed the
    ID validator of the document type, so it never makes the validation
    of the region map fail: that validation succeeds exactly when the
    map has a name that is not blank. *)
Theorem region_validation (d : Spec.DocumentType) (h : parser.Helpers)
        (regions : list ocr.RegionInfo) :
  (forall v, Props.regionStage d h regions !! Spec.idField d = Some v ->
             Props.idValid d v = true) /\
  (Spec.validate d (Props.regionStage d h regions) = None <->
   Spec.nonBlank (Props.regionStage d h regions) "name").
Proof.
  assert (Hid : forall v,
             Props.regionStage d h regions !! Spec.idField d = Some v ->
             Props.idValid d v = true).
  { intros v Hv.
    rewrite region_stage_number in Hv.
    apply lastMatching_holds in Hv as (region & _ & HP & <-).
    unfold Props.numberFragment in HP.
    apply andb_prop in HP as [_ HP]. exact HP. }
  split; [exact Hid|].
  rewrite <- nameCheck_nonBlank.
  destruct d; cbn [Spec.validate Spec.idField] in *.
  - rewrite license_validate_cases.
    destruct (Spec.nameCheck _); [|split; discriminate].
    destruct (Props.regionStage _ _ _ !! "license_number"%string)
      as [v|] eqn:Hv; [|tauto].
    pose proof (idValid_stripped Spec.drivers_license_jp v (Hid v eq_refl))
      as Hlen.
    cbn [Spec.idStripped] in Hlen. rewrite Hlen. tauto.
  - rewrite card_validate_cases.
    destruct (Spec.nameCheck _); [|split; discriminate].
    rewrite (region_other_key h Spec.individual_number_card_jp regions
               "gender").
    + destruct (Props.regionStage _ _ _ !! "individual_number"%string)
        as [v|] eqn:Hv; [|tauto].
      pose proof (idValid_stripped Spec.individual_number_card_jp v
                    (Hid v eq_refl)) as Hlen.
      cbn [Spec.idStripped] in Hlen. rewrite Hlen. tauto.
    + cbn. intros H. repeat (destruct H as [H|H]; [discriminate H|]).
      exact H.
Qed.

(** ** More on [Parse] *)

Section ParseOutcome.
Import utf8 strings regexp imageprocessor ocr parser Spec Props.
Local Open Scope string_scope.

Lemma validate_name (d : DocumentType) (data : FieldMap) :
  validate d data = None -> nonBlank data "name".
Proof.
  intros Hvalid. apply nameCheck_nonBlank.
  destruct d; cbn [validate] in Hvalid.
  - rewrite license_validate_cases in Hvalid.
    destruct (nameCheck data); [reflexivity | discriminate].
  - rewrite card_validate_cases in Hvalid.
    destruct (nameCheck data); [reflexivity | discriminate].
Qed.
End ParseOutcome.

(** X4: [Parse] of the driver's license parser returns either a map that
    passes validation, and so has a name that is not blank, or one of the
    two errors of the fallback stage: the error of the text extraction, or
    the validation error of the map built from the flat text, each
    wrapped.  No error of the region-based stage is ever returned. *)
Theorem license_parse_outcome
        (h : parser.Helpers) (engine : ocr.OCREngine)
        (extractTextUsingOCR : imageprocessor.Mat -> outcome string)
        (p : parser.JPDriverLicenseParser.t)
        (order : list (string * regexp.Regexp)) (mat : imageprocessor.Mat) :
  match parser.JPDriverLicenseParser.Parse h engine extractTextUsingOCR p
          order mat with
  | Ok data =>
    parser.JPDriverLicenseParser.validateExtractedData data = None /\
    Spec.nonBlank data "name"
  | Err e =>
    (exists err, extractTextUsingOCR mat = Err err /\
                 e = Wrapped "failed to extract text via OCR" err) \/
    (exists ocrText err,
        extractTextUsingOCR mat = Ok ocrText /\
        parser.JPDriverLicenseParser.validateExtractedData
          (parser.JPDriverLicenseParser.parseTextWithRegex p order ocrText)
        = Some err /\
        e = Wrapped "validation failed for driver's license data" err)
  end.
Proof.
  assert (Hfallback :
            match parser.JPDriverLicenseParser.fallbackStage
                    extractTextUsingOCR p order mat with
            | Ok data =>
              parser.JPDriverLicenseParser.validateExtractedData data = None /\
              Spec.nonBlank data "name"
            | Err e =>
              (exists err, extractTextUsingOCR mat = Err err /\
                           e = Wrapped "failed to extract text via OCR" err) \/
              (exists ocrText err,
                  extractTextUsingOCR mat = Ok ocrText /\
                  parser.JPDriverLicenseParser.validateExtractedData
                    (parser.JPDriverLicenseParser.parseTextWithRegex p order
                       ocrText) = Some err /\
                  e = Wrapped "validation failed for driver's license data"
                        err)
            end).
  { unfold parser.JPDriverLicenseParser.fallbackStage.
    destruct (extractTextUsingOCR mat) as [ocrText|err].
    - destruct (parser.JPDriverLicenseParser.validateExtractedData _)
        as [err|] eqn:Hv.
      + right. exists ocrText, err. auto.
      + split; [exact Hv|].
        apply (validate_name Spec.drivers_license_jp), Hv.
    - left. exists err. auto. }
  unfold parser.JPDriverLicenseParser.Parse.
  destruct (parser.JPDriverLicenseParser.parseWithRegionDetection h engine mat)
    as [data|err]; [|exact Hfallback].
  destruct (0 <? size data)%nat; [|exact Hfallback].
  destruct (parser.JPDriverLicenseParser.validateExtractedData data)
    as [err|] eqn:Hv; [exact Hfallback|].
  split; [exact Hv|]. apply (validate_name Spec.drivers_license_jp), Hv.
Qed.

(** X5: [Parse] of the individual-number-card parser likewise returns a
    map that passes validation, or an error of the fallback stage; and
    the error it returns is that of an empty image exactly when the image
    is empty, whatever the engine would answer. *)
Theorem card_parse_outcome
        (h : parser.Helpers) (engine : ocr.OCREngine)
        (p : parser.IndividualNumberCardParser.t)
        (order : list (string * regexp.Regexp)) (mat : imageprocessor.Mat) :
  match parser.IndividualNumberCardParser.Parse h engine p order mat with
  | Ok data =>
    parser.IndividualNumberCardParser.validateExtractedData data = None /\
    Spec.nonBlank data "name"
  | Err e =>
    (exists err, e = Wrapped "failed to extract text via OCR" err) \/
    (exists err,
        e = Wrapped "validation failed for individual number card data" err)
  end /\
  (parser.IndividualNumberCardParser.Parse h engine p order mat
   = Err (Wrapped "failed to extract text via OCR" EmptyImage)
   <-> mat = ""%string).
Proof.
  assert (Hfallback :
            match parser.IndividualNumberCardParser.fallbackStage engine p
                    order mat with
            | Ok data =>
              parser.IndividualNumberCardParser.validateExtractedData data
              = None /\ Spec.nonBlank data "name"
            | Err e =>
              (exists err, e = Wrapped "failed to extract text via OCR" err) \/
              (exists err,
                  e = Wrapped
                        "validation failed for individual number card data"
                        err)
            end).
  { unfold parser.IndividualNumberCardParser.fallbackStage.
    destruct (parser.IndividualNumberCardParser.extractTextUsingOCR engine mat)
      as [ocrText|err].
    - destruct (parser.IndividualNumberCardParser.validateExtractedData _)
        as [err|] eqn:Hv.
      + right. exists err. reflexivity.
      + split; [exact Hv|].
        apply (validate_name Spec.individual_number_card_jp), Hv.
    - left. exists err. reflexivity. }
  split.
  - unfold parser.IndividualNumberCardParser.Parse.
    destruct (parser.IndividualNumberCardParser.parseWithRegionDetection
                h engine mat) as [data|err]; [|exact Hfallback].
    destruct (0 <? size data)%nat; [|exact Hfallback].
    destruct (parser.IndividualNumberCardParser.validateExtractedData data)
      as [err|] eqn:Hv; [exact Hfallback|].
    split; [exact Hv|].
    apply (validate_name Spec.individual_number_card_jp), Hv.
  - split.
    + intros Hparse. destruct mat as [|a t]; [reflexivity|exfalso].
      revert Hparse. unfold parser.IndividualNumberCardParser.Parse.
      assert (Hfb : parser.IndividualNumberCardParser.fallbackStage engine p
                      order (String a t)
                    <> Err (Wrapped "failed to extract text via OCR"
                              EmptyImage)).
      { unfold parser.IndividualNumberCardParser.fallbackStage,
          parser.IndividualNumberCardParser.extractTextUsingOCR.
        cbn [String.length Nat.eqb].
        destruct (ocr.ExtractText engine (String a t)); [|discriminate].
        destruct (parser.IndividualNumberCardParser.validateExtractedData _);
          discriminate. }
      destruct (parser.IndividualNumberCardParser.parseWithRegionDetection
                  h engine (String a t)) as [data|err]; [|exact Hfb].
      destruct (0 <? size data)%nat; [|exact Hfb].
      destruct (parser.IndividualNumberCardParser.validateExtractedData data);
        [exact Hfb | discriminate].
    + intros ->. reflexivity.
Qed.

(** ** More on the fallback stage *)

Section FallbackFields.
Import utf8 strings regexp ocr parser Spec Props.
Local Open Scope string_scope.

Variable ocrText : string.

Lemma applyPattern_fieldValue (data : FieldMap) (k : string) (re : Regexp) :
  applyPattern ocrText data (k, re)
  = match fieldValue re ocrText with
    | Some value => <[k := value]> data
    | None => data
    end.
Proof.
  unfold applyPattern, fieldValue, nonEmpty.
  destruct (1 <? length (FindStringSubmatch re ocrText))%nat; [|reflexivity].
  destruct (String.eqb _ ""); reflexivity.
Qed.

(** After the loop over the pattern table, a field holds the value of its
    pattern, if the table has one for it and it gives a value. *)
Lemma pattern_loop_lookup (order : list (string * Regexp)) (data : FieldMap)
      (k : string) :
  NoDup order.*1 ->
  fold_left (applyPattern ocrText) order data !! k
  = match (list_to_map order : gmap string Regexp) !! k
          ≫= (fun re => fieldValue re ocrText) with
    | Some value => Some value
    | None => data !! k
    end.
Proof.
  revert data. induction order as [|[k' re] rest IH]; intros data Hnodup;
    [reflexivity|].
  cbn [fold_left]. cbn [fmap list_fmap fst] in Hnodup.
  apply NoDup_cons in Hnodup as [Hfresh Hnodup].
  rewrite (IH _ Hnodup), list_to_map_cons, applyPattern_fieldValue.
  destruct (decide (k' = k)) as [->|Hne].
  - rewrite lookup_insert_eq, (not_elem_of_list_to_map_1 _ _ Hfresh).
    cbn [mbind option_bind].
    destruct (fieldValue re ocrText); [apply lookup_insert_eq | reflexivity].
  - rewrite lookup_insert_ne by exact Hne.
    destruct (list_to_map rest !! k ≫= _); [reflexivity|].
    destruct (fieldValue re ocrText); [|reflexivity].
    apply lookup_insert_ne, Hne.
Qed.

Lemma pattern_loop_table (table : gmap string Regexp)
      (order : list (string * Regexp)) (k : string) :
  order ≡ₚ map_to_list table ->
  fold_left (applyPattern ocrText) order ∅ !! k
  = table !! k ≫= (fun re => fieldValue re ocrText).
Proof.
  intros Hperm.
  assert (Hnodup : NoDup order.*1)
    by (rewrite Hperm; apply NoDup_fst_map_to_list).
  rewrite (pattern_loop_lookup _ _ _ Hnodup).
  rewrite (list_to_map_proper _ _ Hnodup Hperm), list_to_map_to_list.
  destruct (table !! k ≫= _); reflexivity.
Qed.

Lemma applyAlternate_lookup (table : gmap string Regexp)
      (field alternate : string) (data : FieldMap) (k : string) :
  applyAlternate table ocrText field alternate data !! k
  = if String.eqb k field then
      match data !! field with
      | Some value => Some value
      | None => table !! alternate ≫= (fun re => alternateValue re ocrText)
      end
    else data !! k.
Proof.
  unfold applyAlternate, alternateValue.
  destruct (String.eqb_spec k field) as [->|Hne].
  - destruct (data !! field) as [value|] eqn:Hfield; [exact Hfield|].
    destruct (table !! alternate) as [re|]; cbn [mbind option_bind];
      [|exact Hfield].
    destruct (1 <? length (FindStringSubmatch re ocrText))%nat;
      [apply lookup_insert_eq | exact Hfield].
  - destruct (data !! field); [reflexivity|].
    destruct (table !! alternate) as [re|]; [|reflexivity].
    destruct (1 <? length (FindStringSubmatch re ocrText))%nat;
      [|reflexivity].
    apply lookup_insert_ne. congruence.
Qed.
End FallbackFields.

Section NormalizeLookups.
Import utf8 strings regexp ocr parser Spec Props.
Local Open Scope string_scope.

Lemma normalizeLicenseNumber_other (data : FieldMap) (k : string) :
  k <> "license_number" ->
  JPDriverLicenseParser.normalizeLicenseNumber data !! k = data !! k.
Proof.
  intros Hk. unfold JPDriverLicenseParser.normalizeLicenseNumber.
  destruct (data !! "license_number"); [|reflexivity].
  apply lookup_insert_ne. congruence.
Qed.

Lemma normalizeIndividualNumber_other (data : FieldMap) (k : string) :
  k <> "individual_number" ->
  IndividualNumberCardParser.normalizeIndividualNumber data !! k = data !! k.
Proof.
  intros Hk. unfold IndividualNumberCardParser.normalizeIndividualNumber.
  destruct (data !! "individual_number"); [|reflexivity].
  destruct (_ =? 12)%nat; [|reflexivity].
  apply lookup_insert_ne. congruence.
Qed.

Lemma normalizeName_name (data : FieldMap) :
  normalizeName data !! "name" = spaceName <$> data !! "name".
Proof.
  unfold normalizeName.
  destruct (data !! "name") as [name|] eqn:Hname;
    [apply lookup_insert_eq | rewrite Hname; reflexivity].
Qed.

Lemma normalizeAddress_address (data : FieldMap) :
  normalizeAddress data !! "address" = cleanAddress <$> data !! "address".
Proof.
  unfold normalizeAddress.
  destruct (data !! "address") as [address|] eqn:Haddress;
    [apply lookup_insert_eq | rewrite Haddress; reflexivity].
Qed.

(** Normalization, field by field. *)
Lemma normalize_name (d : DocumentType) (data : FieldMap) :
  normalize d data !! "name" = spaceName <$> data !! "name".
Proof.
  destruct d; cbn [normalize];
    unfold JPDriverLicenseParser.postProcessExtractedData,
      IndividualNumberCardParser.postProcessExtractedData.
  - rewrite normalizeName_name, normalizeAddress_other,
      normalizeLicenseNumber_other by discriminate. reflexivity.
  - rewrite normalizeGender_other, normalizeName_name,
      normalizeAddress_other, normalizeIndividualNumber_other by discriminate.
    reflexivity.
Qed.

Lemma normalize_address (d : DocumentType) (data : FieldMap) :
  normalize d data !! "address" = cleanAddress <$> data !! "address".
Proof.
  destruct d; cbn [normalize];
    unfold JPDriverLicenseParser.postProcessExtractedData,
      IndividualNumberCardParser.postProcessExtractedData.
  - rewrite normalizeName_other, normalizeAddress_address,
      normalizeLicenseNumber_other by discriminate. reflexivity.
  - rewrite normalizeGender_other, normalizeName_other,
      normalizeAddress_address, normalizeIndividualNumber_other
      by discriminate.
    reflexivity.
Qed.

Lemma normalize_untouched (d : DocumentType) (data : FieldMap) (k : string) :
  k <> "name" -> k <> "address" -> k <> "gender" -> k <> idField d ->
  normalize d data !! k = data !! k.
Proof.
  intros Hn Ha Hg Hi.
  destruct d; cbn [normalize idField] in *;
    unfold JPDriverLicenseParser.postProcessExtractedData,
      IndividualNumberCardParser.postProcessExtractedData.
  - rewrite normalizeName_other, normalizeAddress_other,
      normalizeLicenseNumber_other by assumption. reflexivity.
  - rewrite normalizeGender_other, normalizeName_other,
      normalizeAddress_other, normalizeIndividualNumber_other by assumption.
    reflexivity.
Qed.

(** Normalization changes values, never the set of keys. *)
Lemma normalize_dom (d : DocumentType) (data : FieldMap) :
  dom (normalize d data) = dom data.
Proof.
  assert (Hkeep : forall (m : FieldMap) (k v : string),
             is_Some (m !! k) -> dom (<[k := v]> m) = dom m)
    by (intros; apply dom_insert_lookup_L; assumption).
  assert (Haddr : forall m : FieldMap, dom (normalizeAddress m) = dom m).
  { intros m. unfold normalizeAddress.
    destruct (m !! "address") eqn:E; [|reflexivity]. apply Hkeep. eauto. }
  assert (Hname : forall m : FieldMap, dom (normalizeName m) = dom m).
  { intros m. unfold normalizeName.
    destruct (m !! "name") eqn:E; [|reflexivity]. apply Hkeep. eauto. }
  destruct d; cbn [normalize];
    unfold JPDriverLicenseParser.postProcessExtractedData,
      IndividualNumberCardParser.postProcessExtractedData.
  - rewrite Hname, Haddr.
    unfold JPDriverLicenseParser.normalizeLicenseNumber.
    destruct (data !! "license_number") eqn:E; [|reflexivity].
    apply Hkeep. eauto.
  - assert (Hgender : forall m : FieldMap,
               dom (IndividualNumberCardParser.normalizeGender m) = dom m).
    { intros m. unfold IndividualNumberCardParser.normalizeGender.
      destruct (m !! "gender") eqn:E; [|reflexivity].
      repeat match goal with
             | |- context [if ?c then _ else _] => destruct c
             end; try reflexivity; apply Hkeep; eauto. }
    rewrite Hgender, Hname, Haddr.
    unfold IndividualNumberCardParser.normalizeIndividualNumber.
    destruct (data !! "individual_number") eqn:E; [|reflexivity].
    destruct (_ =? 12)%nat; [|reflexivity].
    apply Hkeep. eauto.
Qed.
End NormalizeLookups.

(** X6: in the map of the fallback stage, [name] and [birth_date] (and,
    for the card, [individual_number]) hold the value of the canonical
    pattern whenever that pattern matches with a capture that is not
    blank; the alternate pattern is consulted only otherwise and never
    overrides it.  The name is then spaced by the name normalization, the
    numeric ID normalized, and the birth date left as extracted. *)
Theorem fallback_fields (d : Spec.DocumentType)
        (table : gmap string regexp.Regexp)
        (order : list (string * regexp.Regexp)) (ocrText : string) :
  order ≡ₚ map_to_list table ->
  Props.parseText d table order ocrText !! "name"%string
  = parser.spaceName
      <$> Props.extracted table ocrText "name" "name_alt" /\
  Props.parseText d table order ocrText !! "birth_date"%string
  = Props.extracted table ocrText "birth_date" "birth_date_alt" /\
  Props.parseText d table order ocrText !! Spec.idField d
  = match d with
    | Spec.drivers_license_jp =>
      (fun v => strings.TrimSpace (strings.ReplaceAll v "  " " "))
        <$> (table !! "license_number"%string
               ≫= (fun re => Props.fieldValue re ocrText))
    | Spec.individual_number_card_jp =>
      Spec.regroup
        <$> Props.extracted table ocrText "individual_number"
              "individual_number_alt"
    end.
Proof.
  intros Hperm. unfold Props.extracted.
  destruct d; cbn [Props.parseText Spec.idField];
    unfold parser.JPDriverLicenseParser.parseTextWithRegex,
      parser.IndividualNumberCardParser.parseTextWithRegex;
    cbn [parser.JPDriverLicenseParser.patterns
           parser.IndividualNumberCardParser.patterns].
  - change parser.JPDriverLicenseParser.postProcessExtractedData
      with (Spec.normalize Spec.drivers_license_jp).
    rewrite normalize_name, (normalize_untouched _ _ "birth_date")
      by discriminate.
    change (Spec.normalize Spec.drivers_license_jp)
      with parser.JPDriverLicenseParser.postProcessExtractedData.
    rewrite license_normalize_id, !applyAlternate_lookup.
    cbn [String.eqb Ascii.eqb Bool.eqb].
    rewrite !(pattern_loop_table ocrText table order _ Hperm).
    repeat split.
  - change parser.IndividualNumberCardParser.postProcessExtractedData
      with (Spec.normalize Spec.individual_number_card_jp).
    rewrite normalize_name, (normalize_untouched _ _ "birth_date")
      by discriminate.
    change (Spec.normalize Spec.individual_number_card_jp)
      with parser.IndividualNumberCardParser.postProcessExtractedData.
    rewrite card_normalize_id, !applyAlternate_lookup.
    cbn [String.eqb Ascii.eqb Bool.eqb].
    rewrite !(pattern_loop_table ocrText table order _ Hperm).
    repeat split.
Qed.

(** X6, witness: the table of the card parser on the sample text, whose
    canonical name pattern matches. *)
Lemma fallback_fields_witness :
  Spec.cardPatternOrder
    ≡ₚ map_to_list parser.IndividualNumberCardParser.initIndividualNumberCardPatterns
  /\
  Props.parseText Spec.individual_number_card_jp
    parser.IndividualNumberCardParser.initIndividualNumberCardPatterns
    Spec.cardPatternOrder Spec.sampleCardText !! "name"%string
  = Some "山田 花子"%string.
Proof.
  assert (Hperm :
            Spec.cardPatternOrder
              ≡ₚ map_to_list
                   parser.IndividualNumberCardParser.initIndividualNumberCardPatterns)
    by reflexivity.
  split; [exact Hperm|].
  rewrite (proj1 (fallback_fields Spec.individual_number_card_jp _ _
                    Spec.sampleCardText Hperm)).
  vm_compute. reflexivity.
Defined.

(** X7: every key of the map of the fallback stage is a key of the
    pattern table of the parser or one of the fields that have an
    alternate pattern; the stage invents no other key. *)
Theorem fallback_keys (d : Spec.DocumentType)
        (table : gmap string regexp.Regexp)
        (order : list (string * regexp.Regexp)) (ocrText : string) :
  order ≡ₚ map_to_list table ->
  dom (Props.parseText d table order ocrText)
    ⊆ dom table ∪ Props.alternateFields d.
Proof.
  intros Hperm k Hk.
  destruct (decide (k ∈ Props.alternateFields d)) as [Hin|Hout];
    [apply elem_of_union_r, Hin|].
  apply elem_of_union_l.
  assert (Hloop :
            forall k', is_Some (fold_left (parser.applyPattern ocrText) order ∅
                                  !! k') -> k' ∈ dom table).
  { intros k' [v Hv].
    rewrite (pattern_loop_table ocrText table order k' Hperm) in Hv.
    destruct (table !! k') as [re|] eqn:Hre; [|discriminate].
    apply elem_of_dom. eauto. }
  apply Hloop.
  destruct d; cbn [Props.parseText Props.alternateFields] in *;
    unfold parser.JPDriverLicenseParser.parseTextWithRegex,
      parser.IndividualNumberCardParser.parseTextWithRegex in Hk;
    cbn [parser.JPDriverLicenseParser.patterns
           parser.IndividualNumberCardParser.patterns] in Hk.
  - change parser.JPDriverLicenseParser.postProcessExtractedData
      with (Spec.normalize Spec.drivers_license_jp) in Hk.
    rewrite normalize_dom in Hk. apply elem_of_dom in Hk.
    rewrite !applyAlternate_lookup in Hk.
    destruct (String.eqb_spec k "birth_date") as [Heq|_]; [subst k; set_solver|].
    destruct (String.eqb_spec k "name") as [Heq|_]; [subst k; set_solver|].
    exact Hk.
  - change parser.IndividualNumberCardParser.postProcessExtractedData
      with (Spec.normalize Spec.individual_number_card_jp) in Hk.
    rewrite normalize_dom in Hk. apply elem_of_dom in Hk.
    rewrite !applyAlternate_lookup in Hk.
    destruct (String.eqb_spec k "individual_number") as [Heq|_]; [subst k; set_solver|].
    destruct (String.eqb_spec k "birth_date") as [Heq|_]; [subst k; set_solver|].
    destruct (String.eqb_spec k "name") as [Heq|_]; [subst k; set_solver|].
    exact Hk.
Qed.

(** X7, witness: the keys of the map that the card parser builds from
    the sample text. *)
Lemma fallback_keys_witness :
  Spec.cardPatternOrder
    ≡ₚ map_to_list parser.IndividualNumberCardParser.initIndividualNumberCardPatterns
  /\
  dom (Props.parseText Spec.individual_number_card_jp
         parser.IndividualNumberCardParser.initIndividualNumberCardPatterns
         Spec.cardPatternOrder Spec.sampleCardText)
    ⊆ dom parser.IndividualNumberCardParser.initIndividualNumberCardPatterns
        ∪ Props.alternateFields Spec.individual_number_card_jp.
Proof.
  assert (Hperm :
            Spec.cardPatternOrder
              ≡ₚ map_to_list
                   parser.IndividualNumberCardParser.initIndividualNumberCardPatterns)
    by reflexivity.
  split; [exact Hperm|].
  exact (fallback_keys Spec.individual_number_card_jp _ _
           Spec.sampleCardText Hperm).
Defined.

(** ** Trimming and replacing keep a string within itself *)

Section InfixFacts.
Import utf8 strings parser Spec Props.
Local Open Scope string_scope.

Lemma append_empty_r (s : string) : s ++ "" = s.
Proof.
  induction s as [|a t IH]; [reflexivity|].
  change (String a t ++ "") with (String a (t ++ "")).
  rewrite IH. reflexivity.
Qed.

Lemma append_assoc (x y z : string) : (x ++ y) ++ z = x ++ (y ++ z).
Proof.
  induction x as [|a t IH]; [reflexivity|].
  change ((String a t ++ y) ++ z) with (String a ((t ++ y) ++ z)).
  rewrite IH. reflexivity.
Qed.

Lemma concat_cons (x : string) (xs : list string) :
  String.concat "" (x :: xs) = x ++ String.concat "" xs.
Proof.
  destruct xs as [|y ys]; cbn [String.concat].
  - symmetry. apply append_empty_r.
  - reflexivity.
Qed.

Lemma concat_app (l1 l2 : list string) :
  String.concat "" (l1 ++ l2) = String.concat "" l1 ++ String.concat "" l2.
Proof.
  induction l1 as [|x l1 IH]; [reflexivity|].
  change ((x :: l1) ++ l2)%list with (x :: (l1 ++ l2))%list.
  rewrite !concat_cons, IH, append_assoc. reflexivity.
Qed.

Lemma substring_skipBytes (m : nat) (t : string) :
  substring 0 m t ++ skipBytes m t = t.
Proof.
  revert t. induction m as [|m IH]; intros t.
  - destruct t; reflexivity.
  - destruct t as [|a t]; [reflexivity|].
    change (substring 0 (S m) (String a t) ++ skipBytes (S m) (String a t))
      with (String a (substring 0 m t ++ skipBytes m t)).
    rewrite IH. reflexivity.
Qed.

Lemma decode_width (a : ascii) (t : string) :
  (1 <= snd (DecodeRuneInString (String a t)))%nat.
Proof.
  destruct (Z.lt_ge_cases (byte_val a) 0x80) as [Hlow|Hhigh].
  - rewrite decode_ascii by exact Hlow. reflexivity.
  - apply (decode_high a t Hhigh).
Qed.

(** The pieces that [range] decodes make up the string. *)
Lemma range_from_concat (t : string) (k : nat) :
  String.concat "" (map snd (range_from t k)) = skipBytes k t.
Proof.
  revert k. induction t as [|a t IH]; intros k.
  - destruct k; reflexivity.
  - destruct k as [|k]; cbn [range_from skipBytes]; [|apply IH].
    pose proof (decode_width a t) as Hn.
    destruct (DecodeRuneInString (String a t)) as [r n]. cbn [snd] in Hn.
    cbn [map snd]. rewrite concat_cons, IH.
    destruct n as [|n]; [lia|].
    replace (S n - 1)%nat with n by lia.
    change (substring 0 (S n) (String a t) ++ skipBytes n t)
      with (String a (substring 0 n t ++ skipBytes n t)).
    rewrite substring_skipBytes. reflexivity.
Qed.

Lemma range_concat (s : string) : String.concat "" (map snd (range s)) = s.
Proof. apply (range_from_concat s 0). Qed.

Lemma trim_left_suffix (l : list (rune * string)) :
  exists pre, l = (pre ++ trim_left l)%list.
Proof.
  induction l as [|c l [pre IH]]; [exists []; reflexivity|].
  cbn [trim_left]. destruct (IsSpace (fst c)).
  - exists (c :: pre). cbn. rewrite <- IH. reflexivity.
  - exists []. reflexivity.
Qed.

Lemma trim_right_prefix (l : list (rune * string)) :
  exists post, l = (trim_right l ++ post)%list.
Proof.
  unfold trim_right. destruct (trim_left_suffix (rev l)) as [pre Hpre].
  exists (rev pre). rewrite <- rev_app_distr, <- Hpre, rev_involutive.
  reflexivity.
Qed.

(** [TrimSpace] returns a part of its argument. *)
Lemma TrimSpace_infix (s : string) :
  exists pre post, s = pre ++ TrimSpace s ++ post.
Proof.
  unfold TrimSpace.
  destruct (trim_left_suffix (range s)) as [pre Hpre].
  destruct (trim_right_prefix (trim_left (range s))) as [post Hpost].
  exists (String.concat "" (map snd pre)), (String.concat "" (map snd post)).
  rewrite <- !concat_app, <- !map_app, <- Hpost, <- Hpre.
  symmetry. apply range_concat.
Qed.

Lemma prefix_app (sub x y : string) :
  String.prefix sub x = true -> String.prefix sub (x ++ y) = true.
Proof.
  revert x. induction sub as [|c sub IH]; intros x;
    [intros _; destruct (x ++ y); reflexivity|].
  destruct x as [|a x]; [discriminate|].
  cbn [String.prefix]. change (String a x ++ y) with (String a (x ++ y)).
  cbn [String.prefix]. destruct (ascii_dec c a); [apply IH | discriminate].
Qed.

Lemma Contains_app_l (x y sub : string) :
  Contains x sub = true -> Contains (x ++ y) sub = true.
Proof.
  induction x as [|a x IH].
  - cbn [Contains]. rewrite orb_false_r. intros Hp.
    destruct sub; [|discriminate]. destruct y; reflexivity.
  - cbn [Contains]. change (String a x ++ y) with (String a (x ++ y)).
    cbn [Contains]. intros [Hp|Hc]%orb_prop.
    + pose proof (prefix_app _ (String a x) y Hp) as Hp'.
      change (String a x ++ y) with (String a (x ++ y)) in Hp'.
      rewrite Hp'. reflexivity.
    + rewrite (IH Hc). apply orb_true_r.
Qed.

Lemma Contains_app_r (x y sub : string) :
  Contains y sub = true -> Contains (x ++ y) sub = true.
Proof.
  intros Hc. induction x as [|a x IH]; [exact Hc|].
  change (String a x ++ y) with (String a (x ++ y)).
  cbn [Contains]. rewrite IH. apply orb_true_r.
Qed.

(** What does not occur in a string does not occur in a part of it. *)
Lemma Contains_infix (pre mid post sub : string) :
  Contains (pre ++ mid ++ post) sub = false -> Contains mid sub = false.
Proof.
  intros Hc. destruct (Contains mid sub) eqn:Hm; [|reflexivity].
  rewrite (Contains_app_r pre _ sub (Contains_app_l mid post sub Hm)) in Hc.
  discriminate.
Qed.

Lemma freeOf_app (b : ascii) (x y : string) :
  freeOf b (x ++ y) = freeOf b x && freeOf b y.
Proof.
  unfold freeOf, bytes. induction x as [|a x IH]; [reflexivity|].
  change (String a x ++ y) with (String a (x ++ y)).
  cbn [list_ascii_of_string forallb]. rewrite IH. apply andb_assoc.
Qed.

Lemma freeOf_infix (b : ascii) (pre mid post : string) :
  freeOf b (pre ++ mid ++ post) = true -> freeOf b mid = true.
Proof.
  rewrite !freeOf_app. intros [_ [H _]%andb_prop]%andb_prop. exact H.
Qed.

(** Replacing keeps out a byte that is neither in the string nor in the
    replacement. *)
Lemma replace_from_free (b : ascii) (old new : string) (s : string)
      (skip : nat) :
  freeOf b new = true -> freeOf b s = true ->
  freeOf b (replace_from s old new skip) = true.
Proof.
  intros Hnew. revert skip. induction s as [|a t IH]; intros skip Hs;
    [reflexivity|].
  assert (Ha : negb (Ascii.eqb a b) = true /\ freeOf b t = true)
    by (apply andb_prop, Hs).
  destruct Ha as [Ha Ht].
  cbn [replace_from]. destruct skip as [|k]; [|apply IH, Ht].
  destruct (String.prefix old (String a t)).
  - rewrite freeOf_app, Hnew, (IH _ Ht). reflexivity.
  - change (freeOf b (String a (replace_from t old new 0)))
      with (negb (Ascii.eqb a b) && freeOf b (replace_from t old new 0)).
    rewrite Ha, (IH _ Ht). reflexivity.
Qed.

(** Replacing a byte by a string without it leaves no such byte. *)
Lemma replace_byte_free (b : ascii) (new s : string) :
  freeOf b new = true ->
  freeOf b (replace_from s (String b "") new 0) = true.
Proof.
  intros Hnew. induction s as [|a t IH]; [reflexivity|].
  cbn [replace_from String.prefix String.length Nat.sub].
  destruct (ascii_dec b a) as [->|Hne].
  - assert (Hp : String.prefix "" t = true) by (destruct t; reflexivity).
    rewrite Hp, freeOf_app, Hnew, IH. reflexivity.
  - change (freeOf b (String a (replace_from t (String b "") new 0)))
      with (negb (Ascii.eqb a b)
            && freeOf b (replace_from t (String b "") new 0)).
    rewrite IH, andb_true_r. apply negb_true_iff, Ascii.eqb_neq. congruence.
Qed.

Lemma collapseSpaces_free (b : ascii) (fuel : nat) (s : string) :
  freeOf b " " = true -> freeOf b s = true ->
  freeOf b (collapseSpaces fuel s) = true.
Proof.
  intros Hsp. revert s. induction fuel as [|fuel IH]; intros s Hs; [exact Hs|].
  cbn [collapseSpaces]. destruct (Contains s "  "); [|exact Hs].
  apply IH. unfold ReplaceAll. cbn [String.eqb].
  apply replace_from_free; assumption.
Qed.
End InfixFacts.

(** X8: the address that normalization leaves, for either document type,
    contains no line feed, no tabulation and no two spaces in a row. *)
Theorem address_normalized (d : Spec.DocumentType) (data : FieldMap)
        (address : string) :
  data !! "address"%string = Some address ->
  Spec.normalize d data !! "address"%string
  = Some (Props.cleanAddress address) /\
  Spec.freeOf Props.lineFeed (Props.cleanAddress address) = true /\
  Spec.freeOf Props.tabulation (Props.cleanAddress address) = true /\
  strings.Contains (Props.cleanAddress address) "  " = false.
Proof.
  intros Haddress. split; [rewrite normalize_address, Haddress; reflexivity|].
  unfold Props.cleanAddress.
  set (one := strings.ReplaceAll address parser.LF " ").
  set (two := strings.ReplaceAll one parser.TAB " ").
  set (three := parser.collapseSpaces (String.length two) two).
  assert (Hlf1 : Spec.freeOf Props.lineFeed one = true)
    by (apply replace_byte_free; reflexivity).
  assert (Hlf2 : Spec.freeOf Props.lineFeed two = true)
    by (apply replace_from_free; [reflexivity | exact Hlf1]).
  assert (Htab2 : Spec.freeOf Props.tabulation two = true)
    by (apply replace_byte_free; reflexivity).
  assert (Hlf3 : Spec.freeOf Props.lineFeed three = true)
    by (apply collapseSpaces_free; [reflexivity | exact Hlf2]).
  assert (Htab3 : Spec.freeOf Props.tabulation three = true)
    by (apply collapseSpaces_free; [reflexivity | exact Htab2]).
  assert (Hsp3 : strings.Contains three "  " = false)
    by (apply collapseSpaces_done; reflexivity).
  destruct (TrimSpace_infix three) as (pre & post & Hthree).
  rewrite Hthree in Hlf3, Htab3, Hsp3.
  repeat split.
  - apply (freeOf_infix _ _ _ _ Hlf3).
  - apply (freeOf_infix _ _ _ _ Htab3).
  - apply (Contains_infix _ _ _ _ Hsp3).
Qed.

(** X8, witness: an address over two lines, with a tabulation and a run
    of spaces. *)
Lemma address_normalized_witness :
  ({["address"%string := ("大阪府" ++ parser.LF ++ "大阪市" ++ parser.TAB
                            ++ "北区    1-2")%string]} : FieldMap)
    !! "address"%string
  = Some ("大阪府" ++ parser.LF ++ "大阪市" ++ parser.TAB
            ++ "北区    1-2")%string /\
  Spec.normalize Spec.drivers_license_jp
    {["address"%string := ("大阪府" ++ parser.LF ++ "大阪市" ++ parser.TAB
                             ++ "北区    1-2")%string]}
    !! "address"%string
  = Some "大阪府 大阪市 北区 1-2"%string.
Proof.
  assert (Haddress :
            ({["address"%string :=
                 ("大阪府" ++ parser.LF ++ "大阪市" ++ parser.TAB
                    ++ "北区    1-2")%string]} : FieldMap)
              !! "address"%string
            = Some ("大阪府" ++ parser.LF ++ "大阪市" ++ parser.TAB
                      ++ "北区    1-2")%string)
    by (vm_compute; reflexivity).
  split; [exact Haddress|].
  rewrite (proj1 (address_normalized Spec.drivers_license_jp _ _ Haddress)).
  vm_compute. reflexivity.
Defined.

(** ** More on normalization *)

Section NameGender.
Import utf8 strings regexp ocr parser Spec Props.
Local Open Scope string_scope.

Lemma Contains_self_prefix (s rest : string) :
  Contains (s ++ rest) s = true.
Proof.
  assert (Hp : forall x y, String.prefix x (x ++ y) = true).
  { induction x as [|a x IH]; intros y; [destruct y; reflexivity|].
    change (String a x ++ y) with (String a (x ++ y)).
    cbn [String.prefix]. destruct (ascii_dec a a); [apply IH | contradiction]. }
  destruct (s ++ rest) eqn:E.
  - cbn [Contains]. rewrite <- E, Hp. reflexivity.
  - cbn [Contains]. rewrite <- E, Hp. reflexivity.
Qed.

Lemma normalizeGender_gender (data : FieldMap) (g : string) :
  data !! "gender" = Some g ->
  IndividualNumberCardParser.normalizeGender data !! "gender"
  = Some (if String.eqb (TrimSpace g) "男性" || String.eqb (TrimSpace g) "男"
          then "男"
          else if String.eqb (TrimSpace g) "女性"
                  || String.eqb (TrimSpace g) "女"
          then "女" else g).
Proof.
  intros Hg. unfold IndividualNumberCardParser.normalizeGender. rewrite Hg.
  destruct (String.eqb (TrimSpace g) "男性" || String.eqb (TrimSpace g) "男");
    [apply lookup_insert_eq|].
  destruct (String.eqb (TrimSpace g) "女性" || String.eqb (TrimSpace g) "女");
    [apply lookup_insert_eq | exact Hg].
Qed.
End NameGender.

(** X9: the name normalization leaves a space in every name that, once
    trimmed, has four runes or more: a trimmed name that has a space is
    stored as it is, and in one that has none a space is inserted after
    its second rune (after the third when it has more than five), the
    runes before and after it being kept in their order. *)
Theorem name_gets_space (d : Spec.DocumentType) (data : FieldMap)
        (name : string) :
  data !! "name"%string = Some name ->
  (4 <= length (utf8.runes (strings.TrimSpace name)))%nat ->
  exists spaced,
    Spec.normalize d data !! "name"%string = Some spaced /\
    strings.Contains spaced " " = true /\
    (strings.Contains (strings.TrimSpace name) " " = true ->
     spaced = strings.TrimSpace name) /\
    (strings.Contains (strings.TrimSpace name) " " = false ->
     forall familyNameEnd : nat,
       familyNameEnd
       = (if (5 <? length (utf8.runes (strings.TrimSpace name)))%nat
          then 3%nat else 2%nat) ->
       spaced
       = (utf8.string_of_runes
            (firstn familyNameEnd (utf8.runes (strings.TrimSpace name)))
          ++ " "
          ++ utf8.string_of_runes
               (skipn familyNameEnd (utf8.runes (strings.TrimSpace name))))
         %string).
Proof.
  intros Hname Hlen. exists (parser.spaceName name).
  split; [rewrite normalize_name, Hname; reflexivity|].
  assert (H2 : (2 <? length (utf8.runes (strings.TrimSpace name)))%nat = true)
    by (apply Nat.ltb_lt; lia).
  assert (H4 : (4 <=? length (utf8.runes (strings.TrimSpace name)))%nat = true)
    by (apply Nat.leb_le; lia).
  unfold parser.spaceName.
  destruct (strings.Contains (strings.TrimSpace name) " ") eqn:Hc;
    cbn [negb andb].
  - split; [exact Hc|]. split; [reflexivity | discriminate].
  - rewrite H2, H4. split; [|split; [discriminate|]].
    + apply Contains_app_r. apply (Contains_self_prefix " ").
    + intros _ familyNameEnd ->. reflexivity.
Qed.

(** X9, witness: a name of four runes gets its space after the second
    one. *)
Lemma name_gets_space_witness :
  ({["name"%string := "田中太郎"%string]} : FieldMap) !! "name"%string
  = Some "田中太郎"%string /\
  (4 <= length (utf8.runes (strings.TrimSpace "田中太郎")))%nat /\
  Spec.normalize Spec.individual_number_card_jp
    {["name"%string := "田中太郎"%string]} !! "name"%string
  = Some "田中 太郎"%string.
Proof.
  assert (Hname : ({["name"%string := "田中太郎"%string]} : FieldMap)
                    !! "name"%string = Some "田中太郎"%string)
    by (vm_compute; reflexivity).
  assert (Hlen : (4 <= length (utf8.runes (strings.TrimSpace "田中太郎")))%nat)
    by (vm_compute; lia).
  assert (Hnone : strings.Contains (strings.TrimSpace "田中太郎") " " = false)
    by (vm_compute; reflexivity).
  split; [exact Hname|]. split; [exact Hlen|].
  destruct (name_gets_space Spec.individual_number_card_jp _ _ Hname Hlen)
    as (spaced & Hstored & _ & _ & Hinserted).
  rewrite Hstored, (Hinserted Hnone 2%nat eq_refl). reflexivity.
Defined.

(** X10: after the normalization of the individual-number card, the
    gender passes the gender check of the validation exactly when the
    gender extracted, once trimmed, is one of the four tokens 男性, 男,
    女性 and 女. *)
Theorem gender_normalized (data : FieldMap) (g : string) :
  data !! "gender"%string = Some g ->
  Spec.genderOk Spec.individual_number_card_jp
    (Spec.normalize Spec.individual_number_card_jp data)
  <-> Props.genderToken (strings.TrimSpace g) = true.
Proof.
  intros Hg. cbn [Spec.genderOk Spec.normalize].
  unfold parser.IndividualNumberCardParser.postProcessExtractedData.
  assert (Hinner :
            parser.normalizeName
              (parser.normalizeAddress
                 (parser.IndividualNumberCardParser.normalizeIndividualNumber
                    data)) !! "gender"%string = Some g).
  { rewrite normalizeName_other, normalizeAddress_other,
      normalizeIndividualNumber_other by discriminate. exact Hg. }
  rewrite (normalizeGender_gender _ g Hinner).
  unfold Props.genderToken.
  destruct (String.eqb (strings.TrimSpace g) "男性") eqn:E1;
    destruct (String.eqb (strings.TrimSpace g) "男") eqn:E2;
    cbn [orb]; try (split; [reflexivity|]; intros _ c [= <-]; auto).
  destruct (String.eqb (strings.TrimSpace g) "女性") eqn:E3;
    destruct (String.eqb (strings.TrimSpace g) "女") eqn:E4;
    cbn [orb]; try (split; [reflexivity|]; intros _ c [= <-]; auto).
  split; [|discriminate]. intros Hok. exfalso.
  destruct (Hok g eq_refl) as [->| ->].
  - vm_compute in E2. discriminate.
  - vm_compute in E4. discriminate.
Qed.

(** X10, witness: the written-out gender 男性. *)
Lemma gender_normalized_witness :
  Spec.longGenderData !! "gender"%string = Some "男性"%string /\
  Props.genderToken (strings.TrimSpace "男性") = true /\
  Spec.genderOk Spec.individual_number_card_jp
    (Spec.normalize Spec.individual_number_card_jp Spec.longGenderData).
Proof.
  assert (Hg : Spec.longGenderData !! "gender"%string = Some "男性"%string)
    by (vm_compute; reflexivity).
  assert (Htoken : Props.genderToken (strings.TrimSpace "男性") = true)
    by (vm_compute; reflexivity).
  split; [exact Hg|]. split; [exact Htoken|].
  exact (proj2 (gender_normalized _ _ Hg) Htoken).
Defined.

(** X11: the normalization of the individual-number card never changes
    the verdict of the validation on the numeric ID: the normalized value
    has twelve bytes once spaces and hyphens are stripped exactly when
    the value extracted has. *)
Theorem card_id_verdict_kept (data : FieldMap) (v : string) :
  data !! "individual_number"%string = Some v ->
  Spec.normalize Spec.individual_number_card_jp data
    !! "individual_number"%string = Some (Spec.regroup v) /\
  (String.length (Spec.stripSpacesHyphens (Spec.regroup v)) = 12%nat <->
   String.length (Spec.stripSpacesHyphens v) = 12%nat).
Proof.
  intros Hv. split.
  - cbn [Spec.normalize]. rewrite card_normalize_id, Hv. reflexivity.
  - unfold Spec.regroup.
    destruct (Nat.eqb_spec (String.length (Spec.stripSpacesHyphens v)) 12)
      as [Hlen|Hne]; [|tauto].
    destruct (stripSpacesHyphens_free v) as [Hsp Hhy].
    rewrite (group444_strip _ Hlen Hsp Hhy). tauto.
Qed.

(** X11, witness: an individual number written with spaces. *)
Lemma card_id_verdict_kept_witness :
  ({["individual_number"%string := "1234 5678 9012"%string]} : FieldMap)
    !! "individual_number"%string = Some "1234 5678 9012"%string /\
  Spec.normalize Spec.individual_number_card_jp
    {["individual_number"%string := "1234 5678 9012"%string]}
    !! "individual_number"%string = Some (Spec.regroup "1234 5678 9012").
Proof.
  assert (Hv : ({["individual_number"%string := "1234 5678 9012"%string]}
                : FieldMap) !! "individual_number"%string
               = Some "1234 5678 9012"%string) by (vm_compute; reflexivity).
  split; [exact Hv|].
  exact (proj1 (card_id_verdict_kept _ _ Hv)).
Defined.

(** ** More on the validators and the classifier *)

Section ValidatorFacts.
Import utf8 strings regexp ocr parser Spec Props.
Local Open Scope string_scope.

Lemma existsb_weaken {A : Type} (P Q : A -> bool) (l : list A) :
  (forall a, Q a = true -> P a = true) ->
  existsb P l = false -> existsb Q l = false.
Proof.
  intros HQP. induction l as [|a l IH]; [reflexivity|].
  cbn [existsb]. intros [Ha Hl]%orb_false_elim.
  rewrite (IH Hl), orb_false_r.
  destruct (Q a) eqn:HQ; [|reflexivity].
  rewrite (HQP a HQ) in Ha. discriminate.
Qed.

(** A string without any rune of the set that [isValidName] forbids has
    no ASCII digit. *)
Lemma forbidden_runes_digits (text : string) :
  ContainsAny text "0123456789年月日都道府県市区町村" = false ->
  hasDigit text = false.
Proof.
  intros Hany. rewrite <- ContainsAny_digits.
  revert Hany. unfold ContainsAny. apply existsb_weaken.
  intros c. rewrite digit_runes.
  replace (runes "0123456789年月日都道府県市区町村")
    with ([48; 49; 50; 51; 52; 53; 54; 55; 56; 57; 24180; 26376; 26085;
           37117; 36947; 24220; 30476; 24066; 21306; 30010; 26449]%Z)
    by (vm_compute; reflexivity).
  cbn [existsb]. intros Hc.
  assert (Hrange : (48 <= c <= 57)%Z) by lia.
  rewrite !orb_true_iff, !Z.eqb_eq. lia.
Qed.

Lemma inline_name_shape (text : string) :
  Inline.isValidName text = true ->
  (2 <= String.length text <= 20)%nat /\ hasDigit text = false.
Proof.
  unfold Inline.isValidName.
  destruct (Nat.ltb_spec (String.length text) 2); [discriminate|].
  destruct (Nat.ltb_spec 20 (String.length text)); [discriminate|].
  cbn [orb]. intros Hany%negb_true_iff.
  split; [lia | apply forbidden_runes_digits, Hany].
Qed.

Lemma shared_name_inline (text : string) :
  Shared.isValidName text = true -> Inline.isValidName text = true.
Proof.
  unfold Shared.isValidName, Inline.isValidName.
  destruct (Contains text "氏名" || Contains text "番号"
            || Contains text "免許"); [discriminate | tauto].
Qed.

Lemma inline_extractName_valid (regions : list RegionInfo) (name : string) :
  Inline.extractName regions = Some name -> Inline.isValidName name = true.
Proof.
  induction regions as [|region rest IH]; [discriminate|].
  cbn [Inline.extractName].
  destruct (Inline.nameCandidate region
            && Inline.isValidName (TrimSpace (Text region))) eqn:E;
    [|exact IH].
  intros [= <-]. apply andb_prop in E as [_ E]. exact E.
Qed.

Lemma shared_fallbackName_valid (regions : list RegionInfo) (name : string) :
  Shared.fallbackName regions = Some name -> Shared.isValidName name = true.
Proof.
  induction regions as [|region rest IH]; [discriminate|].
  cbn [Shared.fallbackName].
  destruct (Inline.nameCandidate region
            && Shared.isValidName (TrimSpace (Text region))) eqn:E;
    [|exact IH].
  intros [= <-]. apply andb_prop in E as [_ E]. exact E.
Qed.

Lemma shared_labelledName_valid (regions : list RegionInfo) (name : string) :
  Shared.labelledName regions = Some name -> Shared.isValidName name = true.
Proof.
  induction regions as [|region rest IH]; [discriminate|].
  cbn [Shared.labelledName].
  destruct (Contains (Text region) "氏名" || Contains (Text region) "氏 名");
    [|exact IH].
  destruct rest as [|following rest'].
  - destruct (Shared.isValidName
                (TrimSpace (ReplaceAll (Text region) "氏名" ""))) eqn:E;
      [intros [= <-]; exact E | exact IH].
  - destruct (Shared.isValidName
                (TrimSpace
                   (ReplaceAll (TrimSpace (Text following)) "氏名" "")))
      eqn:E1; [intros [= <-]; exact E1|].
    destruct (Shared.isValidName
                (TrimSpace (ReplaceAll (Text region) "氏名" ""))) eqn:E2;
      [intros [= <-]; exact E2 | exact IH].
Qed.

(** What a name extractor returns is empty or a valid name. *)
Lemma inline_extracted_name (regions : list RegionInfo) (name : string) :
  nonEmpty (Inline.extractNameFromRegions regions) = Some name ->
  Inline.isValidName name = true.
Proof.
  unfold nonEmpty, Inline.extractNameFromRegions.
  destruct (Inline.extractName regions) as [n|] eqn:E; cbn [from_option id].
  - destruct (String.eqb n ""); [discriminate|]. intros [= <-].
    apply (inline_extractName_valid regions), E.
  - discriminate.
Qed.

Lemma shared_extracted_name (regions : list RegionInfo) (name : string) :
  nonEmpty (Shared.extractNameFromRegions regions) = Some name ->
  Shared.isValidName name = true.
Proof.
  unfold nonEmpty, Shared.extractNameFromRegions.
  destruct (Shared.labelledName regions) as [n|] eqn:E.
  - destruct (String.eqb n ""); [discriminate|]. intros [= <-].
    apply (shared_labelledName_valid regions), E.
  - destruct (Shared.fallbackName regions) as [n|] eqn:E'; cbn [from_option id].
    + destruct (String.eqb n ""); [discriminate|]. intros [= <-].
      apply (shared_fallbackName_valid regions), E'.
    + discriminate.
Qed.
End ValidatorFacts.

(** X12: the name that the region-based stage stores, with either version
    of the helpers, has passed the [isValidName] of that version, whether
    it comes from a fragment categorized [name] or from
    [extractNameFromRegions]; hence it has 2 to 20 bytes and no ASCII
    digit. *)
Theorem region_name_valid (d : Spec.DocumentType)
        (regions : list ocr.RegionInfo) (name : string) :
  (Props.regionStage d parser.Inline.helpers regions !! "name"%string
   = Some name ->
   parser.Inline.isValidName name = true) /\
  (Props.regionStage d parser.Shared.helpers regions !! "name"%string
   = Some name ->
   parser.Shared.isValidName name = true /\
   parser.Inline.isValidName name = true) /\
  (parser.Inline.isValidName name = true ->
   (2 <= String.length name <= 20)%nat /\ Spec.hasDigit name = false).
Proof.
  assert (Hshared :
            Props.regionStage d parser.Shared.helpers regions !! "name"%string
            = Some name -> parser.Shared.isValidName name = true).
  { rewrite region_stage_name.
    cbn [parser.extractNameFromRegions parser.isValidName
         parser.Shared.helpers].
    destruct (Props.nonEmpty (parser.Shared.extractNameFromRegions regions))
      as [n|] eqn:E.
    - intros [= <-]. apply (shared_extracted_name regions), E.
    - intros (region & _ & HP & <-)%lastMatching_holds.
      apply andb_prop in HP as [_ HP]. exact HP. }
  split; [|split].
  - rewrite region_stage_name.
    cbn [parser.extractNameFromRegions parser.isValidName
         parser.Inline.helpers].
    destruct (Props.nonEmpty (parser.Inline.extractNameFromRegions regions))
      as [n|] eqn:E.
    + intros [= <-]. apply (inline_extracted_name regions), E.
    + intros (region & _ & HP & <-)%lastMatching_holds.
      apply andb_prop in HP as [_ HP]. exact HP.
  - intros Hname. specialize (Hshared Hname).
    split; [exact Hshared | apply shared_name_inline, Hshared].
  - apply inline_name_shape.
Qed.

(** X12, witness: a fragment with a name label followed by the name. *)
Lemma region_name_valid_witness :
  Props.regionStage Spec.drivers_license_jp parser.Shared.helpers
    [Spec.fragment "氏名" "other"; Spec.fragment "田中太郎" "name"]
    !! "name"%string = Some "田中太郎"%string /\
  parser.Shared.isValidName "田中太郎" = true /\
  parser.Inline.isValidName "田中太郎" = true.
Proof.
  assert (Hname :
            Props.regionStage Spec.drivers_license_jp parser.Shared.helpers
              [Spec.fragment "氏名" "other"; Spec.fragment "田中太郎" "name"]
              !! "name"%string = Some "田中太郎"%string)
    by (vm_compute; reflexivity).
  split; [exact Hname|].
  exact (proj1 (proj2 (region_name_valid Spec.drivers_license_jp _ _)) Hname).
Defined.

(** ** The table of the recognizer *)

Section TableFacts.
Import utf8 strings splitting regexp ocr parser engine Spec Props.
Local Open Scope string_scope.

(** Cutting a string adds no byte to its pieces. *)
Lemma split_from_free (c : ascii) (sep s : string) :
  forall (skip : nat),
    freeOf c s = true ->
    freeOf c (fst (split_from s sep skip)) = true /\
    Forall (fun piece => freeOf c piece = true) (snd (split_from s sep skip)).
Proof.
  induction s as [|a t IH]; intros skip.
  - intros _. split; [reflexivity | constructor].
  - unfold freeOf at 1. cbn [bytes list_ascii_of_string forallb].
    intros [Ha Ht]%andb_prop. cbn [split_from].
    destruct skip as [|k]; [|exact (IH k Ht)].
    destruct (String.prefix sep (String a t)).
    + destruct (IH (String.length sep - 1)%nat Ht) as [H1 H2].
      destruct (split_from t sep (String.length sep - 1)) as [piece pieces].
      cbn [fst snd] in *. split; [reflexivity | constructor; assumption].
    + destruct (IH 0%nat Ht) as [H1 H2].
      destruct (split_from t sep 0) as [piece pieces].
      cbn [fst snd] in *. split; [|exact H2].
      unfold freeOf. cbn [bytes list_ascii_of_string forallb].
      rewrite Ha. exact H1.
Qed.

(** The pieces between the occurrences of a byte are free of it. *)
Lemma split_from_byte (b : ascii) (s : string) :
  freeOf b (fst (split_from s (String b "") 0)) = true /\
  Forall (fun piece => freeOf b piece = true)
         (snd (split_from s (String b "") 0)).
Proof.
  induction s as [|a t [IH1 IH2]]; [split; [reflexivity | constructor]|].
  cbn [split_from String.prefix String.length Nat.sub].
  destruct (ascii_dec b a) as [->|Hne].
  - assert (Hp : String.prefix "" t = true) by (destruct t; reflexivity).
    rewrite Hp.
    destruct (split_from t (String a "") 0) as [piece pieces].
    cbn [fst snd] in *. split; [reflexivity | constructor; assumption].
  - destruct (split_from t (String b "") 0) as [piece pieces].
    cbn [fst snd] in *. split; [|exact IH2].
    unfold freeOf, bytes in IH1 |- *. cbn [list_ascii_of_string forallb].
    rewrite IH1, andb_true_r.
    destruct (Ascii.eqb_spec a b) as [->|_]; [contradiction | reflexivity].
Qed.

Lemma Split_free (c : ascii) (b : ascii) (s : string) :
  freeOf c s = true ->
  Forall (fun piece => freeOf c piece = true) (Split s (String b "")).
Proof.
  intros Hs. unfold Split. cbn [String.eqb].
  destruct (split_from_free c (String b "") s 0 Hs) as [H1 H2].
  destruct (split_from s (String b "") 0) as [piece pieces].
  constructor; assumption.
Qed.

Lemma Split_byte (b : ascii) (s : string) :
  Forall (fun piece => freeOf b piece = true) (Split s (String b "")).
Proof.
  unfold Split. cbn [String.eqb].
  destruct (split_from_byte b s) as [H1 H2].
  destruct (split_from s (String b "") 0) as [piece pieces].
  constructor; assumption.
Qed.

(** There is one piece more than there are occurrences of the byte. *)
Lemma split_from_count (b : ascii) (s : string) :
  length (snd (split_from s (String b "") 0))
  = count_occ ascii_dec (bytes s) b.
Proof.
  induction s as [|a t IH]; [reflexivity|].
  cbn [split_from String.prefix String.length Nat.sub bytes
       list_ascii_of_string count_occ].
  fold (bytes t).
  destruct (ascii_dec b a) as [->|Hne].
  - assert (Hp : String.prefix "" t = true) by (destruct t; reflexivity).
    rewrite Hp. destruct (ascii_dec a a) as [_|Hn]; [|contradiction].
    destruct (split_from t (String a "") 0) as [piece pieces].
    cbn [snd length] in *. rewrite IH. reflexivity.
  - destruct (ascii_dec a b) as [->|_]; [contradiction|].
    destruct (split_from t (String b "") 0) as [piece pieces].
    exact IH.
Qed.

Lemma Split_length (b : ascii) (s : string) :
  length (Split s (String b "")) = S (count_occ ascii_dec (bytes s) b).
Proof.
  unfold Split. cbn [String.eqb]. rewrite <- split_from_count.
  destruct (split_from s (String b "") 0) as [piece pieces]. reflexivity.
Qed.

Lemma TrimSpace_free (c : ascii) (s : string) :
  freeOf c s = true -> freeOf c (TrimSpace s) = true.
Proof.
  intros Hs. destruct (TrimSpace_infix s) as (pre & post & Hinfix).
  rewrite Hinfix in Hs. apply (freeOf_infix c pre _ post Hs).
Qed.

Lemma nth_Forall (P : string -> Prop) (l : list string) (n : nat) :
  Forall P l -> (n < length l)%nat -> P (nth n l "").
Proof.
  intros Hl Hn. rewrite Stdlib.Lists.List.Forall_forall in Hl.
  apply Hl, nth_In, Hn.
Qed.

(** The loop keeps the regions it has and adds well-formed ones, at most
    one for a line. *)
Lemma tsvLoop_invariant (lines : list string) :
  forall (i : nat) (regions : list RegionInfo),
    Forall (fun line => freeOf lineFeed line = true) lines ->
    Forall wellFormed regions ->
    Forall wellFormed (tsvLoop i lines regions).
Proof.
  induction lines as [|line rest IH]; intros i regions Hlines Hregions;
    [exact Hregions|].
  inversion Hlines as [|? ? Hline Hrest]; subst.
  cbn [tsvLoop].
  destruct ((i =? 0)%nat || String.eqb (TrimSpace line) "");
    [apply IH; assumption|].
  destruct (Nat.ltb_spec (length (Split line TAB)) 12) as [|Hlen];
    [apply IH; assumption|].
  destruct (String.eqb_spec (TrimSpace (nth 11 (Split line TAB) "")) "")
    as [|Htext]; [apply IH; assumption|].
  apply IH; [assumption|].
  apply Forall_app. split; [assumption|].
  constructor; [|constructor].
  unfold wellFormed, categorized, regionOf. cbn [Text Category X Y W H].
  repeat split; [exact Htext | |].
  - apply TrimSpace_free.
    apply (nth_Forall (fun piece => freeOf lineFeed piece = true)); [|lia].
    apply (Split_free lineFeed tabulation line Hline).
  - apply TrimSpace_free.
    apply (nth_Forall (fun piece => freeOf tabulation piece = true)); [|lia].
    apply (Split_byte tabulation line).
Qed.

Lemma tsvLoop_length (lines : list string) :
  forall (i : nat) (regions : list RegionInfo),
    (length (tsvLoop i lines regions)
     <= length regions + (length lines - (if (i =? 0)%nat then 1 else 0)))%nat.
Proof.
  induction lines as [|line rest IH]; intros i regions; [cbn; lia|].
  cbn [tsvLoop length].
  destruct (Nat.eqb_spec i 0) as [->|Hi]; cbn [orb].
  - specialize (IH 1%nat regions). cbn [Nat.eqb] in IH. lia.
  - assert (Hnext : forall regions',
               (length (tsvLoop (S i) rest regions')
                <= length regions' + length rest)%nat).
    { intros regions'. specialize (IH (S i) regions').
      cbn [Nat.eqb] in IH. lia. }
    destruct (String.eqb (TrimSpace line) "");
      [specialize (Hnext regions); lia|].
    destruct (length (Split line TAB) <? 12)%nat;
      [specialize (Hnext regions); lia|].
    destruct (String.eqb (TrimSpace (nth 11 (Split line TAB) "")) "");
      [specialize (Hnext regions); lia|].
    specialize (Hnext (regions ++ [regionOf
                         (TrimSpace (nth 11 (Split line TAB) ""))])%list).
    rewrite length_app in Hnext. cbn [length] in Hnext. lia.
Qed.

Lemma parseTesseractTSV_wellFormed (data : string) :
  Forall wellFormed (parseTesseractTSV data).
Proof.
  unfold parseTesseractTSV. apply tsvLoop_invariant; [|constructor].
  apply (Split_byte lineFeed data).
Qed.
End TableFacts.

(** X13: every region that [parseTesseractTSV] reads from the table has
    a text that is not empty and has neither a line feed nor a
    tabulation, the category that [categorizeText] gives to that text,
    and coordinates left at zero; and there are at most as many regions
    as the table has line feeds, the first line never giving one. *)
Theorem table_regions (data : string) :
  Forall engine.wellFormed (engine.parseTesseractTSV data) /\
  (length (engine.parseTesseractTSV data)
   <= count_occ ascii_dec (Spec.bytes data) Props.lineFeed)%nat.
Proof.
  split; [apply parseTesseractTSV_wellFormed|].
  unfold engine.parseTesseractTSV.
  pose proof (tsvLoop_length (splitting.Split data parser.LF) 0 []) as Hlen.
  cbn [Nat.eqb length Nat.add] in Hlen.
  change parser.LF with (String Props.lineFeed "") in *.
  rewrite Split_length in Hlen. lia.
Qed.

(** ** The classifier and the validators *)

Section ClassifierFacts.
Import utf8 strings regexp ocr parser engine Spec Props.
Local Open Scope string_scope.

(** A string whose first byte does not occur is not contained. *)
Lemma Contains_first_byte (c : ascii) (rest s : string) :
  freeOf c s = true -> Contains s (String c rest) = false.
Proof.
  unfold freeOf. induction s as [|a t IH]; [reflexivity|].
  cbn [bytes list_ascii_of_string forallb]. intros [Ha Ht]%andb_prop.
  cbn [Contains String.prefix].
  destruct (ascii_dec c a) as [->|_].
  - rewrite Ascii.eqb_refl in Ha. discriminate.
  - exact (IH Ht).
Qed.

Lemma without_length (b : ascii) (s : string) :
  (String.length (without b s) <= String.length s)%nat.
Proof.
  induction s as [|a t IH]; [reflexivity|].
  cbn [without]. destruct (Ascii.eqb a b); cbn [String.length]; lia.
Qed.

(** What is left of [s] without the byte [b] being digits, [s] has no
    other byte than [b] and digits. *)
Lemma digits_without_free (b c : ascii) (s : string) :
  digitsOnly (without b s) = true ->
  isDigitByte c = false -> c <> b ->
  freeOf c s = true.
Proof.
  intros Hd Hc Hcb. unfold freeOf, bytes.
  induction s as [|a t IH]; [reflexivity|].
  cbn [list_ascii_of_string forallb]. cbn [without] in Hd.
  destruct (Ascii.eqb_spec a b) as [->|Hab].
  - rewrite (IH Hd), andb_true_r.
    destruct (Ascii.eqb_spec b c) as [->|_]; [contradiction | reflexivity].
  - unfold digitsOnly in Hd. cbn [bytes list_ascii_of_string forallb] in Hd.
    apply andb_prop in Hd as [Ha Hd]. rewrite (IH Hd), andb_true_r.
    destruct (Ascii.eqb_spec a c) as [->|_]; [congruence | reflexivity].
Qed.

Lemma digits_without_digit (b : ascii) (s : string) :
  digitsOnly (without b s) = true ->
  (0 < String.length (without b s))%nat ->
  hasDigit s = true.
Proof.
  unfold hasDigit, digitsOnly.
  induction s as [|a t IH]; [cbn; lia|].
  cbn [without bytes list_ascii_of_string existsb].
  destruct (Ascii.eqb a b).
  - intros Hd Hlen. fold (bytes t). rewrite (IH Hd Hlen). apply orb_true_r.
  - cbn [bytes list_ascii_of_string forallb].
    intros [Ha _]%andb_prop _. rewrite Ha. reflexivity.
Qed.

(** A text that passes the validator of a numeric ID is twelve digits,
    spaces apart. *)
Lemma idValid_digits (d : DocumentType) (text : string) :
  idValid d text = true -> twelveDigitsIn (without " " text) = true.
Proof.
  destruct d; cbn [idValid].
  - rewrite isValidLicenseNumber_spec. tauto.
  - rewrite isValidIndividualNumber_spec. intros Htwelve.
    rewrite without_absent; [exact Htwelve|].
    apply andb_prop in Htwelve as [_ Hd].
    apply (digitsOnly_free " " text); [reflexivity | exact Hd].
Qed.

(** The classifier puts a valid numeric ID in the category [number]. *)
Lemma idValid_number (d : DocumentType) (text : string) :
  idValid d text = true -> categorizeText text = "number".
Proof.
  intros [Hlen Hd]%idValid_digits%andb_prop. apply Nat.eqb_eq in Hlen.
  pose proof (without_length " " text) as Hle.
  assert (Hfree : forall c, isDigitByte c = false -> c <> " "%char ->
                            freeOf c text = true)
    by (intros c; apply digits_without_free, Hd).
  assert (Hdigit : hasDigit text = true)
    by (apply (digits_without_digit " "); [exact Hd | lia]).
  unfold categorizeText.
  assert (Hmarker : forall c rest,
             isDigitByte c = false -> c <> " "%char ->
             Contains text (String c rest) = false)
    by (intros c rest Hc Hsp; apply Contains_first_byte, Hfree; assumption).
  rewrite !(Hmarker "229"%char) by (reflexivity || discriminate).
  rewrite !(Hmarker "233"%char) by (reflexivity || discriminate).
  rewrite !(Hmarker "231"%char) by (reflexivity || discriminate).
  cbn [andb orb].
  rewrite ContainsAny_digits, Hdigit.
  destruct (Nat.leb_spec (String.length text) 10) as [|_]; [lia|].
  rewrite andb_false_r. cbn [andb negb].
  destruct (Nat.leb_spec 4 (String.length text)) as [_|]; [reflexivity | lia].
Qed.

(** The classifier gives the category [date] to the valid dates only. *)
Lemma isValidDate_date (text : string) :
  String.eqb (categorizeText text) "date" = isValidDate text.
Proof.
  unfold categorizeText, isValidDate.
  repeat match goal with
         | |- context [if ?c then _ else _] => destruct c
         end; reflexivity.
Qed.

Lemma lastMatching_ext (P Q : RegionInfo -> bool)
      (regions : list RegionInfo) :
  (forall region, In region regions -> P region = Q region) ->
  lastMatching P regions = lastMatching Q regions.
Proof.
  intros Hext. unfold lastMatching.
  rewrite (filter_ext_in P Q regions Hext). reflexivity.
Qed.

Lemma numberFragment_idText (d : DocumentType) (region : RegionInfo) :
  categorized region -> numberFragment d region = idText d region.
Proof.
  unfold categorized, numberFragment, idText. intros ->.
  destruct (idValid d (Text region)) eqn:Hv; [|apply andb_false_r].
  rewrite (idValid_number d _ Hv). reflexivity.
Qed.

Lemma birthFragment_birthText (region : RegionInfo) :
  categorized region -> birthFragment region = birthText region.
Proof.
  unfold categorized, birthFragment, dateFragment, birthText. intros ->.
  rewrite isValidDate_date. rewrite andb_diag. reflexivity.
Qed.

Lemma region_stage_birth (d : DocumentType) (h : Helpers)
      (regions : list RegionInfo) :
  regionStage d h regions !! "birth_date"
  = lastMatching birthFragment regions.
Proof.
  destruct d; cbn [regionStage].
  - rewrite license_extract_other by discriminate.
    rewrite (fold_last_wins _ _ _ (license_step_birth h)).
    destruct (lastMatching _ _); reflexivity.
  - rewrite card_extract_other by discriminate.
    rewrite (fold_last_wins _ _ _ (card_step_birth h)).
    destruct (lastMatching _ _); reflexivity.
Qed.
End ClassifierFacts.

(** X14: when the category of every fragment is the one that
    [categorizeText] gives to its text, as it is for the fragments read
    from the recognizer's table, the category tests of the region-based
    stage decide nothing for the numeric ID and the birth date: the
    numeric ID is the text of the last fragment that passes the ID
    validator, and the birth date the text of the last fragment that is
    a valid date with the birth marker. *)
Theorem categorized_regions_fields (d : Spec.DocumentType)
        (h : parser.Helpers) (regions : list ocr.RegionInfo) :
  Forall engine.categorized regions ->
  Props.regionStage d h regions !! Spec.idField d
  = Spec.lastMatching (engine.idText d) regions /\
  Props.regionStage d h regions !! "birth_date"%string
  = Spec.lastMatching engine.birthText regions.
Proof.
  intros Hcat. rewrite Stdlib.Lists.List.Forall_forall in Hcat. split.
  - rewrite region_stage_number. apply lastMatching_ext.
    intros region Hin. apply numberFragment_idText, Hcat, Hin.
  - rewrite region_stage_birth. apply lastMatching_ext.
    intros region Hin. apply birthFragment_birthText, Hcat, Hin.
Qed.

(** X14, witness: the regions read from a table of a header and two
    rows. *)
Lemma categorized_regions_fields_witness :
  Forall engine.categorized (engine.parseTesseractTSV engine.sampleTable) /\
  Props.regionStage Spec.individual_number_card_jp parser.Inline.helpers
    (engine.parseTesseractTSV engine.sampleTable) !! "individual_number"%string
  = Spec.lastMatching (engine.idText Spec.individual_number_card_jp)
      (engine.parseTesseractTSV engine.sampleTable).
Proof.
  assert (Hcat : Forall engine.categorized
                   (engine.parseTesseractTSV engine.sampleTable)).
  { assert (Hregions : engine.parseTesseractTSV engine.sampleTable
                       = [engine.regionOf "123456789012"])
      by (vm_compute; reflexivity).
    rewrite Hregions. constructor; [|constructor]. reflexivity. }
  split; [exact Hcat|].
  exact (proj1 (categorized_regions_fields Spec.individual_number_card_jp
                  parser.Inline.helpers _ Hcat)).
Defined.

(** ** The request layer *)

Section RequestFacts.
Import utf8 strings splitting regexp imageprocessor ocr parser Spec.
Import decoder factory request.
Local Open Scope string_scope.

(** What starts with a byte that the head of a string lacks begins in
    the rest of the string, if at all. *)
Lemma Contains_past_prefix (c : ascii) (rest pre s : string) :
  freeOf c pre = true ->
  Contains (pre ++ s) (String c rest) = Contains s (String c rest).
Proof.
  unfold freeOf, bytes. induction pre as [|a pre IH]; [reflexivity|].
  cbn [list_ascii_of_string forallb]. intros [Ha Hpre]%andb_prop.
  change (String a pre ++ s) with (String a (pre ++ s)).
  cbn [Contains String.prefix].
  destruct (ascii_dec c a) as [->|_].
  - rewrite Ascii.eqb_refl in Ha. discriminate.
  - exact (IH Hpre).
Qed.

Lemma prefix_inv (sep s : string) :
  String.prefix sep s = true -> exists rest, s = sep ++ rest.
Proof.
  revert s. induction sep as [|c sep IH]; intros s Hp.
  - exists s. reflexivity.
  - destruct s as [|a s]; [discriminate|].
    cbn [String.prefix] in Hp.
    destruct (ascii_dec c a) as [->|_]; [|discriminate].
    destruct (IH s Hp) as [rest ->]. exists rest. reflexivity.
Qed.

(** A separator with a byte that a string lacks does not occur in it. *)
Lemma prefix_free (c : ascii) (sep s : string) :
  freeOf c s = true -> freeOf c sep = false -> String.prefix sep s = false.
Proof.
  intros Hs Hsep. destruct (String.prefix sep s) eqn:Hp; [|reflexivity].
  destruct (prefix_inv sep s Hp) as [rest ->].
  rewrite freeOf_app, Hsep in Hs. discriminate.
Qed.

Lemma freeOf_tail (c a : ascii) (s : string) :
  freeOf c (String a s) = true -> freeOf c s = true.
Proof.
  unfold freeOf, bytes. cbn [list_ascii_of_string forallb].
  intros [_ Hs]%andb_prop. exact Hs.
Qed.

Lemma Contains_free (c : ascii) (sep s : string) :
  freeOf c s = true -> freeOf c sep = false -> Contains s sep = false.
Proof.
  intros Hs Hsep. induction s as [|a s IH]; cbn [Contains].
  - rewrite (prefix_free c sep "" Hs Hsep). reflexivity.
  - rewrite (prefix_free c sep _ Hs Hsep).
    exact (IH (freeOf_tail c a s Hs)).
Qed.

Lemma split_from_absent (c : ascii) (sep s : string) :
  freeOf c s = true -> freeOf c sep = false ->
  split_from s sep 0 = (s, []).
Proof.
  intros Hs Hsep. induction s as [|a s IH]; [reflexivity|].
  cbn [split_from]. rewrite (prefix_free c sep _ Hs Hsep).
  rewrite (IH (freeOf_tail c a s Hs)). reflexivity.
Qed.

Lemma split_from_skip (sep x y : string) :
  split_from (x ++ y) sep (String.length x) = split_from y sep 0.
Proof.
  induction x as [|a x IH]; [destruct y; reflexivity|].
  change (String a x ++ y) with (String a (x ++ y)).
  cbn [split_from String.length]. exact IH.
Qed.

(** Cutting at the first occurrence of a byte. *)
Lemma split_from_first (b : ascii) (x y : string) :
  freeOf b x = true ->
  split_from (x ++ String b y) (String b "") 0
  = (x, fst (split_from y (String b "") 0)
          :: snd (split_from y (String b "") 0)).
Proof.
  unfold freeOf, bytes. induction x as [|a x IH].
  - intros _. change ("" ++ String b y) with (String b y).
    cbn [split_from String.prefix String.length Nat.sub].
    destruct (ascii_dec b b) as [_|Hn]; [|contradiction].
    assert (Hp : String.prefix "" y = true) by (destruct y; reflexivity).
    rewrite Hp. destruct (split_from y (String b "") 0). reflexivity.
  - cbn [list_ascii_of_string forallb]. intros [Ha Hx]%andb_prop.
    change (String a x ++ String b y) with (String a (x ++ String b y)).
    cbn [split_from String.prefix].
    destruct (ascii_dec b a) as [->|_].
    + rewrite Ascii.eqb_refl in Ha. discriminate.
    + rewrite (IH Hx). reflexivity.
Qed.

(** The marker of a data URL does not begin before its place. *)
Lemma no_early_marker (a : ascii) (pre payload : string) :
  freeOf "," (String a pre) = true ->
  String.prefix "base64," (String a pre ++ "base64," ++ payload) = false.
Proof.
  intros Hfree.
  destruct (String.prefix "base64," (String a pre ++ "base64," ++ payload))
    eqn:Hp; [|reflexivity].
  exfalso. apply prefix_inv in Hp as [rest Hrest].
  assert (Hget : String.get 6 (String a pre ++ "base64," ++ payload)
                 = Some ","%char) by (rewrite Hrest; reflexivity).
  clear Hrest.
  assert (Hno : forall n s, freeOf "," s = true ->
                            String.get n s <> Some ","%char).
  { intros n s. revert n. unfold freeOf, bytes.
    induction s as [|b s IH]; intros n; [destruct n; discriminate|].
    cbn [list_ascii_of_string forallb]. intros [Hb Hs]%andb_prop.
    destruct n as [|n]; cbn [String.get].
    - intros [= ->]. discriminate.
    - apply IH, Hs. }
  do 6 (destruct pre as [|? pre];
        [vm_compute in Hget; discriminate|]).
  apply (Hno 6%nat _ Hfree). exact Hget.
Qed.

Lemma split_from_marker (pre payload : string) :
  freeOf "," pre = true -> freeOf "," payload = true ->
  split_from (pre ++ "base64," ++ payload) "base64," 0 = (pre, [payload]).
Proof.
  intros Hpre Hpayload. induction pre as [|a pre IH].
  - change ("" ++ "base64," ++ payload)
      with (String "b" ("ase64," ++ payload)).
    cbn [split_from].
    assert (Hp : String.prefix "base64," (String "b" ("ase64," ++ payload))
                 = true) by (destruct payload; reflexivity).
    rewrite Hp.
    change (String.length "base64," - 1)%nat with (String.length "ase64,").
    rewrite split_from_skip.
    rewrite (split_from_absent "," "base64," payload Hpayload eq_refl).
    reflexivity.
  - pose proof (no_early_marker a pre payload Hpre) as Hearly.
    change (String a pre ++ "base64," ++ payload)
      with (String a (pre ++ "base64," ++ payload)) in *.
    cbn [split_from]. rewrite Hearly.
    rewrite (IH (freeOf_tail "," a pre Hpre)). reflexivity.
Qed.

(** The validator and the decoder read the same payload in an image
    string without a comma and in a data URL. *)
Lemma plain_payload (image : string) :
  plainImage image ->
  afterComma image = image /\ afterMarker image = image.
Proof.
  unfold plainImage, afterComma, afterMarker. intros Hfree.
  rewrite (Contains_first_byte "," "" image Hfree).
  rewrite (Contains_free "," "base64," image Hfree eq_refl).
  split; reflexivity.
Qed.

Lemma dataURL_payload (image pre payload : string) :
  dataURL image pre payload ->
  afterComma image = payload /\ afterMarker image = payload.
Proof.
  intros (-> & Hpre & Hpayload). split.
  - unfold afterComma.
    assert (Hshape : pre ++ "base64," ++ payload
                     = (pre ++ "base64") ++ String "," payload)
      by (rewrite append_assoc; reflexivity).
    rewrite Hshape.
    rewrite (Contains_app_r (pre ++ "base64") (String "," payload) ",")
      by (cbn [Contains String.prefix];
          destruct (ascii_dec "," ","); [|contradiction];
          destruct payload; reflexivity).
    unfold Split. cbn [String.eqb Ascii.eqb Bool.eqb].
    rewrite split_from_first
      by (rewrite freeOf_app, Hpre; reflexivity).
    rewrite (split_from_absent "," "," payload Hpayload eq_refl).
    reflexivity.
  - unfold afterMarker.
    rewrite (Contains_app_r pre ("base64," ++ payload) "base64,")
      by apply Contains_self_prefix.
    unfold Split. cbn [String.eqb Ascii.eqb Bool.eqb].
    rewrite (split_from_marker pre payload Hpre Hpayload). reflexivity.
Qed.

(** A string that contains a byte is cut in two pieces at least. *)
Lemma count_free (b : ascii) (s : string) :
  freeOf b s = false -> (1 <= count_occ ascii_dec (bytes s) b)%nat.
Proof.
  unfold freeOf, bytes. induction s as [|a s IH]; [discriminate|].
  cbn [list_ascii_of_string forallb count_occ].
  destruct (ascii_dec a b) as [->|Hne]; [lia|].
  destruct (Ascii.eqb_spec a b) as [->|_]; [contradiction|].
  exact IH.
Qed.

Lemma Contains_byte_count (b : ascii) (s : string) :
  Contains s (String b "") = true ->
  (2 <= length (Split s (String b "")))%nat.
Proof.
  intros Hc. rewrite Split_length.
  destruct (freeOf b s) eqn:Hfree.
  - rewrite (Contains_first_byte b "" s Hfree) in Hc. discriminate.
  - pose proof (count_free b s Hfree). lia.
Qed.

Lemma format_length (data : string) :
  isValidImageFormat data = true -> (4 <= String.length data)%nat.
Proof.
  unfold isValidImageFormat.
  destruct (Nat.ltb_spec (String.length data) 4); [discriminate | lia].
Qed.
End RequestFacts.

Section FactoryFacts.
Import utf8 strings splitting regexp imageprocessor ocr parser Spec.
Import decoder factory request.
Local Open Scope string_scope.

Variable h : Helpers.
Variable engine : OCREngine.
Variable extractTextUsingOCR : Mat -> outcome string.
Variable licenseOrder cardOrder : list (string * Regexp).

Local Abbreviation theFactory :=
  (NewParserFactory h engine extractTextUsingOCR licenseOrder cardOrder).

(** The factory has a parser for the two document types of the request
    validator, and for no other. *)
Lemma factory_lookup (documentType : string) :
  GetParser theFactory documentType
  = if String.eqb documentType DocumentTypeDriversLicenseJP
    then inl (licenseParser h engine extractTextUsingOCR licenseOrder)
    else if String.eqb documentType DocumentTypeIndividualNumberCard
    then inl (cardParser h engine cardOrder)
    else inr documentType.
Proof.
  unfold GetParser, NewParserFactory, RegisterParser.
  cbn [parsers].
  unfold DocumentTypeDriversLicenseJP, DocumentTypeIndividualNumberCard.
  destruct (String.eqb_spec documentType "drivers_license_jp") as [->|Hl].
  - rewrite lookup_insert_ne by discriminate.
    rewrite lookup_insert_eq. reflexivity.
  - destruct (String.eqb_spec documentType "individual_number_card_jp")
      as [->|Hc].
    + rewrite lookup_insert_eq. reflexivity.
    + rewrite !lookup_insert_ne by congruence.
      rewrite lookup_empty. reflexivity.
Qed.

Lemma supported_types_keys (pf : ParserFactory)
      (order : list (string * DocumentParser)) :
  GetSupportedDocumentTypes pf order = map fst order.
Proof.
  unfold GetSupportedDocumentTypes.
  assert (Hacc : forall acc,
             fold_left (fun types entry => (types ++ [fst entry])%list)
                       order acc
             = (acc ++ map fst order)%list).
  { induction order as [|entry rest IH]; intros acc.
    - cbn. rewrite app_nil_r. reflexivity.
    - cbn [fold_left map]. rewrite IH, <- app_assoc. reflexivity. }
  apply (Hacc []).
Qed.
End FactoryFacts.

(** X15: the status that the handler gives to a request that [Validate]
    refuses: 400 when the image or the document type is blank or the
    payload is not valid base64, 422 when the image is too large or
    neither a PNG nor a JPEG file; for a document type that is not
    supported it is 422, unless the document type itself contains
    [field is required] or [invalid base64 encoding], which makes it
    400. *)
Theorem refusal_status (DecodeString : string -> option string)
        (req : request.OCRRequest) (msg : string) :
  request.Validate DecodeString req = Some msg ->
  request.getErrorStatusCode msg = request.refusalStatus DecodeString req.
Proof.
  unfold request.Validate, request.refusalStatus, request.blank.
  destruct (String.eqb (strings.TrimSpace (request.Image req)) "");
    [intros [= <-]; reflexivity|].
  destruct (String.eqb (strings.TrimSpace (request.DocumentType req)) "");
    [intros [= <-]; reflexivity|].
  cbn [orb].
  destruct (request.isValidDocumentType (request.DocumentType req));
    cbn [negb].
  - unfold request.validateBase64Image.
    destruct (DecodeString (request.afterComma (request.Image req)))
      as [decodedData|]; [|intros [= <-]; reflexivity].
    destruct (request.MaxImageSize <? Z.of_nat (String.length decodedData))%Z;
      [intros [= <-]; reflexivity|].
    destruct (request.isValidImageFormat decodedData); cbn [negb];
      [discriminate | intros [= <-]; reflexivity].
  - intros [= <-]. unfold request.getErrorStatusCode.
    rewrite (Contains_past_prefix "f" "ield is required"
               "unsupported document type: ")
      by reflexivity.
    rewrite (Contains_past_prefix "i" "nvalid base64 encoding"
               "unsupported document type: ")
      by reflexivity.
    destruct (strings.Contains (request.DocumentType req) "field is required"
              || strings.Contains (request.DocumentType req)
                   "invalid base64 encoding"); [reflexivity|].
    rewrite (Contains_app_l "unsupported document type: "
               (request.DocumentType req) "unsupported document type")
      by reflexivity.
    reflexivity.
Qed.

(** X15, witness: a request for a passport, with a decoder that refuses
    every payload. *)
Lemma refusal_status_witness :
  request.Validate (fun _ => None)
    {| request.Image := "AAAA"; request.DocumentType := "passport" |}
  = Some "unsupported document type: passport"%string /\
  request.getErrorStatusCode "unsupported document type: passport" = 422%Z.
Proof.
  assert (Hrefused :
            request.Validate (fun _ => None)
              {| request.Image := "AAAA";
                 request.DocumentType := "passport" |}
            = Some "unsupported document type: passport"%string)
    by (vm_compute; reflexivity).
  split; [exact Hrefused|].
  exact (refusal_status (fun _ => None) _ _ Hrefused).
Defined.

(** X16: the factory that the handler builds has a parser exactly for
    the document types that [isValidDocumentType] accepts, the
    driver's-license parser and the individual-number-card parser under
    their own names; for another document type [GetParser] fails with
    the error of that document type; and in whatever order the map is
    visited, [GetSupportedDocumentTypes] lists the two names, each
    once. *)
Theorem factory_supports_valid_types
        (h : parser.Helpers) (engine : ocr.OCREngine)
        (extractTextUsingOCR : imageprocessor.Mat -> outcome string)
        (licenseOrder cardOrder : list (string * regexp.Regexp))
        (documentType : string)
        (order : list (string * factory.DocumentParser)) :
  order ≡ₚ map_to_list
             (factory.parsers
                (factory.NewParserFactory h engine extractTextUsingOCR
                   licenseOrder cardOrder)) ->
  (request.isValidDocumentType documentType = true <->
   exists parser,
     factory.GetParser
       (factory.NewParserFactory h engine extractTextUsingOCR
          licenseOrder cardOrder) documentType = inl parser) /\
  (request.isValidDocumentType documentType = false <->
   factory.GetParser
     (factory.NewParserFactory h engine extractTextUsingOCR
        licenseOrder cardOrder) documentType = inr documentType) /\
  factory.GetSupportedDocumentTypes
    (factory.NewParserFactory h engine extractTextUsingOCR
       licenseOrder cardOrder) order
  ≡ₚ [request.DocumentTypeDriversLicenseJP;
      request.DocumentTypeIndividualNumberCard].
Proof.
  intros Horder. rewrite factory_lookup. unfold request.isValidDocumentType.
  split; [|split].
  - destruct (String.eqb documentType request.DocumentTypeDriversLicenseJP);
      [split; eauto|].
    destruct (String.eqb documentType
                request.DocumentTypeIndividualNumberCard);
      [split; eauto|].
    split; [discriminate | intros [parser [=]]].
  - destruct (String.eqb documentType request.DocumentTypeDriversLicenseJP);
      [split; discriminate|].
    destruct (String.eqb documentType
                request.DocumentTypeIndividualNumberCard);
      [split; discriminate|].
    split; reflexivity.
  - rewrite supported_types_keys, Horder.
    unfold factory.NewParserFactory, factory.RegisterParser.
    cbn [factory.parsers].
    rewrite map_to_list_insert
      by (rewrite lookup_insert_ne by discriminate; apply lookup_empty).
    rewrite map_to_list_insert by apply lookup_empty.
    rewrite map_to_list_empty. cbn [map fst].
    apply Permutation_swap.
Qed.

(** X16, witness: the order in which the table of the factory is
    listed. *)
Lemma factory_supports_valid_types_witness :
  factory.GetSupportedDocumentTypes
    (factory.NewParserFactory parser.Inline.helpers
       (Spec.textOnlyEngine "") (fun _ => Err EmptyImage) [] [])
    (map_to_list
       (factory.parsers
          (factory.NewParserFactory parser.Inline.helpers
             (Spec.textOnlyEngine "") (fun _ => Err EmptyImage) [] [])))
  ≡ₚ [request.DocumentTypeDriversLicenseJP;
      request.DocumentTypeIndividualNumberCard].
Proof.
  exact (proj2 (proj2 (factory_supports_valid_types
                         parser.Inline.helpers (Spec.textOnlyEngine "")
                         (fun _ => Err EmptyImage) [] []
                         "passport" _ (Permutation_refl _)))).
Defined.

(** X17: a request that [Validate] accepts, whose image string has no
    comma or is a data URL with one [base64,] marker and no other comma,
    passes the first two steps of [processOCRRequest]: the image decodes
    to the data that the validator has checked (a PNG or JPEG signature,
    at most [MaxImageSize] bytes, not empty, so that [ToBytes] succeeds
    on it), the factory has a parser for its document type, and the
    request fails only if that parser does. *)
Theorem validated_request_reaches_parser
        (DecodeString : string -> option string)
        (h : parser.Helpers) (engine : ocr.OCREngine)
        (extractTextUsingOCR : imageprocessor.Mat -> outcome string)
        (licenseOrder cardOrder : list (string * regexp.Regexp))
        (req : request.OCRRequest) :
  request.Validate DecodeString req = None ->
  request.plainImage (request.Image req)
  \/ (exists prefix payload,
        request.dataURL (request.Image req) prefix payload) ->
  exists data parser,
    decoder.ProcessImage DecodeString (request.Image req) = inl data /\
    request.isValidImageFormat data = true /\
    (Z.of_nat (String.length data) <= request.MaxImageSize)%Z /\
    imageprocessor.ToBytes data = Ok data /\
    factory.GetParser
      (factory.NewParserFactory h engine extractTextUsingOCR
         licenseOrder cardOrder) (request.DocumentType req) = inl parser /\
    request.processOCRRequest DecodeString
      (factory.NewParserFactory h engine extractTextUsingOCR
         licenseOrder cardOrder) req
    = match factory.Parse parser data with
      | Ok extractedData =>
        inl {| request.responseType := request.DocumentType req;
               request.Data := extractedData |}
      | Err err => inr (request.ParseFailed err)
      end.
Proof.
  intros Hvalid Hshape.
  assert (Hpayload : request.afterComma (request.Image req)
                     = decoder.afterMarker (request.Image req)).
  { destruct Hshape as [Hplain | (prefix & payload & Hurl)].
    - destruct (plain_payload _ Hplain) as [-> ->]. reflexivity.
    - destruct (dataURL_payload _ _ _ Hurl) as [-> ->]. reflexivity. }
  unfold request.Validate in Hvalid.
  destruct (String.eqb_spec (strings.TrimSpace (request.Image req)) "")
    as [|Himage]; [discriminate|].
  destruct (String.eqb (strings.TrimSpace (request.DocumentType req)) "");
    [discriminate|].
  destruct (request.isValidDocumentType (request.DocumentType req))
    eqn:Htype; [|discriminate].
  cbn [negb] in Hvalid. unfold request.validateBase64Image in Hvalid.
  rewrite Hpayload in Hvalid.
  destruct (DecodeString (decoder.afterMarker (request.Image req)))
    as [data|] eqn:Hdecode; [|discriminate].
  destruct (Z.ltb_spec request.MaxImageSize
              (Z.of_nat (String.length data))) as [|Hsize];
    [discriminate|].
  destruct (request.isValidImageFormat data) eqn:Hformat; [|discriminate].
  pose proof (format_length data Hformat) as Hlength.
  assert (Hnonempty : (String.length data =? 0)%nat = false)
    by (apply Nat.eqb_neq; lia).
  assert (Hprocess :
            decoder.ProcessImage DecodeString (request.Image req) = inl data).
  { unfold decoder.ProcessImage, decoder.DecodeBase64.
    destruct (String.eqb_spec (request.Image req) "") as [Hempty|_].
    - rewrite Hempty in Himage. contradiction Himage. reflexivity.
    - rewrite Hdecode, Hnonempty. reflexivity. }
  pose proof (factory_lookup h engine extractTextUsingOCR licenseOrder
                cardOrder (request.DocumentType req)) as Hfactory.
  unfold request.isValidDocumentType in Htype.
  assert (Hparser : exists parser,
             factory.GetParser
               (factory.NewParserFactory h engine extractTextUsingOCR
                  licenseOrder cardOrder) (request.DocumentType req)
             = inl parser).
  { rewrite Hfactory.
    destruct (String.eqb (request.DocumentType req)
                request.DocumentTypeDriversLicenseJP); [eauto|].
    destruct (String.eqb (request.DocumentType req)
                request.DocumentTypeIndividualNumberCard);
      [eauto | discriminate]. }
  destruct Hparser as [parser Hparser].
  exists data, parser.
  split; [exact Hprocess|]. split; [exact Hformat|].
  split; [exact Hsize|].
  split; [unfold imageprocessor.ToBytes; rewrite Hnonempty; reflexivity|].
  split; [exact Hparser|].
  unfold request.processOCRRequest. rewrite Hprocess, Hparser.
  destruct (factory.Parse parser data); reflexivity.
Qed.

(** X17, witness: a data URL of a file with the signature of a PNG
    image, for a driver's license. *)
Lemma validated_request_reaches_parser_witness :
  request.Validate request.sampleDecoder
    {| request.Image := "data:image/png;base64,iVBORw0KGgo=";
       request.DocumentType := "drivers_license_jp" |} = None /\
  exists data parser,
    decoder.ProcessImage request.sampleDecoder
      "data:image/png;base64,iVBORw0KGgo=" = inl data /\
    factory.GetParser
      (factory.NewParserFactory parser.Inline.helpers
         (Spec.textOnlyEngine "") (fun _ => Err EmptyImage) [] [])
      "drivers_license_jp" = inl parser.
Proof.
  assert (Hvalid :
            request.Validate request.sampleDecoder
              {| request.Image := "data:image/png;base64,iVBORw0KGgo=";
                 request.DocumentType := "drivers_license_jp" |} = None)
    by (vm_compute; reflexivity).
  assert (Hshape :
            request.plainImage "data:image/png;base64,iVBORw0KGgo="
            \/ (exists prefix payload,
                  request.dataURL "data:image/png;base64,iVBORw0KGgo="
                    prefix payload)).
  { right. exists "data:image/png;"%string, "iVBORw0KGgo="%string.
    unfold request.dataURL. repeat split; reflexivity. }
  split; [exact Hvalid|].
  destruct (validated_request_reaches_parser request.sampleDecoder
              parser.Inline.helpers (Spec.textOnlyEngine "")
              (fun _ => Err EmptyImage) [] [] _ Hvalid Hshape)
    as (data & parser & Hprocess & _ & _ & _ & Hparser & _).
  exists data, parser. split; [exact Hprocess | exact Hparser].
Defined.

(** ** The municipality *)

Section Municipality.
Import utf8 strings regexp ocr parser Spec Props.
Local Open Scope string_scope.

Lemma extractMunicipality_find (regions : list RegionInfo) :
  extractMunicipality regions
  = trimmedText <$> List.find municipalityFragment regions.
Proof.
  induction regions as [|region rest IH]; [reflexivity|].
  cbn [extractMunicipality List.find]. unfold municipalityFragment at 1.
  destruct (hasDivisionMarker (Text region)
            && (3 <=? String.length (TrimSpace (Text region)))%nat
            && (String.length (TrimSpace (Text region)) <=? 20)%nat);
    [reflexivity | exact IH].
Qed.

Lemma find_holds (P : RegionInfo -> bool) (regions : list RegionInfo)
      (region : RegionInfo) :
  List.find P regions = Some region -> P region = true.
Proof. intros Hfind. apply (find_some P regions Hfind). Qed.
End Municipality.

(** X18: unlike the other fields of the region-based stage, the
    municipality is taken from the first fragment, in the order
    returned and whatever its category, whose text has one of the
    markers 都, 県, 市, 区 and, once trimmed, 3 to 20 bytes; the
    municipality is that trimmed text, and is absent when there is no
    such fragment. *)
Theorem municipality_first_wins (d : Spec.DocumentType)
        (h : parser.Helpers) (regions : list ocr.RegionInfo) :
  Props.regionStage d h regions !! "municipality"%string
  = Props.trimmedText <$> List.find Props.municipalityFragment regions /\
  (forall municipality,
      Props.regionStage d h regions !! "municipality"%string
      = Some municipality ->
      (3 <= String.length municipality <= 20)%nat).
Proof.
  assert (Hfirst :
            Props.regionStage d h regions !! "municipality"%string
            = Props.trimmedText
                <$> List.find Props.municipalityFragment regions).
  { destruct d; cbn [Props.regionStage];
      rewrite ?license_region_lookup, ?card_region_lookup;
      cbn [String.eqb Ascii.eqb Bool.eqb];
      unfold parser.extractMunicipalityFromRegions, Props.nonEmpty;
      rewrite extractMunicipality_find;
      (destruct (List.find Props.municipalityFragment regions)
         as [region|] eqn:Hfind; [|reflexivity]);
      apply find_holds in Hfind; unfold Props.municipalityFragment in Hfind;
      apply andb_prop in Hfind as [[_ Hlow]%andb_prop _];
      apply Nat.leb_le in Hlow; cbn [fmap option_fmap option_map from_option id];
      unfold Props.trimmedText in *;
      (destruct (String.eqb_spec (strings.TrimSpace (ocr.Text region)) "")
         as [Hempty|_]; [|reflexivity]);
      rewrite Hempty in Hlow; cbn in Hlow; lia. }
  split; [exact Hfirst|].
  intros municipality. rewrite Hfirst.
  destruct (List.find Props.municipalityFragment regions)
    as [region|] eqn:Hfind; [|discriminate].
  intros [= <-]. apply find_holds in Hfind.
  unfold Props.municipalityFragment in Hfind.
  apply andb_prop in Hfind as [[_ Hlow]%andb_prop Hhigh].
  apply Nat.leb_le in Hlow, Hhigh. unfold Props.trimmedText. lia.
Qed.

(** X19: the validator and the decoder do not read the same payload in
    an image string that has a comma but no [base64,] marker: the
    validator checks the part between the first comma and the second
    one, which has no comma, and the decoder is given the whole
    string. *)
Theorem payload_mismatch (image : string) :
  strings.Contains image "," = true ->
  strings.Contains image "base64," = false ->
  Spec.freeOf "," (request.afterComma image) = true /\
  decoder.afterMarker image = image /\
  request.afterComma image <> decoder.afterMarker image.
Proof.
  intros Hcomma Hmarker.
  assert (Hfree : Spec.freeOf "," (request.afterComma image) = true).
  { unfold request.afterComma. rewrite Hcomma.
    pose proof (Contains_byte_count "," image Hcomma) as Hlen.
    destruct (Nat.ltb_spec 1 (length (splitting.Split image ","))) as [_|];
      [|lia].
    apply (nth_Forall (fun piece => Spec.freeOf "," piece = true)); [|lia].
    apply (Split_byte "," image). }
  assert (Hwhole : decoder.afterMarker image = image)
    by (unfold decoder.afterMarker; rewrite Hmarker; reflexivity).
  split; [exact Hfree|]. split; [exact Hwhole|].
  rewrite Hwhole. intros Hsame. rewrite Hsame in Hfree.
  rewrite (Contains_first_byte "," "" image Hfree) in Hcomma. discriminate.
Qed.

(** X19, witness: a data URL without the marker. *)
Lemma payload_mismatch_witness :
  strings.Contains "data:image/png,iVBORw0KGgo=" "," = true /\
  strings.Contains "data:image/png,iVBORw0KGgo=" "base64," = false /\
  request.afterComma "data:image/png,iVBORw0KGgo="
  <> decoder.afterMarker "data:image/png,iVBORw0KGgo=".
Proof.
  assert (Hcomma : strings.Contains "data:image/png,iVBORw0KGgo=" "," = true)
    by (vm_compute; reflexivity).
  assert (Hmarker :
            strings.Contains "data:image/png,iVBORw0KGgo=" "base64," = false)
    by (vm_compute; reflexivity).
  split; [exact Hcomma|]. split; [exact Hmarker|].
  exact (proj2 (proj2 (payload_mismatch _ Hcomma Hmarker))).
Defined.
